(** * Alfred: plugin registry, text dispatch, model selection and task
    bookkeeping

    A shallow embedding of [src/tools/plugin_executor.py],
    [src/orchestrator/llm_router.py] and [src/orchestrator/core.py].

    Conventions of the embedding:
    - a Python [str] is a Rocq [string] whose characters are code points
      below 256;
    - a Python exception is a class name with its [str()] text; an
      exception whose class does not derive from [Exception] carries the
      name of the built-in class it derives from ([SystemExit],
      [KeyboardInterrupt], [GeneratorExit], [BaseException]), and a handler
      [except Exception] lets it pass;
    - a method that mutates [self] is a function from the object's state to
      an outcome and the state it leaves behind: the state written before an
      exception is raised stays written;
    - [logger] calls append to a log kept in the state of the object that
      makes them;
    - the commands handed to [subprocess.run] and the collaborators a task
      enters are recorded in the state ([subprocesses], [trace]), so that
      "no subprocess is started" and "no step is retried" can be stated;
    - plugin code, the shell, the memory store and the model vendors are
      outside the program: a plugin function and an import are given by
      their outcome, a shell command by its result, the memory store and
      the model call by functions that return or raise. None of them
      touches the registry behind the executor's back;
    - the directory an install copies from lies outside the plugin root
      ([outside]);
    - the name in a manifest is taken to be a single path component, so
      that [self.plugin_dir / name] is the child of the plugin root with
      that name; the statements about [install_plugin] say so
      ([is_component]);
    - the client constructors and the requests of the model vendors raise
      exceptions that derive from [Exception]. *)

From Stdlib Require Import String Ascii DecimalString ZArith.
From stdpp Require Import gmap strings list fin_maps.

Open Scope string_scope.
Open Scope list_scope.

(** ** Python string operations *)

Module Py.

(** [str.isspace] on the code points below 256. *)
Definition isspace (c : ascii) : bool :=
  let n := nat_of_ascii c in
  (((9 <=? n) && (n <=? 13)) || ((28 <=? n) && (n <=? 32))
   || (n =? 133) || (n =? 160))%nat.

Definition newline : ascii := ascii_of_nat 10.
Definition nl : string := String newline "".

Fixpoint lstrip_by (p : ascii → bool) (s : string) : string :=
  match s with
  | "" => ""
  | String c s' => if p c then lstrip_by p s' else s
  end.

Fixpoint rstrip_by (p : ascii → bool) (s : string) : string :=
  match s with
  | "" => ""
  | String c s' =>
      match rstrip_by p s' with
      | "" => if p c then "" else String c ""
      | r => String c r
      end
  end.

Definition strip_by (p : ascii → bool) (s : string) : string :=
  rstrip_by p (lstrip_by p s).

(** [s.strip()] *)
Definition strip (s : string) : string := strip_by isspace s.

Fixpoint mem_char (c : ascii) (chars : string) : bool :=
  match chars with
  | "" => false
  | String d chars' => Ascii.eqb c d || mem_char c chars'
  end.

(** [s.strip(chars)] *)
Definition strip_chars (chars s : string) : string :=
  strip_by (fun c => mem_char c chars) s.

(** [s.startswith(p)] *)
Definition startswith (s p : string) : bool := String.prefix p s.

(** [s[n:]] *)
Fixpoint drop (n : nat) (s : string) : string :=
  match n, s with
  | O, _ => s
  | S _, "" => ""
  | S n', String _ s' => drop n' s'
  end.

(** [s[:n]] *)
Fixpoint take (n : nat) (s : string) : string :=
  match n, s with
  | O, _ => ""
  | S _, "" => ""
  | S n', String c s' => String c (take n' s')
  end.

(** [sub in s] *)
Fixpoint contains (sub s : string) : bool :=
  String.prefix sub s
  || match s with
     | "" => false
     | String _ s' => contains sub s'
     end.

(** [s.split(c)] for a one-character separator. *)
Fixpoint split (c : ascii) (s : string) : list string :=
  match s with
  | "" => [""]
  | String a s' =>
      if Ascii.eqb a c then "" :: split c s'
      else match split c s' with
           | h :: t => String a h :: t
           | [] => [String a ""]
           end
  end.

(** [s.split(c, 1)]: one or two pieces. *)
Fixpoint split1 (c : ascii) (s : string) : list string :=
  match s with
  | "" => [""]
  | String a s' =>
      if Ascii.eqb a c then [""; s']
      else match split1 c s' with
           | h :: t => String a h :: t
           | [] => [String a ""]
           end
  end.

(** [sep.join(l)] *)
Definition join (sep : string) (l : list string) : string :=
  String.concat sep l.

(** [s.lower()] on the code points below 256: A-Z and the accented
    capitals 192-222 (but the multiplication sign 215) move up by 32. *)
Definition lower_char (c : ascii) : ascii :=
  let n := nat_of_ascii c in
  if (((65 <=? n) && (n <=? 90))
      || ((192 <=? n) && (n <=? 222) && negb (n =? 215)))%nat
  then ascii_of_nat (n + 32) else c.

Fixpoint lower (s : string) : string :=
  match s with
  | "" => ""
  | String c s' => String (lower_char c) (lower s')
  end.

(** [str(n)] for an [int]. *)
Definition str_of_Z (z : Z) : string := NilZero.string_of_int (Z.to_int z).
Definition str_of_nat (n : nat) : string := NilZero.string_of_uint (Nat.to_uint n).

(** [any(p(x) for x in l)] *)
Definition any {A} (p : A → bool) (l : list A) : bool := existsb p l.

(** A [dict] with string keys in insertion order: [d[k] = v] replaces the
    value of an existing key where it stands, and appends a new key. *)
Fixpoint dict_set {V} (d : list (string * V)) (k : string) (v : V)
  : list (string * V) :=
  match d with
  | [] => [(k, v)]
  | (k', v') :: d' =>
      if String.eqb k' k then (k', v) :: d' else (k', v') :: dict_set d' k v
  end.

Fixpoint dict_get {V} (d : list (string * V)) (k : string) : option V :=
  match d with
  | [] => None
  | (k', v') :: d' => if String.eqb k' k then Some v' else dict_get d' k
  end.

End Py.

(** ** Exceptions and the state-and-exception monad *)

Record exn := Exn { exn_class : string; exn_str : string }.

Definition ValueError (msg : string) : exn := Exn "ValueError" msg.
Definition TypeError (msg : string) : exn := Exn "TypeError" msg.
Definition TimeoutError (msg : string) : exn := Exn "TimeoutError" msg.
Definition FileNotFoundError (path : string) : exn :=
  Exn "FileNotFoundError" ("[Errno 2] No such file or directory: '" +:+ path +:+ "'").
Definition PermissionError (path : string) : exn :=
  Exn "PermissionError" ("[Errno 13] Permission denied: '" +:+ path +:+ "'").
Definition NotADirectoryError (path : string) : exn :=
  Exn "NotADirectoryError" ("[Errno 20] Not a directory: '" +:+ path +:+ "'").

(** The built-in classes that do not derive from [Exception]. *)
Definition outside_Exception : list string :=
  ["BaseException"; "SystemExit"; "KeyboardInterrupt"; "GeneratorExit"].

(** [isinstance(e, Exception)] *)
Definition is_Exception (e : exn) : bool :=
  negb (existsb (String.eqb (exn_class e)) outside_Exception).

Inductive result (A : Type) : Type :=
| Ok (a : A)
| Raise (e : exn).
Arguments Ok {A} a.
Arguments Raise {A} e.

(** A computation over a state [S]: its outcome and the state it leaves. *)
Definition M (S A : Type) : Type := S → result A * S.

Definition ret {S A} (a : A) : M S A := fun s => (Ok a, s).
Definition raise {S A} (e : exn) : M S A := fun s => (Raise e, s).
Definition bind {S A B} (c : M S A) (k : A → M S B) : M S B :=
  fun s => match c s with
           | (Ok a, s') => k a s'
           | (Raise e, s') => (Raise e, s')
           end.
Definition get {S} : M S S := fun s => (Ok s, s).
Definition modify {S} (f : S → S) : M S unit := fun s => (Ok tt, f s).

(** [try: body / except Exception as e: handler e]: an exception that does
    not derive from [Exception] passes the handler. *)
Definition try_except {S A} (body : M S A) (handler : exn → M S A) : M S A :=
  fun s => match body s with
           | (Ok a, s') => (Ok a, s')
           | (Raise e, s') => if is_Exception e then handler e s' else (Raise e, s')
           end.

(** [try: body / finally: cleanup] *)
Definition try_finally {S A} (body : M S A) (cleanup : M S unit) : M S A :=
  fun s => match body s with
           | (Ok a, s') =>
               match cleanup s' with
               | (Ok _, s'') => (Ok a, s'')
               | (Raise e, s'') => (Raise e, s'')
               end
           | (Raise e, s') =>
               match cleanup s' with
               | (Ok _, s'') => (Raise e, s'')
               | (Raise e', s'') => (Raise e', s'')
               end
           end.

(** Run a computation on a component of a larger state. *)
Definition zoom {S T A} (proj : T → S) (inj : S → T → T) (c : M S A) : M T A :=
  fun t => match c (proj t) with (r, s') => (r, inj s' t) end.

Declare Scope monad_scope.
Delimit Scope monad_scope with M.
Notation "x <- c ;; k" := (bind c (fun x => k))
  (at level 100, c at next level, right associativity) : monad_scope.
Notation "c ;; k" := (bind c (fun _ => k))
  (at level 100, right associativity) : monad_scope.
Notation "'when' b 'then' c" := (if b then c else ret tt)
  (at level 60, only parsing) : monad_scope.

(** [for x in l: body x] *)
Fixpoint for_each {S A} (l : list A) (body : A → M S unit) : M S unit :=
  match l with
  | [] => ret tt
  | x :: l' => bind (body x) (fun _ => for_each l' body)
  end.

Inductive level := DEBUG | INFO | WARNING | ERROR.

(** ** The plugin registry and executor ([src/tools/plugin_executor.py]) *)

(** The [PluginManifest] dataclass. *)
Module PluginManifest.
Record t := Build {
  name : string;
  version : string;
  description : string;
  entry_point : string;
  permissions : list string;
  dependencies : list string;
  enabled : bool;
}.

(** [manifest.enabled = b] *)
Definition set_enabled (m : t) (b : bool) : t :=
  Build (name m) (version m) (description m) (entry_point m)
        (permissions m) (dependencies m) b.
End PluginManifest.

(** Keyword arguments of a plugin call, in the order they were parsed. *)
Abbreviation kwargs := (list (string * string)).

(** What calling a plugin's function does: it returns an object (kept as
    its [str()] text), raises, or is still running when the alarm set by
    [signal.alarm(self.timeout)] fires. *)
Inductive call_outcome :=
| Returned (v : string)
| Raised (e : exn)
| Overran.

(** A loaded module: its attributes by name. *)
Abbreviation PyModule := (gmap string (kwargs → call_outcome)).

(** *** The disk

    The plugin root's children are addressed by name, as [iterdir] yields
    them and as [self.plugin_dir / name] addresses them when the name is a
    single path component; the paths given to [install_plugin] live apart
    from the root. The dataclass annotations are taken as the types of a
    manifest's fields. *)

(** A JSON object read from [manifest.json], seen through the dataclass: the
    value of each of its seven fields when the key is present, and the other
    keys of the object. *)
Record ManifestObject := {
  o_name : option string;
  o_version : option string;
  o_description : option string;
  o_entry_point : option string;
  o_permissions : option (list string);
  o_dependencies : option (list string);
  o_enabled : option bool;
  o_unknown : list string;
}.

Inductive json :=
| JObject (o : ManifestObject)
| JOther (type_name : string).

(** The text of a [manifest.json]: [json.load] fails on it or gives a value. *)
Inductive manifest_text :=
| Malformed (msg : string)
| Parses (j : json).

(** What executing an entry-point file does. *)
Inductive source_file :=
| Imports (m : PyModule)
| ImportFails (e : exn).

(** A directory: its [manifest.json] if it has one, its other files by name,
    whether its [manifest.json] can be opened for writing, and whether the
    entries of the directory can be removed (the write permission on the
    directory itself). *)
Record folder := {
  manifest_json : option manifest_text;
  files : gmap string source_file;
  writable : bool;
  dir_writable : bool;
}.

Inductive node :=
| RegularFile
| Directory (d : folder).

(** The children of the plugin root by name, the nodes at the other paths
    by the text of the path, and whether children of the root can be removed
    and created. *)
Record FileSystem := {
  root : gmap string node;
  outside : gmap string node;
  root_writable : bool;
}.

(** What [subprocess.run(command, shell=True, ..., timeout=30)] does. *)
Inductive process :=
| Completed (returncode : Z) (stdout stderr : string)
| TimeoutExpired
| SpawnFails (e : exn).

Module PluginExecutor.
Import PluginManifest.

Record state := {
  plugin_dir : string;
  timeout : nat;
  fs : FileSystem;
  plugins : list (string * PluginManifest.t);
  plugin_modules : gmap string PyModule;
  log : list (level * string);
  shell : string → process;
  subprocesses : list string;
  alarm : nat;
}.

Definition set_fs (f : FileSystem) (s : state) : state :=
  Build_state (plugin_dir s) (timeout s) f (plugins s) (plugin_modules s)
              (log s) (shell s) (subprocesses s) (alarm s).
Definition set_plugins (p : list (string * PluginManifest.t)) (s : state) : state :=
  Build_state (plugin_dir s) (timeout s) (fs s) p (plugin_modules s)
              (log s) (shell s) (subprocesses s) (alarm s).
Definition set_plugin_modules (m : gmap string PyModule) (s : state) : state :=
  Build_state (plugin_dir s) (timeout s) (fs s) (plugins s) m
              (log s) (shell s) (subprocesses s) (alarm s).
Definition set_log (l : list (level * string)) (s : state) : state :=
  Build_state (plugin_dir s) (timeout s) (fs s) (plugins s) (plugin_modules s)
              l (shell s) (subprocesses s) (alarm s).
Definition set_subprocesses (l : list string) (s : state) : state :=
  Build_state (plugin_dir s) (timeout s) (fs s) (plugins s) (plugin_modules s)
              (log s) (shell s) l (alarm s).
Definition set_alarm (n : nat) (s : state) : state :=
  Build_state (plugin_dir s) (timeout s) (fs s) (plugins s) (plugin_modules s)
              (log s) (shell s) (subprocesses s) n.
Definition set_root (r : gmap string node) (f : FileSystem) : FileSystem :=
  Build_FileSystem r (outside f) (root_writable f).

Local Open Scope monad_scope.

(** [logger.<lvl>(msg)] *)
Definition logger (lvl : level) (msg : string) : M state unit :=
  modify (fun s => set_log (log s ++ [(lvl, msg)]) s).

(** [str(self.plugin_dir / child)] *)
Definition child_path (s : state) (child : string) : string :=
  plugin_dir s +:+ "/" +:+ child.

(** [open(plugin_path / "manifest.json", 'r')] followed by [json.load]. *)
Definition open_read (path : string) (n : option node) : result manifest_text :=
  match n with
  | None => Raise (FileNotFoundError path)
  | Some RegularFile => Raise (NotADirectoryError path)
  | Some (Directory d) =>
      match manifest_json d with
      | None => Raise (FileNotFoundError path)
      | Some t => Ok t
      end
  end.

Definition json_load (t : manifest_text) : result json :=
  match t with
  | Malformed msg => Raise (Exn "JSONDecodeError" msg)
  | Parses j => Ok j
  end.

Definition if_missing {A} (field : option A) (key : string) : list string :=
  match field with
  | Some _ => []
  | None => [key]
  end.

(** The required fields an object lacks, in the order of the dataclass. *)
Definition missing_fields (o : ManifestObject) : list string :=
  if_missing (o_name o) "name"
  ++ if_missing (o_version o) "version"
  ++ if_missing (o_description o) "description"
  ++ if_missing (o_entry_point o) "entry_point"
  ++ if_missing (o_permissions o) "permissions"
  ++ if_missing (o_dependencies o) "dependencies".

Definition quoted (s : string) : string := "'" +:+ s +:+ "'".

(** The way CPython lists the names of missing arguments. *)
Fixpoint commas (a : string) (l : list string) : string :=
  match l with
  | [] => "and " +:+ quoted a
  | b :: l' => quoted a +:+ ", " +:+ commas b l'
  end.

Definition and_list (l : list string) : string :=
  match l with
  | [] => ""
  | [a] => quoted a
  | [a; b] => quoted a +:+ " and " +:+ quoted b
  | a :: l' => commas a l'
  end.

Definition missing_message (l : list string) : string :=
  "PluginManifest.__init__() missing " +:+ Py.str_of_nat (length l)
  +:+ " required positional argument"
  +:+ (if Nat.eqb (length l) 1 then "" else "s") +:+ ": " +:+ and_list l.

(** The dataclass constructor applied to the keys of [manifest_data]. *)
Definition PluginManifest_init (j : json) : result PluginManifest.t :=
  match j with
  | JOther ty =>
      Raise (TypeError ("tools.plugin_executor.PluginManifest() argument after ** must be a mapping, not " +:+ ty))
  | JObject o =>
      match o_unknown o with
      | k :: _ =>
          Raise (TypeError ("PluginManifest.__init__() got an unexpected keyword argument " +:+ quoted k))
      | [] =>
          match o_name o, o_version o, o_description o, o_entry_point o,
                o_permissions o, o_dependencies o with
          | Some n, Some v, Some d, Some e, Some p, Some deps =>
              Ok (PluginManifest.Build n v d e p deps (default true (o_enabled o)))
          | _, _, _, _, _, _ => Raise (TypeError (missing_message (missing_fields o)))
          end
      end
  end.

(** [manifest.__dict__] as [json.dump] writes it. *)
Definition dump (m : PluginManifest.t) : ManifestObject :=
  {| o_name := Some (name m);
     o_version := Some (version m);
     o_description := Some (description m);
     o_entry_point := Some (entry_point m);
     o_permissions := Some (permissions m);
     o_dependencies := Some (dependencies m);
     o_enabled := Some (enabled m);
     o_unknown := [] |}.

Definition lift {A} (r : result A) : M state A := fun s => (r, s).

(** [with open(manifest_file, 'w') as f: json.dump(manifest.__dict__, f, indent=2)]
    for the manifest file of the root's child [child]. *)
Definition write_manifest (child : string) (m : PluginManifest.t) : M state unit :=
  s <- get ;;
  let path := child_path s child +:+ "/manifest.json" in
  match root (fs s) !! child with
  | None => raise (FileNotFoundError path)
  | Some RegularFile => raise (NotADirectoryError path)
  | Some (Directory d) =>
      if writable d then
        let d' := {| manifest_json := Some (Parses (JObject (dump m)));
                     files := files d; writable := writable d;
                     dir_writable := dir_writable d |} in
        modify (fun s => set_fs (set_root (<[child := Directory d']> (root (fs s))) (fs s)) s)
      else raise (PermissionError path)
  end.

(** The entry-point file of the root's child [child], if it exists. *)
Definition entry_file (s : state) (child entry : string) : option source_file :=
  match root (fs s) !! child with
  | Some (Directory d) => files d !! entry
  | _ => None
  end.

Definition _load_plugin_module (child : string) (manifest : PluginManifest.t)
  : M state unit :=
  try_except
    (s <- get ;;
     match entry_file s child (entry_point manifest) with
     | None =>
         logger ERROR ("Plugin entry point not found: "
                       +:+ child_path s child +:+ "/" +:+ entry_point manifest)
     | Some (ImportFails e) => raise e
     | Some (Imports module) =>
         modify (fun s => set_plugin_modules
                            (<[name manifest := module]> (plugin_modules s)) s) ;;
         logger DEBUG ("Loaded plugin module: " +:+ name manifest)
     end)
    (fun e => logger ERROR ("Failed to load plugin module " +:+ name manifest
                            +:+ ": " +:+ exn_str e)).

Definition _load_plugin (child : string) : M state unit :=
  try_except
    (s <- get ;;
     t <- lift (open_read (child_path s child +:+ "/manifest.json")
                          (root (fs s) !! child)) ;;
     manifest_data <- lift (json_load t) ;;
     manifest <- lift (PluginManifest_init manifest_data) ;;
     modify (fun s => set_plugins (Py.dict_set (plugins s) (name manifest) manifest) s) ;;
     (if enabled manifest then _load_plugin_module child manifest else ret tt) ;;
     logger DEBUG ("Loaded plugin: " +:+ name manifest))
    (fun e => s <- get ;;
              logger ERROR ("Failed to load plugin from " +:+ child_path s child
                            +:+ ": " +:+ exn_str e)).

(** [plugin_path.is_dir() and (plugin_path / "manifest.json").exists()] *)
Definition is_candidate (n : node) : bool :=
  match n with
  | Directory d => bool_decide (is_Some (manifest_json d))
  | RegularFile => false
  end.

(** The loop of [_load_plugins] over the children [iterdir] yields. *)
Definition load_each (children : list string) : M state unit :=
  for_each children (fun child =>
    s <- get ;;
    match root (fs s) !! child with
    | Some n => if is_candidate n then _load_plugin child else ret tt
    | None => ret tt
    end).

(** [self.plugin_dir.iterdir()]: the children, in the order the map stores
    them. *)
Definition iterdir (s : state) : list string := (map_to_list (root (fs s))).*1.

Definition _load_plugins : M state unit :=
  try_except
    (s <- get ;; load_each (iterdir s))
    (fun e => logger ERROR ("Failed to load plugins: " +:+ exn_str e)).

Definition list_plugins (s : state) : list (string * bool) :=
  map (fun '(name, manifest) => (name, enabled manifest)) (plugins s).

Definition list_available_plugins (s : state) : list string :=
  map fst (filter (fun '(_, manifest) => enabled manifest = true) (plugins s)).

Definition toggle_plugin_body (name : string) (enabled : bool) : M state bool :=
  s <- get ;;
  match Py.dict_get (plugins s) name with
  | None => logger ERROR ("Plugin not found: " +:+ name) ;; ret false
  | Some manifest =>
      let manifest := set_enabled manifest enabled in
      modify (fun s => set_plugins (Py.dict_set (plugins s) name manifest) s) ;;
      write_manifest name manifest ;;
      s <- get ;;
      (if enabled && negb (bool_decide (is_Some (plugin_modules s !! name)))
       then _load_plugin_module name manifest
       else if negb enabled && bool_decide (is_Some (plugin_modules s !! name))
       then modify (fun s => set_plugin_modules (delete name (plugin_modules s)) s)
       else ret tt) ;;
      logger INFO ("Plugin " +:+ name +:+ " "
                   +:+ (if enabled then "enabled" else "disabled")) ;;
      ret true
  end.

Definition toggle_plugin (name : string) (enabled : bool) : M state bool :=
  try_except
    (toggle_plugin_body name enabled)
    (fun e => logger ERROR ("Failed to toggle plugin " +:+ name +:+ ": " +:+ exn_str e) ;;
              ret false).

(** The entries [os.scandir] yields for a directory: its other files in the
    order the map stores them, then its [manifest.json]. *)
Definition entries (d : folder) : list string :=
  (map_to_list (files d)).*1
  ++ match manifest_json d with Some _ => ["manifest.json"] | None => [] end.

(** [os.rmdir] of a child of the root, at the end of [shutil.rmtree]. *)
Definition rmdir (child : string) : M state unit :=
  s <- get ;;
  if root_writable (fs s)
  then modify (fun s => set_fs (set_root (delete child (root (fs s))) (fs s)) s)
  else raise (PermissionError (child_path s child)).

(** [shutil.rmtree(target_path)] for a child of the root: the entries of
    the directory are removed one by one, which the directory must permit,
    then the directory itself, which the root must permit. What was removed
    before an error stays removed. *)
Definition rmtree (child : string) : M state unit :=
  s <- get ;;
  match root (fs s) !! child with
  | None => raise (FileNotFoundError (child_path s child))
  | Some RegularFile => raise (NotADirectoryError (child_path s child))
  | Some (Directory d) =>
      match entries d with
      | [] => rmdir child
      | entry :: _ =>
          if dir_writable d then
            let emptied := {| manifest_json := None; files := ∅;
                              writable := true; dir_writable := true |} in
            modify (fun s => set_fs (set_root (<[child := Directory emptied]>
                                                 (root (fs s))) (fs s)) s) ;;
            rmdir child
          else raise (PermissionError entry)
      end
  end.

(** [shutil.copytree(source, target_path)] of a directory to a child of the
    root; the copy has the permissions of the source. *)
Definition copytree (d : folder) (child : string) : M state unit :=
  s <- get ;;
  match root (fs s) !! child with
  | Some _ => raise (Exn "FileExistsError"
                         ("[Errno 17] File exists: '" +:+ child_path s child +:+ "'"))
  | None =>
      if root_writable (fs s)
      then modify (fun s => set_fs (set_root (<[child := Directory d]> (root (fs s))) (fs s)) s)
      else raise (PermissionError (child_path s child))
  end.

(** The body of the [try] of [install_plugin]. The source is looked up
    outside the plugin root; the target [self.plugin_dir / manifest.name]
    is the child of the root that the manifest names, which it is when the
    name is one path component. *)
Definition install_plugin_body (source_path : string) : M state bool :=
  s <- get ;;
  match outside (fs s) !! source_path with
  | None => logger ERROR ("Plugin source not found: " +:+ source_path) ;; ret false
  | Some source =>
      match source with
      | Directory (Build_folder (Some t) _ _ _ as d) =>
          manifest_data <- lift (json_load t) ;;
          manifest <- lift (PluginManifest_init manifest_data) ;;
          (if bool_decide (is_Some (Py.dict_get (plugins s) (name manifest)))
           then logger WARNING ("Plugin " +:+ name manifest +:+ " already exists, updating...")
           else ret tt) ;;
          (if bool_decide (is_Some (root (fs s) !! name manifest))
           then rmtree (name manifest) else ret tt) ;;
          copytree d (name manifest) ;;
          _load_plugin (name manifest) ;;
          logger INFO ("Plugin " +:+ name manifest +:+ " installed successfully") ;;
          ret true
      | _ =>
          logger ERROR ("Plugin manifest not found: " +:+ source_path +:+ "/manifest.json") ;;
          ret false
      end
  end.

Definition install_plugin (source_path : string) : M state bool :=
  try_except
    (install_plugin_body source_path)
    (fun e => logger ERROR ("Failed to install plugin from " +:+ source_path
                            +:+ ": " +:+ exn_str e) ;;
              ret false).

(** The call of [method_func] on the keyword arguments, under the alarm. *)
Definition call (f : kwargs → call_outcome) (args : kwargs) : M state string :=
  match f args with
  | Returned v => ret v
  | Raised e => raise e
  | Overran =>
      s <- get ;;
      raise (TimeoutError ("Plugin execution timed out after "
                           +:+ Py.str_of_nat (timeout s) +:+ "s"))
  end.

Definition execute_plugin_body (name method : string) (args : kwargs)
  : M state string :=
  s <- get ;;
  match Py.dict_get (plugins s) name with
  | None => raise (ValueError ("Plugin not found: " +:+ name))
  | Some manifest =>
      if negb (enabled manifest)
      then raise (ValueError ("Plugin not enabled: " +:+ name))
      else
        match plugin_modules s !! name with
        | None => raise (ValueError ("Plugin module not loaded: " +:+ name))
        | Some module =>
            match module !! method with
            | None => raise (ValueError ("Method " +:+ method
                                         +:+ " not found in plugin " +:+ name))
            | Some method_func =>
                modify (fun s => set_alarm (timeout s) s) ;;
                try_finally (call method_func args) (modify (set_alarm 0))
            end
        end
  end.

Definition execute_plugin (name method : string) (args : kwargs) : M state string :=
  try_except
    (execute_plugin_body name method args)
    (fun e => logger ERROR ("Plugin execution failed " +:+ name +:+ "." +:+ method
                            +:+ ": " +:+ exn_str e) ;;
              raise e).
(** *** Dispatch from the text of a model's reply *)

Definition deny_list : list string := ["rm -rf"; "sudo"; "passwd"; "del /f"].

Definition is_dangerous (command : string) : bool :=
  Py.any (fun dangerous => Py.contains dangerous command) deny_list.

Definition _execute_shell_command (command : string) : M state string :=
  try_except
    (if is_dangerous command then ret "Error: Dangerous command blocked"
     else
       s <- get ;;
       modify (fun s => set_subprocesses (subprocesses s ++ [command]) s) ;;
       match shell s command with
       | Completed returncode stdout stderr =>
           if Z.eqb returncode 0
           then ret (if String.eqb stdout "" then "Command executed successfully" else stdout)
           else ret ("Error (code " +:+ Py.str_of_Z returncode +:+ "): " +:+ stderr)
       | TimeoutExpired =>
           raise (Exn "TimeoutExpired"
                      ("Command '" +:+ command +:+ "' timed out after 30 seconds"))
       | SpawnFails e => raise e
       end)
    (fun e => if String.eqb (exn_class e) "TimeoutExpired"
              then ret "Error: Command timed out"
              else ret ("Error: " +:+ exn_str e)).

Definition _execute_web_search (query : string) : string :=
  "Web search for '" +:+ query +:+ "' would be executed here".

(** [a, b = l] *)
Definition unpack2 (l : list string) : M state (string * string) :=
  match l with
  | [a; b] => ret (a, b)
  | [] | [_] =>
      raise (ValueError ("not enough values to unpack (expected 2, got "
                         +:+ Py.str_of_nat (length l) +:+ ")"))
  | _ => raise (ValueError "too many values to unpack (expected 2)")
  end.

(** [l[i]] *)
Definition index (l : list string) (i : nat) : M state string :=
  match l !! i with
  | Some x => ret x
  | None => raise (Exn "IndexError" "list index out of range")
  end.

(** The characters of the string literal that holds a double and a single
    quote. *)
Definition quote_chars : string :=
  String (ascii_of_nat 34) (String (ascii_of_nat 39) "").

(** The loop of [_execute_tool_call] over the pieces of the argument text. *)
Fixpoint parse_args (pieces : list string) (args : kwargs) : M state kwargs :=
  match pieces with
  | [] => ret args
  | arg :: pieces' =>
      if Py.contains "=" arg then
        kv <- unpack2 (Py.split1 "=" arg) ;;
        parse_args pieces'
          (Py.dict_set args (Py.strip kv.1)
                       (Py.strip_chars quote_chars (Py.strip kv.2)))
      else parse_args pieces' args
  end.

(** What [_execute_tool_call] reads in the text of a call: the plugin, the
    method and the keyword arguments, or nothing when the text has no dot
    or no opening parenthesis. *)
Definition parse_tool_call (tool_call : string)
  : M state (option (string * string * kwargs)) :=
  if negb (Py.contains "." tool_call) || negb (Py.contains "(" tool_call)
  then ret None
  else
    pm <- unpack2 (Py.split1 "." tool_call) ;;
    let plugin_name := pm.1 in
    let method_part := pm.2 in
    method_name <- index (Py.split "(" method_part) 0 ;;
    args <- (if Py.contains "(" method_part && Py.contains ")" method_part
             then
               after <- index (Py.split "(" method_part) 1 ;;
               args_str <- index (Py.split ")" after) 0 ;;
               parse_args (Py.split "," args_str) []
             else ret []) ;;
    ret (Some (plugin_name, method_name, args)).

(** The parameters of [execute_plugin] that the call
    [self.execute_plugin(plugin_name, method_name, **args)] has already
    filled. *)
Definition bound_parameters : list string := ["self"; "name"; "method"].

(** The binding of the arguments of that call: the first key of [args] that
    names a filled parameter is a second value for it. *)
Definition bind_arguments (args : kwargs) : M state unit :=
  match List.find (fun kv : string * string =>
                     existsb (String.eqb kv.1) bound_parameters) args with
  | Some (key, _) =>
      raise (TypeError ("PluginExecutor.execute_plugin() got multiple values for argument "
                        +:+ quoted key))
  | None => ret tt
  end.

Definition _execute_tool_call (tool_call : string) : M state string :=
  try_except
    (parsed <- parse_tool_call tool_call ;;
     match parsed with
     | None => ret "Error: Invalid tool call format"
     | Some (plugin_name, method_name, args) =>
         bind_arguments args ;;
         execute_plugin plugin_name method_name args
     end)
    (fun e => ret ("Tool execution error: " +:+ exn_str e)).

(** One turn of the loop of [execute_from_response]. *)
Definition dispatch_line (results : list string) (line : string)
  : M state (list string) :=
  let line := Py.strip line in
  if Py.startswith line "execute:" then
    let command := Py.strip (Py.drop 8 line) in
    result <- _execute_shell_command command ;;
    ret (results ++ ["Command: " +:+ command +:+ Py.nl +:+ "Output: " +:+ result])
  else if Py.startswith line "search:" then
    let query := Py.strip (Py.drop 7 line) in
    let result := _execute_web_search query in
    ret (results ++ ["Search: " +:+ query +:+ Py.nl +:+ "Results: " +:+ result])
  else if Py.startswith line "tool:" then
    let tool_call := Py.strip (Py.drop 5 line) in
    result <- _execute_tool_call tool_call ;;
    ret (results ++ ["Tool: " +:+ tool_call +:+ Py.nl +:+ "Result: " +:+ result])
  else ret results.

Fixpoint dispatch_lines (lines : list string) (results : list string)
  : M state (list string) :=
  match lines with
  | [] => ret results
  | line :: lines' =>
      results' <- dispatch_line results line ;;
      dispatch_lines lines' results'
  end.

Definition execute_from_response (response : string) : M state (option string) :=
  try_except
    (results <- dispatch_lines (Py.split Py.newline response) [] ;;
     ret (match results with
          | [] => None
          | _ => Some (Py.join (Py.nl +:+ Py.nl) results)
          end))
    (fun e => logger ERROR ("Failed to execute from response: " +:+ exn_str e) ;;
              ret (Some ("Execution error: " +:+ exn_str e))).

Definition get_status (s : state) : string :=
  "Plugins: " +:+ Py.str_of_nat (length (list_available_plugins s)) +:+ "/"
  +:+ Py.str_of_nat (length (plugins s)) +:+ " enabled".

(** [PluginExecutor(config)]: the empty registry over the configured root,
    then the discovery. When the discovery lets an exception out, the
    constructor raises it; [init] is then the state it had reached. *)
Definition init (dir : string) (sandbox_timeout : nat) (disk : FileSystem)
    (sh : string → process) : state :=
  let s0 := Build_state dir sandbox_timeout disk [] ∅ [] sh [] 0 in
  ((_load_plugins ;;
    s1 <- get ;;
    logger INFO ("Plugin executor initialized with "
                 +:+ Py.str_of_nat (length (plugins s1)) +:+ " plugins")) s0).2.
End PluginExecutor.

(** ** The model router ([src/orchestrator/llm_router.py]) *)

Module LLMRouter.

(** [clients] holds the keys of the [self.clients] dict in insertion order;
    the client objects themselves are the vendors' and are not modelled. *)
Record state := {
  clients : list string;
  model_preferences : gmap string string;
  log : list (level * string);
}.

Local Open Scope monad_scope.

Definition logger (lvl : level) (msg : string) : M state unit :=
  modify (fun s => Build_state (clients s) (model_preferences s) (log s ++ [(lvl, msg)])).

Definition model_map : gmap string string :=
  {[ "claude" := "claude"; "gpt4" := "openai"; "openai" := "openai";
     "gemini" := "gemini" ]}.

Definition _is_model_available (s : state) (model : string) : bool :=
  match model_map !! model with
  | Some provider => bool_decide (provider ∈ clients s)
  | None => false
  end.

Definition coding_keywords : list string :=
  ["code"; "program"; "function"; "debug"; "api"; "sql"; "python"; "javascript"].
Definition reasoning_keywords : list string :=
  ["analyze"; "reason"; "logic"; "problem"; "solve"; "strategy"; "plan"].
Definition creative_keywords : list string :=
  ["write"; "create"; "story"; "poem"; "creative"; "brainstorm"; "imagine"].

Definition has_keyword (keywords : list string) (text : string) : bool :=
  Py.any (fun keyword => Py.contains keyword text) keywords.

Definition _classify_task (prompt : string) : string :=
  let prompt_lower := Py.lower prompt in
  if has_keyword coding_keywords prompt_lower then "coding"
  else if has_keyword reasoning_keywords prompt_lower then "reasoning"
  else if has_keyword creative_keywords prompt_lower then "creative"
  else "reasoning".

Definition no_models : exn :=
  Exn "Exception" "No LLM models available - check API key configuration".

Definition select_model (requested_model prompt : string) : M state string :=
  s <- get ;;
  if negb (String.eqb requested_model "auto") && _is_model_available s requested_model
  then ret requested_model
  else
    (if negb (String.eqb requested_model "auto")
     then logger WARNING ("Requested model " +:+ requested_model
                          +:+ " not available, falling back to auto selection")
     else ret tt) ;;
    let task_type := _classify_task prompt in
    let preferred_model := default "claude" (model_preferences s !! task_type) in
    if _is_model_available s preferred_model then ret preferred_model
    else
      match clients s with
      | fallback :: _ =>
          logger INFO ("Using fallback model: " +:+ fallback) ;;
          ret fallback
      | [] => raise no_models
      end.

End LLMRouter.

(** ** The task orchestrator ([src/orchestrator/core.py]) *)

Inductive meta_value :=
| MStr (s : string)
| MInt (n : nat).

Module TaskContext.
Record t := Build {
  task_id : string;
  prompt : string;
  model : string;
  use_memory : bool;
  enable_plugins : bool;
  verbose : bool;
  created_at : nat;
  metadata : list (string * meta_value);
}.

(** [context.metadata[key] = value] *)
Definition set_metadata (c : t) (key : string) (value : meta_value) : t :=
  Build (task_id c) (prompt c) (model c) (use_memory c) (enable_plugins c)
        (verbose c) (created_at c) (Py.dict_set (metadata c) key value).
End TaskContext.

(** The calls a task makes to the orchestrator's collaborators. *)
Inductive step :=
| MemoryLookup
| ModelSelection
| ModelCall
| PluginDispatch
| MemoryWrite.

Module TaskOrchestrator.

Record state := {
  llm_router : LLMRouter.state;
  plugin_executor : PluginExecutor.state;
  active_tasks : gmap string TaskContext.t;
  completed_tasks : list TaskContext.t;
  log : list (level * string);
  trace : list step;
}.

Definition set_llm_router (r : LLMRouter.state) (s : state) : state :=
  Build_state r (plugin_executor s) (active_tasks s) (completed_tasks s) (log s) (trace s).
Definition set_plugin_executor (p : PluginExecutor.state) (s : state) : state :=
  Build_state (llm_router s) p (active_tasks s) (completed_tasks s) (log s) (trace s).
Definition set_active_tasks (a : gmap string TaskContext.t) (s : state) : state :=
  Build_state (llm_router s) (plugin_executor s) a (completed_tasks s) (log s) (trace s).
Definition set_completed_tasks (c : list TaskContext.t) (s : state) : state :=
  Build_state (llm_router s) (plugin_executor s) (active_tasks s) c (log s) (trace s).
Definition set_log (l : list (level * string)) (s : state) : state :=
  Build_state (llm_router s) (plugin_executor s) (active_tasks s) (completed_tasks s) l (trace s).
Definition set_trace (t : list step) (s : state) : state :=
  Build_state (llm_router s) (plugin_executor s) (active_tasks s) (completed_tasks s) (log s) t.

Local Open Scope monad_scope.

Definition logger (lvl : level) (msg : string) : M state unit :=
  modify (fun s => set_log (log s ++ [(lvl, msg)]) s).

(** A collaborator is entered. *)
Definition enter (st : step) : M state unit :=
  modify (fun s => set_trace (trace s ++ [st]) s).

Definition tool_indicators : list string :=
  ["execute:"; "run:"; "tool:"; "command:"; "search:"; "fetch:"; "calculate:";
   "analyze:"].

Definition _requires_plugin_execution (response : string) : bool :=
  Py.any (fun indicator => Py.contains indicator (Py.lower response)) tool_indicators.

Definition _build_enhanced_prompt (s : state) (prompt context : string)
    (enable_plugins : bool) : string :=
  let enhanced :=
    if negb (String.eqb context "")
    then "Relevant context:" +:+ Py.nl +:+ context +:+ Py.nl +:+ Py.nl
         +:+ "Task: " +:+ prompt
    else prompt in
  if enable_plugins then
    let plugin_list := PluginExecutor.list_available_plugins (plugin_executor s) in
    match plugin_list with
    | [] => enhanced
    | _ => enhanced +:+ Py.nl +:+ Py.nl +:+ "Available tools: "
           +:+ Py.join ", " plugin_list
    end
  else enhanced.

(** ["\n".join([f"Memory {i+1}: {mem}" for i, mem in enumerate(memories)])] *)
Definition render_memories (memories : list string) : string :=
  Py.join Py.nl
    (imap (fun i mem => "Memory " +:+ Py.str_of_nat (i + 1) +:+ ": " +:+ mem) memories).

Section Collaborators.

(** The memory store and the model call are services outside the program:
    [memory_search] is [self.memory.search(prompt, limit=5)], [llm_execute]
    is [self.llm_router.execute(model, prompt)] and [store_interaction] is
    [self.memory.store_interaction(prompt, response, metadata)]. Each
    returns or raises. *)
Variable memory_search : string → result (list string).
Variable llm_execute : string → string → result string.
Variable store_interaction : string → string → list (string * meta_value) → result unit.

Definition lift {A} (r : result A) : M state A := fun s => (r, s).

(** The phases of the [try] of [execute_task], as its comments name them. *)

Definition memory_retrieval (context : TaskContext.t) : M state string :=
  if TaskContext.use_memory context then
    enter MemoryLookup ;;
    memories <- lift (memory_search (TaskContext.prompt context)) ;;
    match memories with
    | [] => ret ""
    | _ =>
        (if TaskContext.verbose context
         then logger INFO ("Retrieved " +:+ Py.str_of_nat (length memories)
                           +:+ " relevant memories")
         else ret tt) ;;
        ret (render_memories memories)
    end
  else ret "".

Definition model_selection (context : TaskContext.t) : M state string :=
  enter ModelSelection ;;
  selected_model <-
    zoom llm_router set_llm_router
         (LLMRouter.select_model (TaskContext.model context)
                                 (TaskContext.prompt context)) ;;
  (if TaskContext.verbose context
   then logger INFO ("Selected model: " +:+ selected_model) else ret tt) ;;
  ret selected_model.

Definition llm_execution (context : TaskContext.t)
    (relevant_context selected_model : string) : M state string :=
  s <- get ;;
  let enhanced_prompt :=
    _build_enhanced_prompt s (TaskContext.prompt context) relevant_context
                           (TaskContext.enable_plugins context) in
  enter ModelCall ;;
  lift (llm_execute selected_model enhanced_prompt).

Definition plugin_execution (context : TaskContext.t) (response : string)
  : M state string :=
  if TaskContext.enable_plugins context && _requires_plugin_execution response
  then
    enter PluginDispatch ;;
    plugin_result <-
      zoom plugin_executor set_plugin_executor
           (PluginExecutor.execute_from_response response) ;;
    match plugin_result with
    | None | Some "" => ret response
    | Some plugin_result =>
        ret (response +:+ Py.nl +:+ Py.nl +:+ "Plugin Execution Result:"
             +:+ Py.nl +:+ plugin_result)
    end
  else ret response.

Definition memory_storage (context : TaskContext.t) (response : string)
  : M state unit :=
  if TaskContext.use_memory context then
    enter MemoryWrite ;;
    lift (store_interaction (TaskContext.prompt context) response
                            (TaskContext.metadata context)) ;;
    (if TaskContext.verbose context
     then logger INFO "Stored interaction in memory" else ret tt)
  else ret tt.

(** The context as the completion leaves it. *)
Definition completed (context : TaskContext.t) (response selected_model : string)
  : TaskContext.t :=
  let context := TaskContext.set_metadata context "status" (MStr "completed") in
  let context := TaskContext.set_metadata context "response_length"
                                          (MInt (String.length response)) in
  TaskContext.set_metadata context "model_used" (MStr selected_model).

Definition task_completion (context : TaskContext.t)
    (response selected_model : string) : M state string :=
  let context := completed context response selected_model in
  modify (fun s => set_completed_tasks (completed_tasks s ++ [context]) s) ;;
  modify (fun s => set_active_tasks
                     (delete (TaskContext.task_id context) (active_tasks s)) s) ;;
  logger INFO ("Task " +:+ TaskContext.task_id context +:+ " completed successfully") ;;
  ret response.

(** The body of the [try] of [execute_task]. *)
Definition execute_task_body (context : TaskContext.t) : M state string :=
  relevant_context <- memory_retrieval context ;;
  selected_model <- model_selection context ;;
  response <- llm_execution context relevant_context selected_model ;;
  response <- plugin_execution context response ;;
  memory_storage context response ;;
  task_completion context response selected_model.

(** The context as the failure handler leaves it. *)
Definition failed (context : TaskContext.t) (e : exn) : TaskContext.t :=
  let context := TaskContext.set_metadata context "status" (MStr "failed") in
  TaskContext.set_metadata context "error" (MStr (exn_str e)).

(** [execute_task], given the token [uuid.uuid4()] draws and the time
    [datetime.now()] reads. *)
Definition execute_task (task_id : string) (now : nat)
    (prompt model : string) (use_memory enable_plugins verbose : bool)
  : M state string :=
  let context :=
    TaskContext.Build task_id prompt model use_memory enable_plugins verbose now [] in
  modify (fun s => set_active_tasks (<[task_id := context]> (active_tasks s)) s) ;;
  logger INFO ("Starting task " +:+ task_id +:+ ": " +:+ Py.take 100 prompt +:+ "...") ;;
  try_except
    (execute_task_body context)
    (fun e =>
       logger ERROR ("Task " +:+ task_id +:+ " failed: " +:+ exn_str e) ;;
       let context := failed context e in
       modify (fun s => set_completed_tasks (completed_tasks s ++ [context]) s) ;;
       s <- get ;;
       (if bool_decide (is_Some (active_tasks s !! task_id))
        then modify (fun s => set_active_tasks (delete task_id (active_tasks s)) s)
        else ret tt) ;;
       raise e).

End Collaborators.
End TaskOrchestrator.

(** * The properties, in the words of the specification *)

Module Spec.
Import PluginExecutor.

(** ** Invocation failures *)

(** The four ways an invocation is refused. *)
Inductive failure := NotFound | NotEnabled | NotLoaded | NoMethod.

Inductive fails_with (s : state) (name method : string) : failure → Prop :=
| fails_unknown :
    Py.dict_get (plugins s) name = None → fails_with s name method NotFound
| fails_disabled manifest :
    Py.dict_get (plugins s) name = Some manifest →
    PluginManifest.enabled manifest = false →
    fails_with s name method NotEnabled
| fails_not_loaded manifest :
    Py.dict_get (plugins s) name = Some manifest →
    PluginManifest.enabled manifest = true →
    plugin_modules s !! name = None →
    fails_with s name method NotLoaded
| fails_no_method manifest module :
    Py.dict_get (plugins s) name = Some manifest →
    PluginManifest.enabled manifest = true →
    plugin_modules s !! name = Some module →
    module !! method = None →
    fails_with s name method NoMethod.

Definition failure_message (k : failure) (name method : string) : string :=
  match k with
  | NotFound => "Plugin not found: " +:+ name
  | NotEnabled => "Plugin not enabled: " +:+ name
  | NotLoaded => "Plugin module not loaded: " +:+ name
  | NoMethod => "Method " +:+ method +:+ " not found in plugin " +:+ name
  end.

(** ** Tool lines *)

Definition has_char (c : ascii) (s : string) : bool := Py.contains (String c "") s.





(** The characters of [s] all belong to the class [p]. *)
Fixpoint every (p : ascii → bool) (s : string) : bool :=
  match s with
  | "" => true
  | String c s' => p c && every p s'
  end.

Definition first_char (s : string) : option ascii :=
  match s with
  | "" => None
  | String c _ => Some c
  end.

Fixpoint last_char (s : string) : option ascii :=
  match s with
  | "" => None
  | String c "" => Some c
  | String _ s' => last_char s'
  end.

(** [core] is [raw] without the characters of the class [p] that surround
    it: [raw] is [core] between two runs of such characters, and [core]
    neither starts nor ends with one. *)
Definition trimmed (p : ascii → bool) (raw core : string) : Prop :=
  ∃ before after,
    raw = before +:+ core +:+ after
    ∧ every p before = true ∧ every p after = true
    ∧ (∀ c, first_char core = Some c → p c = false)
    ∧ (∀ c, last_char core = Some c → p c = false).






(** ** Failure semantics *)

(** A computation that returns, whatever the state it starts from. *)
Definition returns {S A} (c : M S A) : Prop := ∀ s, ∃ a s', c s = (Ok a, s').

(** A computation that lets no [Exception] out: what it raises, if
    anything, does not derive from [Exception]. *)
Definition guarded {S A} (c : M S A) : Prop :=
  ∀ s e, (c s).1 = Raise e → is_Exception e = false.


(** ** Dispatch from text *)

(** What a line of the reply asks for. *)
Inductive directive :=
| Execute (command : string)
| Search (query : string)
| Tool (tool_call : string).

(** A stripped line that starts with one of the three literal prefixes is a
    directive; its argument is the stripped rest of the line. *)
Definition directive_of (line : string) : option directive :=
  let line := Py.strip line in
  if Py.startswith line "execute:" then Some (Execute (Py.strip (Py.drop 8 line)))
  else if Py.startswith line "search:" then Some (Search (Py.strip (Py.drop 7 line)))
  else if Py.startswith line "tool:" then Some (Tool (Py.strip (Py.drop 5 line)))
  else None.




(** The handler of a directive, and the text of its result. *)
Definition run_directive (d : directive) : M state string :=
  match d with
  | Execute command =>
      bind (_execute_shell_command command) (fun result =>
      ret ("Command: " +:+ command +:+ Py.nl +:+ "Output: " +:+ result))
  | Search query =>
      ret ("Search: " +:+ query +:+ Py.nl +:+ "Results: " +:+ _execute_web_search query)
  | Tool tool_call =>
      bind (_execute_tool_call tool_call) (fun result =>
      ret ("Tool: " +:+ tool_call +:+ Py.nl +:+ "Result: " +:+ result))
  end.

(** The directives handled one after the other, each in the state the one
    before left, and their results in that order. *)
Fixpoint run_directives (ds : list directive) : M state (list string) :=
  match ds with
  | [] => ret []
  | d :: ds' =>
      bind (run_directive d) (fun r =>
      bind (run_directives ds') (fun rs => ret (r :: rs)))
  end.

(** The results as one block of text, or nothing when there are none. *)
Definition text_block (results : list string) : option string :=
  match results with
  | [] => None
  | _ => Some (Py.join (Py.nl +:+ Py.nl) results)
  end.

(** ** Toggle *)

(** The manifest a fresh start would read from the manifest file of the
    root's child [child]. *)
Definition persisted_manifest (s : state) (child : string)
  : option PluginManifest.t :=
  match open_read (child_path s child +:+ "/manifest.json") (root (fs s) !! child) with
  | Ok t =>
      match json_load t with
      | Ok j =>
          match PluginManifest_init j with
          | Ok m => Some m
          | Raise _ => None
          end
      | Raise _ => None
      end
  | Raise _ => None
  end.

(** The state in which [toggle_plugin] opens the manifest file: the flag of
    the registered manifest is already set. *)
Definition flag_set (s : state) (name : string) (manifest : PluginManifest.t)
    (enabled : bool) : state :=
  set_plugins (Py.dict_set (plugins s) name
                           (PluginManifest.set_enabled manifest enabled)) s.

(** ** The registry invariant *)

(** What can happen to a started executor: its public operations, and a
    change of the disk made from outside between two of them. *)
Inductive operation :=
| Discover
| Load (child : string)
| Toggle (name : string) (enabled : bool)
| Install (source_path : string)
| Invoke (name method : string) (args : kwargs)
| Dispatch (response : string)
| DiskChange (disk : FileSystem).

Definition run (op : operation) (s : state) : state :=
  match op with
  | Discover => (_load_plugins s).2
  | Load child => (_load_plugin child s).2
  | Toggle name enabled => (toggle_plugin name enabled s).2
  | Install source_path => (install_plugin source_path s).2
  | Invoke name method args => (execute_plugin name method args s).2
  | Dispatch response => (execute_from_response response s).2
  | DiskChange disk => set_fs disk s
  end.

(** The states an executor goes through after its construction. *)
Inductive reachable : state → Prop :=
| reachable_init dir sandbox_timeout disk sh :
    reachable (init dir sandbox_timeout disk sh)
| reachable_run op s : reachable s → reachable (run op s).

(** Every loaded module belongs to a registered plugin. *)
Definition loaded_are_registered (s : state) : Prop :=
  ∀ name, is_Some (plugin_modules s !! name) → is_Some (Py.dict_get (plugins s) name).

(** Every manifest is registered under its own name. *)
Definition well_keyed (s : state) : Prop :=
  ∀ key manifest,
    Py.dict_get (plugins s) key = Some manifest → PluginManifest.name manifest = key.

Definition registry_invariant (s : state) : Prop :=
  well_keyed s ∧ loaded_are_registered s.

(** The two maps of the registry. *)
Definition registry (s : state)
  : list (string * PluginManifest.t) * gmap string PyModule :=
  (plugins s, plugin_modules s).

(** A computation that leaves the state as it found it. *)
Definition stateless {S A} (c : M S A) : Prop := ∀ s, (c s).2 = s.

End Spec.

(** ** Example data: a plugin [echo] on the disk *)

Module Example.
Import PluginExecutor.

Definition say : kwargs → call_outcome := fun args =>
  match Py.dict_get args "text" with
  | Some v => Returned v
  | None => Raised (TypeError "say() missing 1 required positional argument: 'text'")
  end.

Definition echo_module : PyModule := {[ "say" := say ]}.

Definition echo_manifest : PluginManifest.t :=
  PluginManifest.Build "echo" "1.0.0" "Echo plugin" "echo.py" [] [] true.

Definition echo_folder (w : bool) : folder :=
  {| manifest_json := Some (Parses (JObject (dump echo_manifest)));
     files := {[ "echo.py" := Imports echo_module ]};
     writable := w;
     dir_writable := w |}.

Definition disk (w : bool) : FileSystem :=
  {| root := {[ "echo" := Directory (echo_folder w) ]};
     outside := ∅;
     root_writable := true |}.

Definition quiet_shell : string → process := fun _ => Completed 0 "" "".

(** The executor started on a disk whose [echo] folder can or cannot be
    written. *)
Definition started (w : bool) : state := init "plugins" 300 (disk w) quiet_shell.

End Example.

(** ** Model selection *)

Module RouterSpec.
Import LLMRouter.

(** The model the preference table gives for a class of task; the table's
    lookup falls back on [claude] for a class it does not list. *)
Definition preferred (s : state) (task_type : string) : string :=
  default "claude" (model_preferences s !! task_type).

(** The provider that serves a model name: [claude] is served by [claude],
    [gpt4] and [openai] by [openai], [gemini] by [gemini], and no other name
    is served. *)
Definition provider_of (model : string) : option string :=
  if String.eqb model "claude" then Some "claude"
  else if String.eqb model "gpt4" then Some "openai"
  else if String.eqb model "openai" then Some "openai"
  else if String.eqb model "gemini" then Some "gemini"
  else None.

(** The model's provider has an initialized client. *)
Definition has_client (s : state) (model : string) : Prop :=
  ∃ provider, provider_of model = Some provider ∧ provider ∈ clients s.

(** The outcome of model selection as a function of the state, by the tests
    the code makes. *)
Definition selection (s : state) (requested_model prompt : string) : result string :=
  if _is_model_available s requested_model then Ok requested_model
  else if _is_model_available s (preferred s (_classify_task prompt))
  then Ok (preferred s (_classify_task prompt))
  else match clients s with
       | first_provider :: _ => Ok first_provider
       | [] => Raise no_models
       end.

(** A keyword of the list occurs in the text. *)
Definition mentions (keywords : list string) (text : string) : Prop :=
  ∃ keyword, keyword ∈ keywords ∧ Py.contains keyword text = true.

End RouterSpec.

(** ** Task bookkeeping *)

Module OrchestratorSpec.
Import TaskOrchestrator.

(** The steps of a task, in the order of the pipeline. *)
Definition pipeline : list step :=
  [MemoryLookup; ModelSelection; ModelCall; PluginDispatch; MemoryWrite].

(** From [s] to [s'] the task collections are untouched and the collaborators
    [entered] were called, in that order. *)
Definition extends (entered : list step) (s s' : state) : Prop :=
  active_tasks s' = active_tasks s
  ∧ completed_tasks s' = completed_tasks s
  ∧ trace s' = trace s ++ entered.

(** The steps a task enters around the model call: the memory lookup and
    the memory write when the task uses the memory, the plugin dispatch
    when plugins are enabled and the model's reply asks for one. *)
Definition lookup_steps (context : TaskContext.t) : list step :=
  if TaskContext.use_memory context then [MemoryLookup] else [].

Definition dispatch_steps (context : TaskContext.t) (reply : string) : list step :=
  if TaskContext.enable_plugins context && _requires_plugin_execution reply
  then [PluginDispatch] else [].

Definition write_steps (context : TaskContext.t) : list step :=
  if TaskContext.use_memory context then [MemoryWrite] else [].

(** The steps of a task that returns, given the model's reply. *)
Definition task_steps (context : TaskContext.t) (reply : string) : list step :=
  lookup_steps context ++ [ModelSelection; ModelCall]
  ++ dispatch_steps context reply ++ write_steps context.

Section Failure.
Variable memory_search : string → result (list string).
Variable llm_execute : string → string → result string.
Variable store_interaction : string → string → list (string * meta_value) → result unit.

(** The step [failing] of the task of [context], started in [s], raises
    [e]: the steps before it returned, each in the state the one before
    left. The last index lists the steps entered, [failing] being the
    last. *)
Inductive step_raises (context : TaskContext.t) (s : state) (e : exn)
  : step → list step → Prop :=
| lookup_raises s1 :
    memory_retrieval memory_search context s = (Raise e, s1) →
    step_raises context s e MemoryLookup [MemoryLookup]
| selection_raises relevant s1 s2 :
    memory_retrieval memory_search context s = (Ok relevant, s1) →
    model_selection context s1 = (Raise e, s2) →
    step_raises context s e ModelSelection (lookup_steps context ++ [ModelSelection])
| call_raises relevant s1 selected s2 s3 :
    memory_retrieval memory_search context s = (Ok relevant, s1) →
    model_selection context s1 = (Ok selected, s2) →
    llm_execution llm_execute context relevant selected s2 = (Raise e, s3) →
    step_raises context s e ModelCall
                (lookup_steps context ++ [ModelSelection; ModelCall])
| dispatch_raises relevant s1 selected s2 reply s3 s4 :
    memory_retrieval memory_search context s = (Ok relevant, s1) →
    model_selection context s1 = (Ok selected, s2) →
    llm_execution llm_execute context relevant selected s2 = (Ok reply, s3) →
    plugin_execution context reply s3 = (Raise e, s4) →
    step_raises context s e PluginDispatch
                (lookup_steps context ++ [ModelSelection; ModelCall; PluginDispatch])
| write_raises relevant s1 selected s2 reply s3 response s4 s5 :
    memory_retrieval memory_search context s = (Ok relevant, s1) →
    model_selection context s1 = (Ok selected, s2) →
    llm_execution llm_execute context relevant selected s2 = (Ok reply, s3) →
    plugin_execution context reply s3 = (Ok response, s4) →
    memory_storage store_interaction context response s4 = (Raise e, s5) →
    step_raises context s e MemoryWrite
                (lookup_steps context ++ [ModelSelection; ModelCall]
                 ++ dispatch_steps context reply ++ [MemoryWrite]).
End Failure.

(** The state in which the [try] of [execute_task] starts. *)
Definition task_started (s : state) (context : TaskContext.t) : state :=
  set_log (log s ++ [(INFO, "Starting task " +:+ TaskContext.task_id context +:+ ": "
                            +:+ Py.take 100 (TaskContext.prompt context) +:+ "...")])
          (set_active_tasks (<[TaskContext.task_id context := context]> (active_tasks s)) s).

End OrchestratorSpec.

(** ** Example data: a router and an orchestrator *)

Module ExampleTasks.

Definition router_claude_only : LLMRouter.state :=
  {| LLMRouter.clients := ["claude"];
     LLMRouter.model_preferences :=
       {[ "reasoning" := "claude"; "coding" := "gpt4"; "creative" := "gemini" ]};
     LLMRouter.log := [] |}.

Definition orchestrator0 : TaskOrchestrator.state :=
  {| TaskOrchestrator.llm_router := router_claude_only;
     TaskOrchestrator.plugin_executor := Example.started true;
     TaskOrchestrator.active_tasks := ∅;
     TaskOrchestrator.completed_tasks := [];
     TaskOrchestrator.log := [];
     TaskOrchestrator.trace := [] |}.

Definition run_failing_call :=
  TaskOrchestrator.execute_task
    (fun _ => Ok ["earlier"]) (fun _ _ => Raise (Exn "APIError" "overloaded"))
    (fun _ _ _ => Ok tt)
    "t1" 0 "hello" "auto" true true false orchestrator0.

Definition run_with_tool :=
  TaskOrchestrator.execute_task
    (fun _ => Ok []) (fun _ _ => Ok "tool:echo.say(text='hi')")
    (fun _ _ _ => Ok tt)
    "t2" 0 "hello" "auto" true true false orchestrator0.

End ExampleTasks.

(** ** Example data: a disk with a broken plugin beside [echo] *)

Module ExampleDisk.
Import PluginExecutor.

(** A manifest object without the key [entry_point]. *)
Definition broken_manifest : ManifestObject :=
  {| o_name := Some "broken"; o_version := Some "0.1"; o_description := Some "";
     o_entry_point := None; o_permissions := Some []; o_dependencies := Some [];
     o_enabled := None; o_unknown := [] |}.

Definition broken_folder : folder :=
  {| manifest_json := Some (Parses (JObject broken_manifest));
     files := ∅; writable := true; dir_writable := true |}.

(** A plugin to install: enabled, but without its entry-point file. *)
Definition hollow_manifest : PluginManifest.t :=
  PluginManifest.Build "hollow" "1.0" "No code" "hollow.py" [] [] true.

Definition hollow_folder : folder :=
  {| manifest_json := Some (Parses (JObject (dump hollow_manifest)));
     files := ∅; writable := true; dir_writable := true |}.

(** A disk whose [echo] folder is read-only, with a copy to install. *)
Definition locked_disk : FileSystem :=
  {| root := {[ "echo" := Directory (Example.echo_folder false) ]};
     outside := {[ "/tmp/echo" := Directory (Example.echo_folder true) ]};
     root_writable := true |}.

Definition disk : FileSystem :=
  {| root := {[ "echo" := Directory (Example.echo_folder true);
                "broken" := Directory broken_folder ]};
     outside := {[ "/tmp/hollow" := Directory hollow_folder;
                   "/tmp/echo" := Directory (Example.echo_folder true);
                   "/tmp/notes.txt" := RegularFile ]};
     root_writable := true |}.

Definition started : state := init "plugins" 300 disk Example.quiet_shell.

End ExampleDisk.

(** ** Example data: plugin code that exits *)

Module ExampleExit.
Import PluginExecutor.

(** A method that calls [sys.exit("bye")]. *)
Definition quit : kwargs → call_outcome := fun _ => Raised (Exn "SystemExit" "bye").

Definition halt_module : PyModule := {[ "now" := quit ]}.

Definition halt_manifest : PluginManifest.t :=
  PluginManifest.Build "halt" "1.0" "Exits when called" "halt.py" [] [] true.

Definition halt_folder : folder :=
  {| manifest_json := Some (Parses (JObject (dump halt_manifest)));
     files := {[ "halt.py" := Imports halt_module ]};
     writable := true; dir_writable := true |}.

(** A plugin whose entry point calls [sys.exit("bye")] when it is imported. *)
Definition boom_manifest : PluginManifest.t :=
  PluginManifest.Build "boom" "1.0" "Exits at import" "boom.py" [] [] true.

Definition boom_folder : folder :=
  {| manifest_json := Some (Parses (JObject (dump boom_manifest)));
     files := {[ "boom.py" := ImportFails (Exn "SystemExit" "bye") ]};
     writable := true; dir_writable := true |}.

Definition disk : FileSystem :=
  {| root := {[ "halt" := Directory halt_folder ]};
     outside := {[ "/tmp/boom" := Directory boom_folder ]};
     root_writable := true |}.

Definition started : state := init "plugins" 300 disk Example.quiet_shell.

(** An orchestrator over that executor, and a task whose model reply asks
    for the tool that exits. *)
Definition orchestrator : TaskOrchestrator.state :=
  {| TaskOrchestrator.llm_router := ExampleTasks.router_claude_only;
     TaskOrchestrator.plugin_executor := started;
     TaskOrchestrator.active_tasks := ∅;
     TaskOrchestrator.completed_tasks := [];
     TaskOrchestrator.log := [];
     TaskOrchestrator.trace := [] |}.

Definition run_exiting_tool :=
  TaskOrchestrator.execute_task
    (fun _ => Ok []) (fun _ _ => Ok "tool:halt.now()")
    (fun _ _ _ => Ok tt)
    "t3" 0 "hello" "auto" true true false orchestrator.

(** The same disk with [boom] already under the plugin root. *)
Definition disk_with_boom : FileSystem :=
  {| root := {[ "halt" := Directory halt_folder; "boom" := Directory boom_folder ]};
     outside := ∅;
     root_writable := true |}.

End ExampleExit.
(** * Further properties, in the words of the code *)

Module RegistrySpec.
Import PluginExecutor.
Import Spec.

(** ** Install *)

(** The folder at a source path and the manifest read from it, when the path
    is a directory whose [manifest.json] reads as a manifest. *)
Definition source_manifest (s : state) (source_path : string)
  : option (folder * PluginManifest.t) :=
  match outside (fs s) !! source_path with
  | Some (Directory d) =>
      match manifest_json d with
      | Some t =>
          match json_load t with
          | Ok j =>
              match PluginManifest_init j with
              | Ok m => Some (d, m)
              | Raise _ => None
              end
          | Raise _ => None
          end
      | None => None
      end
  | _ => None
  end.

(** A name that is one path component: joined to the plugin root it names
    a child of the root. The empty name and [.] name the root itself, [..]
    names its parent, a name with a slash names another place, and a name
    with a NUL character names no path. *)
Definition is_component (name : string) : bool :=
  negb (String.eqb name "") && negb (String.eqb name ".")
  && negb (String.eqb name "..") && negb (has_char "/" name)
  && negb (has_char Ascii.zero name).

(** What [shutil.rmtree] can remove from under a writable root: nothing, an
    empty folder, or a folder that lets its entries be removed. *)
Definition removable (n : option node) : Prop :=
  match n with
  | None => True
  | Some RegularFile => False
  | Some (Directory d) => entries d = [] ∨ dir_writable d = true
  end.

(** What an install returns once the copy is made: [true], unless the
    manifest is enabled and importing the entry point raises an exception
    outside [Exception], which the install then raises. *)
Definition install_outcome (manifest : PluginManifest.t) (d : folder) : result bool :=
  match PluginManifest.enabled manifest,
        files d !! PluginManifest.entry_point manifest with
  | true, Some (ImportFails e) => if is_Exception e then Ok true else Raise e
  | _, _ => Ok true
  end.

(** The modules after a load of [manifest] from the folder [d]: the module
    of the entry point under the manifest's name when the manifest is
    enabled and the entry point imports; otherwise the modules as they
    were, a module loaded earlier under that name included. *)
Definition modules_after_load (manifest : PluginManifest.t) (d : folder)
    (modules : gmap string PyModule) : gmap string PyModule :=
  match PluginManifest.enabled manifest,
        files d !! PluginManifest.entry_point manifest with
  | true, Some (Imports module) => <[PluginManifest.name manifest := module]> modules
  | _, _ => modules
  end.

End RegistrySpec.

(** ** What a computation keeps *)

(** Every run of [c] leaves a state related by [R] to the one it started
    in. *)
Definition keeps {S A} (R : relation S) (c : M S A) : Prop := ∀ s, R s (c s).2.

Module FrameSpec.
Import TaskOrchestrator.

(** The plugin registry and the router's configuration are as they were. *)
Definition same_configuration (s s' : state) : Prop :=
  PluginExecutor.plugins (plugin_executor s') = PluginExecutor.plugins (plugin_executor s)
  ∧ PluginExecutor.plugin_modules (plugin_executor s')
    = PluginExecutor.plugin_modules (plugin_executor s)
  ∧ LLMRouter.clients (llm_router s') = LLMRouter.clients (llm_router s)
  ∧ LLMRouter.model_preferences (llm_router s')
    = LLMRouter.model_preferences (llm_router s).

(** The plugin executor is as it was. *)
Definition same_executor (s s' : state) : Prop :=
  plugin_executor s' = plugin_executor s.

(** The collaborators entered from [s] to [s'] all satisfy [allowed]. *)
Definition entered_only (allowed : step → Prop) (s s' : state) : Prop :=
  ∃ entered, trace s' = trace s ++ entered ∧ Forall allowed entered.

End FrameSpec.

(** ** The router's clients and the model call ([src/orchestrator/llm_router.py]) *)

Definition KeyError (key : string) : exn := Exn "KeyError" ("'" +:+ key +:+ "'").
Definition NotImplementedError (msg : string) : exn := Exn "NotImplementedError" msg.

Module LLMClients.
Import LLMRouter.
Local Open Scope monad_scope.

(** The vendors' libraries. [construct provider api_key] is the constructor
    of the provider's client ([openai.OpenAI(api_key=...)],
    [anthropic.Anthropic(api_key=...)]): [None] when it returns, [Some e]
    when it raises [e]. [complete provider prompt n] is the outcome of a
    request to the provider's client, the [create] call and the reading of
    the text off its response, when [n] requests were sent before it. The
    exceptions of the vendors' libraries derive from [Exception]. *)
Record vendors := {
  construct : string → string → option exn;
  complete : string → string → nat → result string;
  construct_raises_Exception :
    ∀ provider api_key e, construct provider api_key = Some e → is_Exception e = true;
  complete_raises_Exception :
    ∀ provider prompt n e, complete provider prompt n = Raise e → is_Exception e = true;
}.

(** [self.clients[provider] = client], on the keys of the dict. *)
Definition set_client (provider : string) (s : state) : state :=
  Build_state (if bool_decide (provider ∈ clients s) then clients s
               else clients s ++ [provider])
              (model_preferences s) (log s).

(** [self.api_keys] maps a provider to its key; a provider whose environment
    variable is unset (the value [None]) has no entry. The test
    [if self.api_keys.get(provider)] holds for a key that is set and not
    empty. *)
Definition _init_clients (v : vendors) (api_keys : gmap string string)
  : M state unit :=
  try_except
    (match api_keys !! "openai" with
     | Some key =>
         if negb (String.eqb key "") then
           match construct v "openai" key with
           | None =>
               modify (set_client "openai") ;;
               logger INFO "OpenAI client initialized"
           | Some e => raise e
           end
         else ret tt
     | None => ret tt
     end)
    (fun e => logger WARNING ("Failed to initialize OpenAI client: " +:+ exn_str e)) ;;
  try_except
    (match api_keys !! "claude" with
     | Some key =>
         if negb (String.eqb key "") then
           match construct v "claude" key with
           | None =>
               modify (set_client "claude") ;;
               logger INFO "Claude client initialized"
           | Some e => raise e
           end
         else ret tt
     | None => ret tt
     end)
    (fun e => logger WARNING ("Failed to initialize Claude client: " +:+ exn_str e)).

(** [LLMRouter.__init__], given the keys [config.get_api_keys()] returns and
    the table [config.get("llm.model_preferences", {})] returns. *)
Definition init (v : vendors) (api_keys : gmap string string)
    (preferences : gmap string string) : state :=
  let s0 := Build_state [] ∅ [] in
  let s1 := (_init_clients v api_keys s0).2 in
  let s2 := Build_state (clients s1) preferences (log s1) in
  (logger INFO "LLM router initialized" s2).2.

(** The router and the requests its clients have sent, oldest first, each
    with the provider and the prompt. *)
Record session := {
  router : state;
  requests : list (string * string);
}.

Definition set_router (r : state) (s : session) : session :=
  Build_session r (requests s).

(** [client.messages.create(...)] or [client.chat.completions.create(...)]
    with the prompt as the one user message, and the text of the response. *)
Definition request (v : vendors) (provider prompt : string) : M session string :=
  fun s => (complete v provider prompt (length (requests s)),
            Build_session (router s) (requests s ++ [(provider, prompt)])).

Definition _execute_claude (v : vendors) (prompt : string) : M session string :=
  s <- get ;;
  if bool_decide ("claude" ∈ clients (router s))
  then request v "claude" prompt
  else raise (KeyError "claude").

Definition _execute_openai (v : vendors) (prompt : string) : M session string :=
  s <- get ;;
  if bool_decide ("openai" ∈ clients (router s))
  then request v "openai" prompt
  else raise (KeyError "openai").

Definition _execute_gemini (prompt : string) : M session string :=
  raise (NotImplementedError "Gemini integration not yet implemented").

(** The [try] of [execute]. *)
Definition execute_body (v : vendors) (model prompt : string) : M session string :=
  if String.eqb model "claude" then _execute_claude v prompt
  else if bool_decide (model ∈ ["gpt4"; "openai"]) then _execute_openai v prompt
  else if String.eqb model "gemini" then _execute_gemini prompt
  else raise (ValueError ("Unsupported model: " +:+ model)).

(** [execute] calls itself from its handler; [fuel] bounds the depth of
    these calls, and [None] is a run that needs more. *)
Fixpoint execute (v : vendors) (fuel : nat) (model prompt : string) (s : session)
  : option (result string * session) :=
  match fuel with
  | 0 => None
  | S fuel =>
      match execute_body v model prompt s with
      | (Ok response, s1) => Some (Ok response, s1)
      | (Raise e, s1) =>
          if is_Exception e then
            let s2 :=
              (zoom router set_router
                 (logger ERROR ("Model execution failed for " +:+ model +:+ ": "
                                +:+ exn_str e)) s1).2 in
            let available_models :=
              filter (fun m => m ≠ model) (clients (router s2)) in
            match available_models with
            | fallback_model :: _ =>
                let s3 :=
                  (zoom router set_router
                     (logger INFO ("Trying fallback model: " +:+ fallback_model))
                     s2).2 in
                execute v fuel fallback_model prompt s3
            | [] => Some (Raise e, s2)
            end
          else Some (Raise e, s1)
      end
  end.

(** [get_status] *)
Definition get_status (s : state) : string :=
  "Available models: "
  +:+ match clients s with
      | [] => "None"
      | available_models => Py.join ", " available_models
      end.

End LLMClients.

Module ClientsSpec.
Import LLMRouter.
Import LLMClients.

(** The provider's key is set and not empty, and the constructor of its
    client returns. *)
Definition has_working_key (v : vendors) (api_keys : gmap string string)
    (provider : string) : bool :=
  match api_keys !! provider with
  | Some key =>
      negb (String.eqb key "")
      && match construct v provider key with None => true | Some _ => false end
  | None => false
  end.

(** Every request to every provider raises. *)
Definition always_failing (v : vendors) : Prop :=
  ∀ provider prompt n, ∃ e, complete v provider prompt n = Raise e.

(** One pass through the [try] of [execute], with the error its handler
    logs when the pass raises. *)
Definition attempt (v : vendors) (model prompt : string) (s : session)
  : result string * session :=
  match execute_body v model prompt s with
  | (Ok response, s1) => (Ok response, s1)
  | (Raise e, s1) =>
      (Raise e,
       (zoom router set_router
          (logger ERROR ("Model execution failed for " +:+ model +:+ ": "
                         +:+ exn_str e)) s1).2)
  end.

(** The handler's [logger.info] before it calls [execute] again. *)
Definition trying (fallback_model : string) (s : session) : session :=
  (zoom router set_router
     (logger INFO ("Trying fallback model: " +:+ fallback_model)) s).2.

End ClientsSpec.

Module ExampleVendors.
Import LLMRouter.
Import LLMClients.

(** Vendors whose constructors return and whose requests answer. *)
Definition answering : vendors :=
  {| construct := fun _ _ => None;
     complete := fun provider prompt _ => Ok (provider +:+ " on " +:+ prompt);
     construct_raises_Exception := ltac:(discriminate);
     complete_raises_Exception := ltac:(discriminate) |}.

(** Vendors whose constructors return and whose requests all raise. *)
Definition failing : vendors :=
  {| construct := fun _ _ => None;
     complete := fun _ _ _ => Raise (Exn "APIConnectionError" "Connection error.");
     construct_raises_Exception := ltac:(discriminate);
     complete_raises_Exception := ltac:(by intros _ _ _ e [= <-]) |}.

(** OpenAI fails once, then answers. *)
Definition flaky : vendors :=
  {| construct := fun _ _ => None;
     complete := fun provider prompt n =>
       match n with
       | 0 => Raise (Exn "APIConnectionError" "Connection error.")
       | _ => Ok (provider +:+ " on " +:+ prompt)
       end;
     construct_raises_Exception := ltac:(discriminate);
     complete_raises_Exception := ltac:(by intros _ _ [|n] e [= <-]) |}.

Definition openai_only : gmap string string := {[ "openai" := "sk-example" ]}.
Definition both_keys : gmap string string :=
  {[ "openai" := "sk-example"; "claude" := "sk-ant-example" ]}.

(** The table of the default configuration. *)
Definition default_preferences : gmap string string :=
  {[ "reasoning" := "claude"; "coding" := "gpt4"; "creative" := "gemini" ]}.

Definition session_of (v : vendors) (api_keys : gmap string string) : session :=
  {| router := init v api_keys default_preferences; requests := [] |}.

End ExampleVendors.

(** ** The configuration ([src/config/settings.py]) *)

Module ConfigManager.

(** A value of the configuration, as [json.load] builds it. A [dict] holds
    its items in insertion order. A float is kept as its literal. *)
#[warnings="-register-all"] Inductive config_value :=
| VNone
| VBool (b : bool)
| VInt (n : Z)
| VFloat (literal : string)
| VStr (s : string)
| VList (l : list config_value)
| VDict (d : list (string * config_value)).

Record state := {
  _config : list (string * config_value);
}.

Local Open Scope monad_scope.

(** The loop of [get]: [value] is followed along the keys while it is a
    dict that holds the key. *)
Fixpoint get_loop (keys : list string) (value default : config_value) : config_value :=
  match keys with
  | [] => value
  | k :: keys =>
      match value with
      | VDict d =>
          match Py.dict_get d k with
          | Some value => get_loop keys value default
          | None => default
          end
      | _ => default
      end
  end.

Definition get (s : state) (key : string) (default : config_value) : config_value :=
  let keys := Py.split "." key in
  get_loop keys (VDict (_config s)) default.

(** [dict(items)] *)
Definition dict (items : list (string * config_value)) : list (string * config_value) :=
  foldl (fun d item => Py.dict_set d item.1 item.2) [] items.

(** [f"{parent_key}{sep}{k}" if parent_key else k] *)
Definition new_key (parent_key sep k : string) : string :=
  if negb (String.eqb parent_key "") then parent_key +:+ sep +:+ k else k.

(** [_flatten_dict] on the dict [v]; the inner loop is the [for] over its
    items. *)
Fixpoint flatten (v : config_value) (parent_key sep : string) {struct v}
  : list (string * config_value) :=
  match v with
  | VDict d =>
      dict ((fix extend (d : list (string * config_value)) : list (string * config_value) :=
               match d with
               | [] => []
               | (k, v) :: d =>
                   match v with
                   | VDict _ => flatten v (new_key parent_key sep k) sep
                   | _ => [(new_key parent_key sep k, v)]
                   end ++ extend d
               end) d)
  | _ => []
  end.

Definition _flatten_dict (d : list (string * config_value)) (parent_key sep : string)
  : list (string * config_value) :=
  flatten (VDict d) parent_key sep.

(** [items] *)
Definition items (s : state) : list (string * config_value) :=
  _flatten_dict (_config s) "" ".".

Section Assignment.

(** [type_error_text other k] is the text of the [TypeError] the interpreter
    raises when the value [other], which is not a dict, stands where [set]
    tests for, reads or assigns the key [k]. [_save_config] returns, or
    raises what creating the configuration directory raises; what it
    writes is outside this model. *)
Variable type_error_text : config_value → string → string.
Variable _save_config : list (string * config_value) → result unit.

(** The loop of [set] over [keys[:-1]] and the assignment to [keys[-1]], on
    the dict [config], which is updated in place. *)
Fixpoint assign (path : list string) (last : string) (value : config_value)
    (config : list (string * config_value)) : result unit * list (string * config_value) :=
  match path with
  | [] => (Ok tt, Py.dict_set config last value)
  | k :: path =>
      match Py.dict_get config k with
      | None =>
          let (r, sub) := assign path last value [] in
          (r, Py.dict_set config k (VDict sub))
      | Some (VDict sub) =>
          let (r, sub) := assign path last value sub in
          (r, Py.dict_set config k (VDict sub))
      | Some other =>
          (Raise (TypeError (type_error_text other (hd last path))), config)
      end
  end.

Definition set (key : string) (value : config_value) : M state unit :=
  let keys := Py.split "." key in
  (fun s => match assign (removelast keys) (List.last keys "") value (_config s) with
            | (r, config) => (r, Build_state config)
            end) ;;
  (fun s => (_save_config (_config s), s)).

End Assignment.

End ConfigManager.

Module ConfigSpec.
Import ConfigManager.

(** The keys of a dict are pairwise distinct; here also every key, at every
    depth, is not empty and holds no dot. *)
Fixpoint plain_keys (v : config_value) : Prop :=
  match v with
  | VDict d =>
      NoDup d.*1
      ∧ (fix all (d : list (string * config_value)) : Prop :=
           match d with
           | [] => True
           | (k, v) :: d =>
               (k ≠ "" ∧ Spec.has_char "." k = false ∧ plain_keys v) ∧ all d
           end) d
  | _ => True
  end.

Definition is_dict (v : config_value) : bool :=
  match v with VDict _ => true | _ => false end.

(** The value that is not a dict on the way of [set], with the key it is
    asked for. *)
Fixpoint obstacle (path : list string) (last : string)
    (config : list (string * config_value)) : option (config_value * string) :=
  match path with
  | [] => None
  | k :: path =>
      match Py.dict_get config k with
      | None => None
      | Some (VDict sub) => obstacle path last sub
      | Some other => Some (other, hd last path)
      end
  end.

End ConfigSpec.

Module ExampleConfig.
Import ConfigManager.

(** A part of the default configuration. *)
Definition defaults : state :=
  {| _config :=
       [("llm", VDict [("default_model", VStr "auto");
                       ("model_preferences",
                        VDict [("reasoning", VStr "claude"); ("coding", VStr "gpt4");
                               ("creative", VStr "gemini")]);
                       ("max_tokens", VInt 4000);
                       ("temperature", VFloat "0.1")]);
        ("plugins", VDict [("enabled", VBool true);
                           ("sandbox_timeout", VInt 300);
                           ("allowed_domains", VList [VStr "localhost"])])] |}.

(** A configuration with a dot in a key. *)
Definition dotted : state :=
  {| _config := [("api.host", VStr "localhost")] |}.

End ExampleConfig.

(** * Properties *)

Import Spec.
Import PluginExecutor.
Local Open Scope monad_scope.

(** ** Facts about the string operations *)

Section StringFacts.
Implicit Types (c a : ascii) (s t : string).

Lemma has_char_cons c a s :
  has_char c (String a s) = Ascii.eqb a c || has_char c s.
Proof.
  unfold has_char. simpl. destruct (ascii_dec c a) as [->|Hne].
  - rewrite Ascii.eqb_refl. destruct s; reflexivity.
  - destruct (Ascii.eqb_spec a c); [congruence | reflexivity].
Qed.


Lemma split_no_sep c s : has_char c s = false → Py.split c s = [s].
Proof.
  induction s as [|a s IH]; [reflexivity|].
  rewrite has_char_cons. intros [Ha Hs]%orb_false_elim.
  simpl. rewrite Ha, (IH Hs). reflexivity.
Qed.

Lemma split_app c s t :
  has_char c s = false → Py.split c (s +:+ String c t) = s :: Py.split c t.
Proof.
  induction s as [|a s IH].
  - intros _. simpl. rewrite Ascii.eqb_refl. reflexivity.
  - rewrite has_char_cons. intros [Ha Hs]%orb_false_elim.
    simpl. rewrite Ha, (IH Hs). reflexivity.
Qed.


Lemma split_join c (pieces : list string) :
  pieces ≠ [] →
  Forall (fun p => has_char c p = false) pieces →
  Py.split c (Py.join (String c "") pieces) = pieces.
Proof.
  intros Hne Hall. induction Hall as [|p pieces Hp Hall IH]; [done|].
  destruct pieces as [|q pieces].
  - simpl. by apply split_no_sep.
  - change (Py.join (String c "") (p :: q :: pieces))
      with (p +:+ String c (Py.join (String c "") (q :: pieces))).
    rewrite split_app by done. rewrite IH; done.
Qed.

Lemma app_assoc_str s t u : (s +:+ t) +:+ u = s +:+ (t +:+ u).
Proof.
  induction s as [|a s IH]; [reflexivity|].
  change (String a ((s +:+ t) +:+ u) = String a (s +:+ t +:+ u)).
  by rewrite IH.
Qed.
End StringFacts.

(** ** Handlers and the classes of exceptions *)

Lemma try_except_returned {S A} (body : M S A) (handler : exn → M S A) s a s1 :
  body s = (Ok a, s1) → try_except body handler s = (Ok a, s1).
Proof. intros H. unfold try_except. by rewrite H. Qed.


Lemma try_except_passed {S A} (body : M S A) (handler : exn → M S A) s e s1 :
  body s = (Raise e, s1) → is_Exception e = false →
  try_except body handler s = (Raise e, s1).
Proof. intros H He. unfold try_except. by rewrite H, He. Qed.

(** ** Trimming *)

Section Trimming.
Variable p : ascii → bool.

Lemma lstrip_by_spec s :
  ∃ before, s = before +:+ Py.lstrip_by p s
            ∧ every p before = true
            ∧ ∀ c, first_char (Py.lstrip_by p s) = Some c → p c = false.
Proof.
  induction s as [|a s (before & Hs & Hb & Hf)]; [by exists ""|].
  cbn [Py.lstrip_by]. destruct (p a) eqn:Ha.
  - exists (String a before). split; [|split; [|exact Hf]].
    + change (String a before +:+ Py.lstrip_by p s)
        with (String a (before +:+ Py.lstrip_by p s)). by rewrite <- Hs.
    + cbn [every]. by rewrite Ha, Hb.
  - exists "". split; [reflexivity|]. split; [reflexivity|].
    intros c [= <-]. exact Ha.
Qed.

Lemma rstrip_by_spec s :
  ∃ after, s = Py.rstrip_by p s +:+ after
           ∧ every p after = true
           ∧ (∀ c, last_char (Py.rstrip_by p s) = Some c → p c = false)
           ∧ (Py.rstrip_by p s ≠ "" → first_char (Py.rstrip_by p s) = first_char s).
Proof.
  induction s as [|a s (after & Hs & Ha & Hl & Hf)]; [by exists ""|].
  cbn [Py.rstrip_by]. destruct (Py.rstrip_by p s) as [|b r] eqn:Hr.
  - destruct (p a) eqn:Hpa.
    + exists (String a after). split; [by rewrite Hs at 1|].
      split; [cbn [every]; by rewrite Hpa, Ha|]. by split.
    + exists after. split; [by rewrite Hs at 1|]. split; [exact Ha|].
      split; [|done]. intros c [= <-]. exact Hpa.
  - exists after. split.
    + change (String a (String b r) +:+ after) with (String a (String b r +:+ after)).
      by rewrite <- Hs.
    + split; [exact Ha|]. split; [exact Hl | done].
Qed.

Lemma strip_by_trimmed s : trimmed p s (Py.strip_by p s).
Proof.
  unfold Py.strip_by.
  destruct (lstrip_by_spec s) as (before & Hs & Hb & Hf).
  destruct (rstrip_by_spec (Py.lstrip_by p s)) as (after & Ht & Ha & Hl & Hfirst).
  exists before, after. split; [by rewrite <- Ht|].
  split; [exact Hb|]. split; [exact Ha|]. split; [|exact Hl].
  intros c Hc. apply Hf. rewrite <- Hfirst; [exact Hc|].
  intros Hempty. by rewrite Hempty in Hc.
Qed.

Lemma lstrip_by_every before t :
  every p before = true → Py.lstrip_by p (before +:+ t) = Py.lstrip_by p t.
Proof.
  induction before as [|a before IH]; [done|]. cbn [every].
  intros [Ha Hb]%andb_true_iff.
  change (String a before +:+ t) with (String a (before +:+ t)).
  cbn [Py.lstrip_by]. rewrite Ha. by apply IH.
Qed.

Lemma lstrip_by_all after : every p after = true → Py.lstrip_by p after = "".
Proof.
  induction after as [|a after IH]; [done|]. cbn [every].
  intros [Ha Hb]%andb_true_iff. cbn [Py.lstrip_by]. rewrite Ha. by apply IH.
Qed.

Lemma lstrip_by_id t :
  (∀ c, first_char t = Some c → p c = false) → Py.lstrip_by p t = t.
Proof.
  destruct t as [|a t]; [done|]. intros H. cbn [Py.lstrip_by].
  by rewrite (H a eq_refl).
Qed.

Lemma rstrip_by_all after : every p after = true → Py.rstrip_by p after = "".
Proof.
  induction after as [|a after IH]; [done|]. cbn [every].
  intros [Ha Hb]%andb_true_iff. cbn [Py.rstrip_by]. by rewrite (IH Hb), Ha.
Qed.

Lemma rstrip_by_every t after :
  every p after = true → Py.rstrip_by p (t +:+ after) = Py.rstrip_by p t.
Proof.
  intros Ha. induction t as [|a t IH]; [by apply rstrip_by_all|].
  change (String a t +:+ after) with (String a (t +:+ after)).
  cbn [Py.rstrip_by]. by rewrite IH.
Qed.

Lemma rstrip_by_id t :
  (∀ c, last_char t = Some c → p c = false) → Py.rstrip_by p t = t.
Proof.
  induction t as [|a t IH]; [done|]. intros H. cbn [Py.rstrip_by].
  destruct t as [|b t].
  - cbn [Py.rstrip_by]. by rewrite (H a eq_refl).
  - rewrite IH; [reflexivity|]. intros c Hc. apply H. exact Hc.
Qed.

Lemma trimmed_strip_by raw core : trimmed p raw core → Py.strip_by p raw = core.
Proof.
  intros (before & after & -> & Hb & Ha & Hf & Hl). unfold Py.strip_by.
  rewrite lstrip_by_every by exact Hb.
  destruct core as [|a core].
  - change ("" +:+ after) with after. by rewrite lstrip_by_all.
  - rewrite lstrip_by_id.
    + rewrite rstrip_by_every by exact Ha. by apply rstrip_by_id.
    + intros c [= <-]. by apply Hf.
Qed.

Lemma trimmed_iff raw core : trimmed p raw core ↔ Py.strip_by p raw = core.
Proof.
  split; [apply trimmed_strip_by | intros <-; apply strip_by_trimmed].
Qed.
End Trimming.







Lemma drop_length_app p rest : Py.drop (String.length p) (p +:+ rest) = rest.
Proof. induction p as [|a p IH]; [by destruct rest | exact IH]. Qed.


















(** ** Invocation *)

(** C2: each of the four refusals of an invocation (the plugin is unknown,
    is disabled, has no loaded module, or lacks the method) raises a
    [ValueError] whose message names that refusal, after an error line is
    logged; the messages of two different refusals differ, whatever the
    plugin and method names in them. *)
Theorem execute_plugin_failure_kinds s name method args k :
  fails_with s name method k →
  execute_plugin name method args s
  = (Raise (ValueError (failure_message k name method)),
     set_log (log s ++ [(ERROR, "Plugin execution failed " +:+ name +:+ "." +:+ method
                                 +:+ ": " +:+ failure_message k name method)]) s)
  ∧ ∀ k' name' method', k' ≠ k →
      failure_message k' name' method' ≠ failure_message k name method.
Proof.
  intros H. split.
  - unfold execute_plugin, execute_plugin_body, try_except, bind, get, raise, logger, modify.
    destruct H as [H|m H He|m H He Hm|m md H He Hm Hmd]; rewrite H; simpl;
      rewrite ?He; simpl; rewrite ?Hm; simpl; rewrite ?Hmd; reflexivity.
  - intros k' name' method' Hk.
    destruct k, k'; try congruence; simpl; discriminate.
Qed.

Lemma execute_plugin_failure_kinds_witness :
  fails_with (Example.started true) "nope" "f" NotFound
  ∧ (execute_plugin "nope" "f" [] (Example.started true)).1
    = Raise (ValueError "Plugin not found: nope").
Proof.
  assert (H : fails_with (Example.started true) "nope" "f" NotFound)
    by (apply fails_unknown; vm_compute; reflexivity).
  split; [exact H|].
  rewrite (proj1 (execute_plugin_failure_kinds _ _ _ [] _ H)). reflexivity.
Defined.

(** ** Failure semantics of the registry operations *)

Lemma bind_returns {S A B} (c : M S A) (k : A → M S B) :
  returns c → (∀ a, returns (k a)) → returns (bind c k).
Proof.
  intros Hc Hk s. unfold bind. destruct (Hc s) as (a & s1 & ->). apply Hk.
Qed.

Lemma logger_returns lvl msg : returns (logger lvl msg).
Proof. intros s. by eexists _, _. Qed.

Lemma ret_returns {S A} (a : A) : returns (ret (S := S) a).
Proof. intros s. by eexists _, _. Qed.


Lemma try_except_guarded {S A} (body : M S A) (handler : exn → M S A) :
  (∀ e, returns (handler e)) → guarded (try_except body handler).
Proof.
  intros Hh s e. unfold try_except.
  destruct (body s) as [[a|e'] s1]; [done|].
  destruct (is_Exception e') eqn:He'.
  - by destruct (Hh e' s1) as (a & s' & ->).
  - by intros [= <-].
Qed.

Lemma returns_guarded {S A} (c : M S A) : returns c → guarded c.
Proof. intros Hc s e. by destruct (Hc s) as (a & s' & ->). Qed.

Lemma bind_guarded {S A B} (c : M S A) (k : A → M S B) :
  guarded c → (∀ a, guarded (k a)) → guarded (bind c k).
Proof.
  intros Hc Hk s e. unfold bind. specialize (Hc s).
  destruct (c s) as [[a|e'] s1]; [apply Hk|].
  intros [= <-]. by apply Hc.
Qed.

Lemma _load_plugin_module_guarded child manifest :
  guarded (_load_plugin_module child manifest).
Proof. apply try_except_guarded. intros e. apply logger_returns. Qed.





Lemma _execute_shell_command_guarded command :
  guarded (_execute_shell_command command).
Proof.
  apply try_except_guarded. intros e.
  destruct (String.eqb (exn_class e) "TimeoutExpired"); apply ret_returns.
Qed.

Lemma _execute_tool_call_guarded tool_call : guarded (_execute_tool_call tool_call).
Proof. apply try_except_guarded. intros e. apply ret_returns. Qed.

Lemma execute_from_response_guarded response :
  guarded (execute_from_response response).
Proof.
  apply try_except_guarded. intros e.
  apply bind_returns; [apply logger_returns | intros _; apply ret_returns].
Qed.

(** ** Dispatch from text *)

Lemma run_directive_guarded d : guarded (run_directive d).
Proof.
  destruct d as [command|query|tool_call]; cbn [run_directive].
  - apply bind_guarded; [apply _execute_shell_command_guarded|].
    intros r. apply returns_guarded, ret_returns.
  - apply returns_guarded, ret_returns.
  - apply bind_guarded; [apply _execute_tool_call_guarded|].
    intros r. apply returns_guarded, ret_returns.
Qed.

(** The directives either all return, one result each, or the run stops at
    the first that lets an exception out, which is then no [Exception]. *)
Lemma run_directives_result ds s :
  match run_directives ds s with
  | (Ok results, _) => length results = length ds
  | (Raise e, _) => is_Exception e = false
  end.
Proof.
  revert s. induction ds as [|d ds IH]; intros s; [reflexivity|].
  cbn [run_directives]. unfold bind at 1.
  pose proof (run_directive_guarded d s) as Hd.
  destruct (run_directive d s) as [[r|e] s1]; [|by apply Hd].
  unfold bind. specialize (IH s1).
  destruct (run_directives ds s1) as [[rs|e] s2]; [|exact IH].
  cbn [ret length]. by rewrite IH.
Qed.

Lemma dispatch_line_directive results line s :
  dispatch_line results line s
  = match directive_of line with
    | None => (Ok results, s)
    | Some d =>
        match run_directive d s with
        | (Ok r, s') => (Ok (results ++ [r]), s')
        | (Raise e, s') => (Raise e, s')
        end
    end.
Proof.
  unfold dispatch_line, directive_of.
  destruct (Py.startswith (Py.strip line) "execute:").
  { cbn [run_directive]. unfold bind.
    by destruct (_execute_shell_command _ s) as [[r|e] s1]. }
  destruct (Py.startswith (Py.strip line) "search:"); [reflexivity|].
  destruct (Py.startswith (Py.strip line) "tool:"); [|reflexivity].
  cbn [run_directive]. unfold bind.
  by destruct (_execute_tool_call _ s) as [[r|e] s1].
Qed.

Lemma dispatch_lines_directives lines : ∀ results s,
  dispatch_lines lines results s
  = match run_directives (omap directive_of lines) s with
    | (Ok rs, s') => (Ok (results ++ rs), s')
    | (Raise e, s') => (Raise e, s')
    end.
Proof.
  induction lines as [|line lines IH]; intros results s.
  - simpl. unfold ret. by rewrite app_nil_r.
  - cbn [dispatch_lines omap list_omap]. unfold bind at 1.
    rewrite dispatch_line_directive.
    destruct (directive_of line) as [d|].
    + cbn [run_directives]. unfold bind.
      destruct (run_directive d s) as [[r|e] s1]; [|reflexivity].
      rewrite IH.
      destruct (run_directives (omap directive_of lines) s1) as [[rs|e] s2];
        [|reflexivity].
      unfold ret. by rewrite <- app_assoc.
    + apply IH.
Qed.

(** Dispatch-from-text is the run of the directives of its lines: its own
    handler is never entered, since what a directive lets out is no
    [Exception]. *)
Lemma execute_from_response_directives response s :
  execute_from_response response s
  = match run_directives (omap directive_of (Py.split Py.newline response)) s with
    | (Ok results, s') => (Ok (text_block results), s')
    | (Raise e, s') => (Raise e, s')
    end.
Proof.
  unfold execute_from_response, try_except, bind.
  rewrite dispatch_lines_directives.
  pose proof (run_directives_result
                (omap directive_of (Py.split Py.newline response)) s) as Hr.
  destruct (run_directives _ s) as [[rs|e] s']; [by destruct rs|].
  by rewrite Hr.
Qed.





(** It fails in a second way: the handlers catch [Exception] only. Plugin
    code that calls [sys.exit], in a method or when it is imported, raises
    [SystemExit] through dispatch-from-text, install, load, discovery and
    toggle alike. *)
Example system_exit_leaves_the_operations :
  (execute_from_response "tool:halt.now()" ExampleExit.started).1
  = Raise (Exn "SystemExit" "bye")
  ∧ (install_plugin "/tmp/boom" ExampleExit.started).1 = Raise (Exn "SystemExit" "bye")
  ∧ (_load_plugin "boom" (set_fs ExampleExit.disk_with_boom ExampleExit.started)).1
    = Raise (Exn "SystemExit" "bye")
  ∧ (_load_plugins (set_fs ExampleExit.disk_with_boom ExampleExit.started)).1
    = Raise (Exn "SystemExit" "bye")
  ∧ (toggle_plugin "boom" true
       (toggle_plugin "boom" false (install_plugin "/tmp/boom" ExampleExit.started).2).2).1
    = Raise (Exn "SystemExit" "bye").
Proof. repeat split; vm_compute; reflexivity. Qed.





(** ** The deny-list of the shell path *)

Lemma is_dangerous_intro command dangerous :
  dangerous ∈ deny_list → Py.contains dangerous command = true →
  is_dangerous command = true.
Proof.
  intros Hin Hc. unfold is_dangerous, Py.any. apply existsb_exists.
  exists dangerous. split; [by apply list_elem_of_In | exact Hc].
Qed.

(** C8: a command that contains a deny-listed text, [rm -rf] among them, is
    answered with the blocked message and the state is left as it was: no
    subprocess is started, neither by the handler nor by the [execute:] line
    that carries the command. A command without such text is handed to the
    shell. *)
Theorem dangerous_command_is_blocked s command dangerous :
  dangerous ∈ deny_list →
  Py.contains dangerous command = true →
  "rm -rf" ∈ deny_list
  ∧ _execute_shell_command command s = (Ok "Error: Dangerous command blocked", s)
  ∧ (∀ results line,
       Py.startswith (Py.strip line) "execute:" = true →
       Py.strip (Py.drop 8 (Py.strip line)) = command →
       dispatch_line results line s
       = (Ok (results ++ ["Command: " +:+ command +:+ Py.nl
                          +:+ "Output: Error: Dangerous command blocked"]), s))
  ∧ (∀ harmless,
       is_dangerous harmless = false →
       subprocesses (_execute_shell_command harmless s).2
       = subprocesses s ++ [harmless]).
Proof.
  intros Hin Hc.
  assert (Hblocked : _execute_shell_command command s
                     = (Ok "Error: Dangerous command blocked", s)).
  { unfold _execute_shell_command, try_except.
    by rewrite (is_dangerous_intro _ _ Hin Hc). }
  split; [|split; [exact Hblocked|split]].
  - unfold deny_list. apply list_elem_of_here.
  - intros results line Hstart Hcmd. unfold dispatch_line.
    rewrite Hstart, Hcmd. unfold bind. by rewrite Hblocked.
  - intros harmless Hh. unfold _execute_shell_command, try_except.
    rewrite Hh. unfold bind, get, modify.
    destruct (shell s harmless) as [rc out err| |e]; simpl.
    + by destruct (Z.eqb rc 0).
    + reflexivity.
    + destruct (is_Exception e); [|reflexivity].
      by destruct (String.eqb (exn_class e) "TimeoutExpired").
Qed.

Lemma dangerous_command_is_blocked_witness :
  "rm -rf" ∈ deny_list
  ∧ Py.contains "rm -rf" "rm -rf /" = true
  ∧ _execute_shell_command "rm -rf /" (Example.started true)
    = (Ok "Error: Dangerous command blocked", Example.started true).
Proof.
  assert (Hin : "rm -rf" ∈ deny_list) by apply list_elem_of_here.
  assert (Hc : Py.contains "rm -rf" "rm -rf /" = true) by reflexivity.
  split; [exact Hin|]. split; [exact Hc|].
  exact (proj1 (proj2 (dangerous_command_is_blocked
                         (Example.started true) "rm -rf /" "rm -rf" Hin Hc))).
Defined.

(** ** Toggle *)

Lemma dict_get_set_eq {V} (d : list (string * V)) k v :
  Py.dict_get (Py.dict_set d k v) k = Some v.
Proof.
  induction d as [|[k' v'] d IH]; simpl.
  - by rewrite String.eqb_refl.
  - destruct (String.eqb k' k) eqn:Hk; simpl; rewrite Hk; [reflexivity | exact IH].
Qed.

Lemma dict_get_set_ne {V} (d : list (string * V)) k k' v :
  k ≠ k' → Py.dict_get (Py.dict_set d k v) k' = Py.dict_get d k'.
Proof.
  intros Hne. induction d as [|[k0 v0] d IH]; simpl.
  - destruct (String.eqb_spec k k'); [done | reflexivity].
  - destruct (String.eqb_spec k0 k) as [->|Hk0]; simpl.
    + destruct (String.eqb_spec k k'); [done | reflexivity].
    + by rewrite IH.
Qed.

Lemma init_dump m : PluginManifest_init (JObject (dump m)) = Ok m.
Proof. by destruct m. Qed.

Lemma write_manifest_raises child m s e s1 :
  write_manifest child m s = (Raise e, s1) → s1 = s.
Proof.
  unfold write_manifest, bind, get, raise, modify.
  destruct (root (fs s) !! child) as [[|d]|]; try (by intros [= _ <-]).
  destruct (writable d); by intros [=].
Qed.

Lemma write_manifest_raises_Exception child m s e s1 :
  write_manifest child m s = (Raise e, s1) → is_Exception e = true.
Proof.
  unfold write_manifest, bind, get, raise, modify.
  destruct (root (fs s) !! child) as [[|d]|]; try (by intros [= <- _]).
  destruct (writable d); by intros [= <- _].
Qed.

Lemma write_manifest_writable child m s d :
  root (fs s) !! child = Some (Directory d) →
  writable d = true →
  write_manifest child m s
  = (Ok tt,
     set_fs (set_root (<[child := Directory
                           {| manifest_json := Some (Parses (JObject (dump m)));
                              files := files d; writable := true;
                              dir_writable := dir_writable d |}]>
                         (root (fs s))) (fs s)) s).
Proof.
  intros Hd Hw. unfold write_manifest, bind, get, modify. by rewrite Hd, Hw.
Qed.

Lemma toggle_unknown s name enabled :
  Py.dict_get (plugins s) name = None →
  toggle_plugin name enabled s
  = (Ok false, set_log (log s ++ [(ERROR, "Plugin not found: " +:+ name)]) s).
Proof.
  intros Hn. unfold toggle_plugin, try_except, toggle_plugin_body, bind, get.
  by rewrite Hn.
Qed.

Lemma toggle_write_fails s name enabled manifest e :
  Py.dict_get (plugins s) name = Some manifest →
  (write_manifest name (PluginManifest.set_enabled manifest enabled)
                  (flag_set s name manifest enabled)).1 = Raise e →
  toggle_plugin name enabled s
  = (Ok false,
     set_log (log s ++ [(ERROR, "Failed to toggle plugin " +:+ name +:+ ": "
                                 +:+ exn_str e)])
             (flag_set s name manifest enabled)).
Proof.
  intros Hm Hw.
  destruct (write_manifest name (PluginManifest.set_enabled manifest enabled)
                           (flag_set s name manifest enabled)) as [r s1] eqn:Hwm.
  simpl in Hw. subst r.
  pose proof (write_manifest_raises_Exception _ _ _ _ _ Hwm) as He.
  pose proof (write_manifest_raises _ _ _ _ _ Hwm) as ->.
  unfold toggle_plugin, try_except, toggle_plugin_body, bind, get.
  rewrite Hm. unfold modify at 1. fold (flag_set s name manifest enabled).
  by rewrite Hwm, He.
Qed.

(** C10: when the name is registered and writing its manifest file raises,
    [toggle_plugin] returns [false] with the flag in memory already set to
    the requested value, the loaded modules and the disk as they were; when
    the name is unknown it returns [false] and leaves the registry, the
    loaded modules and the disk as they were. On the example disk with a
    read-only folder, the failed toggle leaves the flag in memory off, the
    flag on disk on, and the module loaded. *)
Theorem toggle_is_not_atomic s name enabled :
  (∀ manifest e,
     Py.dict_get (plugins s) name = Some manifest →
     (write_manifest name (PluginManifest.set_enabled manifest enabled)
                     (flag_set s name manifest enabled)).1 = Raise e →
     ∃ s', toggle_plugin name enabled s = (Ok false, s')
           ∧ Py.dict_get (plugins s') name
             = Some (PluginManifest.set_enabled manifest enabled)
           ∧ plugin_modules s' = plugin_modules s
           ∧ fs s' = fs s)
  ∧ (Py.dict_get (plugins s) name = None →
     ∃ s', toggle_plugin name enabled s = (Ok false, s')
           ∧ plugins s' = plugins s
           ∧ plugin_modules s' = plugin_modules s
           ∧ fs s' = fs s)
  ∧ (∃ s0 s',
       toggle_plugin "echo" false s0 = (Ok false, s')
       ∧ PluginManifest.enabled <$> Py.dict_get (plugins s') "echo" = Some false
       ∧ PluginManifest.enabled <$> persisted_manifest s' "echo" = Some true
       ∧ plugin_modules s' !! "echo" = Some Example.echo_module).
Proof.
  split; [|split].
  - intros manifest e Hm Hw. eexists. split; [by apply toggle_write_fails|].
    simpl. by rewrite dict_get_set_eq.
  - intros Hn. eexists. split; [by apply toggle_unknown | done].
  - exists (Example.started false). eexists. split; [vm_compute; reflexivity|].
    split; [vm_compute; reflexivity|]. split; vm_compute; reflexivity.
Qed.

Lemma toggle_is_not_atomic_witness :
  Py.dict_get (plugins (Example.started false)) "echo" = Some Example.echo_manifest
  ∧ (write_manifest "echo" (PluginManifest.set_enabled Example.echo_manifest false)
                    (flag_set (Example.started false) "echo" Example.echo_manifest false)).1
    = Raise (PermissionError "plugins/echo/manifest.json")
  ∧ (∃ s', toggle_plugin "echo" false (Example.started false) = (Ok false, s')
           ∧ Py.dict_get (plugins s') "echo"
             = Some (PluginManifest.set_enabled Example.echo_manifest false)
           ∧ plugin_modules s' = plugin_modules (Example.started false)
           ∧ fs s' = fs (Example.started false))
  ∧ Py.dict_get (plugins (Example.started false)) "nope" = None
  ∧ (∃ s', toggle_plugin "nope" true (Example.started false) = (Ok false, s')
           ∧ plugins s' = plugins (Example.started false)
           ∧ plugin_modules s' = plugin_modules (Example.started false)
           ∧ fs s' = fs (Example.started false)).
Proof.
  assert (H1 : Py.dict_get (plugins (Example.started false)) "echo"
               = Some Example.echo_manifest) by (vm_compute; reflexivity).
  assert (H2 : (write_manifest "echo"
                  (PluginManifest.set_enabled Example.echo_manifest false)
                  (flag_set (Example.started false) "echo" Example.echo_manifest false)).1
               = Raise (PermissionError "plugins/echo/manifest.json"))
    by (vm_compute; reflexivity).
  assert (H3 : Py.dict_get (plugins (Example.started false)) "nope" = None)
    by (vm_compute; reflexivity).
  split; [exact H1|]. split; [exact H2|].
  split; [exact (proj1 (toggle_is_not_atomic (Example.started false) "echo" false)
                       _ _ H1 H2)|].
  split; [exact H3|].
  exact (proj1 (proj2 (toggle_is_not_atomic (Example.started false) "nope" true)) H3).
Defined.

Lemma set_enabled_id manifest :
  PluginManifest.set_enabled manifest (PluginManifest.enabled manifest) = manifest.
Proof. by destruct manifest. Qed.

Lemma set_enabled_twice manifest a b :
  PluginManifest.set_enabled (PluginManifest.set_enabled manifest a) b
  = PluginManifest.set_enabled manifest b.
Proof. reflexivity. Qed.

Lemma persisted_after_write s child d m s' :
  root (fs s') = <[child := Directory
                     {| manifest_json := Some (Parses (JObject (dump m)));
                        files := files d; writable := true;
                        dir_writable := dir_writable d |}]> (root (fs s)) →
  persisted_manifest s' child = Some m.
Proof.
  intros Hr. unfold persisted_manifest. rewrite Hr, lookup_insert_eq.
  cbn [open_read manifest_json json_load]. by rewrite init_dump.
Qed.

(** C5, as stated, fails: on the example disk whose [echo] folder is
    read-only the plugin is registered, enabled and loaded, yet after the
    toggle to disabled the flag on disk differs from the flag in memory and
    the module is still loaded. *)
Lemma toggle_round_trip_fails_read_only :
  PluginManifest.enabled <$> Py.dict_get (plugins (Example.started false)) "echo"
  = Some true
  ∧ plugin_modules (Example.started false) !! "echo" = Some Example.echo_module
  ∧ (toggle_plugin "echo" false (Example.started false)).1 = Ok false
  ∧ PluginManifest.enabled
      <$> Py.dict_get (plugins (toggle_plugin "echo" false (Example.started false)).2) "echo"
    = Some false
  ∧ PluginManifest.enabled
      <$> persisted_manifest (toggle_plugin "echo" false (Example.started false)).2 "echo"
    = Some true
  ∧ plugin_modules (toggle_plugin "echo" false (Example.started false)).2 !! "echo"
    = Some Example.echo_module.
Proof. repeat split; vm_compute; reflexivity. Qed.

(** C5, amended: from a state where the plugin is registered under its own
    name, enabled and loaded, and where its folder under the plugin root can
    be written and holds an entry point that imports, disabling and enabling
    again both succeed; after each toggle the manifest on disk is the
    manifest in memory, the module is absent after the disable and present
    after the enable. [toggle_plugin] returns [false] without raising when
    the name is unknown or when writing the manifest raises. *)
Theorem toggle_round_trip s name manifest module d reloaded :
  Py.dict_get (plugins s) name = Some manifest →
  PluginManifest.name manifest = name →
  PluginManifest.enabled manifest = true →
  plugin_modules s !! name = Some module →
  root (fs s) !! name = Some (Directory d) →
  writable d = true →
  files d !! PluginManifest.entry_point manifest = Some (Imports reloaded) →
  (∃ s1 s2,
     toggle_plugin name false s = (Ok true, s1)
     ∧ Py.dict_get (plugins s1) name = Some (PluginManifest.set_enabled manifest false)
     ∧ persisted_manifest s1 name = Some (PluginManifest.set_enabled manifest false)
     ∧ plugin_modules s1 !! name = None
     ∧ toggle_plugin name true s1 = (Ok true, s2)
     ∧ Py.dict_get (plugins s2) name = Some manifest
     ∧ persisted_manifest s2 name = Some manifest
     ∧ plugin_modules s2 !! name = Some reloaded)
  ∧ (∀ s0 unknown enabled,
       Py.dict_get (plugins s0) unknown = None →
       (toggle_plugin unknown enabled s0).1 = Ok false)
  ∧ (∀ s0 name0 enabled manifest0 e,
       Py.dict_get (plugins s0) name0 = Some manifest0 →
       (write_manifest name0 (PluginManifest.set_enabled manifest0 enabled)
                       (flag_set s0 name0 manifest0 enabled)).1 = Raise e →
       (toggle_plugin name0 enabled s0).1 = Ok false).
Proof.
  intros Hm Hname Hen Hmod Hd Hw Hentry.
  split; [|split].
  2:{ intros s0 unknown enabled Hn. by rewrite toggle_unknown. }
  2:{ intros s0 name0 enabled manifest0 e Hm0 Hwf.
      by rewrite (toggle_write_fails _ _ _ _ _ Hm0 Hwf). }
  set (m0 := PluginManifest.set_enabled manifest false).
  set (d1 := {| manifest_json := Some (Parses (JObject (dump m0)));
                files := files d; writable := true;
                dir_writable := dir_writable d |}).
  (* the disable *)
  assert (H1 : ∃ s1, toggle_plugin name false s = (Ok true, s1)
                     ∧ plugins s1 = Py.dict_set (plugins s) name m0
                     ∧ root (fs s1) = <[name := Directory d1]> (root (fs s))
                     ∧ plugin_modules s1 = delete name (plugin_modules s)).
  { eexists. split.
    - unfold toggle_plugin, try_except, toggle_plugin_body, bind at 1, get.
      rewrite Hm. cbv zeta. unfold bind at 1, modify at 1.
      fold (flag_set s name manifest false). fold m0. unfold bind at 1.
      rewrite (write_manifest_writable name m0 (flag_set s name manifest false) d)
        by done.
      unfold bind at 1, get.
      cbn [plugin_modules set_fs flag_set set_plugins andb negb].
      rewrite Hmod. rewrite bool_decide_eq_true_2 by (by eexists).
      reflexivity.
    - split; [|split]; reflexivity. }
  destruct H1 as (s1 & Ht1 & Hp1 & Hr1 & Hm1).
  exists s1.
  assert (Hg1 : Py.dict_get (plugins s1) name = Some m0)
    by (by rewrite Hp1, dict_get_set_eq).
  assert (Hd1 : root (fs s1) !! name = Some (Directory d1))
    by (by rewrite Hr1, lookup_insert_eq).
  assert (Hn1 : plugin_modules s1 !! name = None)
    by (by rewrite Hm1, lookup_delete_eq).
  (* the enable *)
  assert (H2 : ∃ s2, toggle_plugin name true s1 = (Ok true, s2)
                     ∧ plugins s2 = Py.dict_set (plugins s1) name manifest
                     ∧ root (fs s2)
                       = <[name := Directory
                             {| manifest_json := Some (Parses (JObject (dump manifest)));
                                files := files d1; writable := true;
                                dir_writable := dir_writable d1 |}]> (root (fs s1))
                     ∧ plugin_modules s2 = <[name := reloaded]> (plugin_modules s1)).
  { assert (Hback : PluginManifest.set_enabled m0 true = manifest).
    { unfold m0. rewrite set_enabled_twice, <- Hen. apply set_enabled_id. }
    eexists. split.
    - unfold toggle_plugin, try_except, toggle_plugin_body, bind at 1, get.
      rewrite Hg1. cbv zeta. unfold bind at 1, modify at 1.
      fold (flag_set s1 name m0 true). rewrite Hback. unfold bind at 1.
      rewrite (write_manifest_writable name manifest (flag_set s1 name m0 true) d1)
        by done.
      unfold bind at 1, get.
      cbn [plugin_modules set_fs flag_set set_plugins andb negb].
      rewrite Hn1. rewrite bool_decide_eq_false_2 by (by intros [? ?]).
      cbn [negb]. unfold bind at 1.
      unfold _load_plugin_module, try_except, bind at 1, get, entry_file.
      cbn [fs set_fs root set_root]. rewrite lookup_insert_eq. cbn [files d1].
      rewrite Hentry. unfold bind, modify, logger. rewrite Hname.
      reflexivity.
    - split; [|split]; simpl; by rewrite ?Hback. }
  destruct H2 as (s2 & Ht2 & Hp2 & Hr2 & Hm2).
  exists s2. repeat split; try done.
  - by eapply persisted_after_write.
  - by rewrite Hp2, dict_get_set_eq.
  - by eapply persisted_after_write.
  - by rewrite Hm2, lookup_insert_eq.
Qed.

Lemma toggle_round_trip_witness :
  Py.dict_get (plugins (Example.started true)) "echo" = Some Example.echo_manifest
  ∧ plugin_modules (Example.started true) !! "echo" = Some Example.echo_module
  ∧ root (fs (Example.started true)) !! "echo"
    = Some (Directory (Example.echo_folder true))
  ∧ ∃ s1 s2,
      toggle_plugin "echo" false (Example.started true) = (Ok true, s1)
      ∧ Py.dict_get (plugins s1) "echo"
        = Some (PluginManifest.set_enabled Example.echo_manifest false)
      ∧ persisted_manifest s1 "echo"
        = Some (PluginManifest.set_enabled Example.echo_manifest false)
      ∧ plugin_modules s1 !! "echo" = None
      ∧ toggle_plugin "echo" true s1 = (Ok true, s2)
      ∧ Py.dict_get (plugins s2) "echo" = Some Example.echo_manifest
      ∧ persisted_manifest s2 "echo" = Some Example.echo_manifest
      ∧ plugin_modules s2 !! "echo" = Some Example.echo_module.
Proof.
  assert (H1 : Py.dict_get (plugins (Example.started true)) "echo"
               = Some Example.echo_manifest) by (vm_compute; reflexivity).
  assert (H2 : plugin_modules (Example.started true) !! "echo"
               = Some Example.echo_module) by (vm_compute; reflexivity).
  assert (H3 : root (fs (Example.started true)) !! "echo"
               = Some (Directory (Example.echo_folder true)))
    by (vm_compute; reflexivity).
  assert (H4 : files (Example.echo_folder true)
                 !! PluginManifest.entry_point Example.echo_manifest
               = Some (Imports Example.echo_module)) by (vm_compute; reflexivity).
  split; [exact H1|]. split; [exact H2|]. split; [exact H3|].
  exact (proj1 (toggle_round_trip (Example.started true) "echo" Example.echo_manifest
                  Example.echo_module (Example.echo_folder true) Example.echo_module
                  H1 eq_refl eq_refl H2 H3 eq_refl H4)).
Defined.

(** ** The registry invariant *)

Lemma invariant_same_registry s s' :
  registry s' = registry s → registry_invariant s → registry_invariant s'.
Proof.
  unfold registry, registry_invariant, well_keyed, loaded_are_registered.
  intros [= -> ->]. done.
Qed.

Lemma invariant_register s manifest :
  registry_invariant s →
  registry_invariant
    (set_plugins (Py.dict_set (plugins s) (PluginManifest.name manifest) manifest) s).
Proof.
  intros [Hk Hl]. split.
  - intros key m. simpl.
    destruct (decide (PluginManifest.name manifest = key)) as [<-|Hne].
    + rewrite dict_get_set_eq. by intros [= <-].
    + rewrite dict_get_set_ne by done. apply Hk.
  - intros name Hn. simpl in *.
    destruct (decide (PluginManifest.name manifest = name)) as [<-|Hne].
    + rewrite dict_get_set_eq. by eexists.
    + rewrite dict_get_set_ne by done. by apply Hl.
Qed.

Lemma invariant_load_module s name module :
  is_Some (Py.dict_get (plugins s) name) →
  registry_invariant s →
  registry_invariant (set_plugin_modules (<[name := module]> (plugin_modules s)) s).
Proof.
  intros Hreg [Hk Hl]. split; [exact Hk|].
  intros name' Hn. simpl in *.
  destruct (decide (name = name')) as [<-|Hne]; [exact Hreg|].
  rewrite lookup_insert_ne in Hn by done. by apply Hl.
Qed.

Lemma invariant_unload s name :
  registry_invariant s →
  registry_invariant (set_plugin_modules (delete name (plugin_modules s)) s).
Proof.
  intros [Hk Hl]. split; [exact Hk|].
  intros name' Hn. simpl in *.
  destruct (decide (name = name')) as [<-|Hne].
  - rewrite lookup_delete_eq in Hn. by destruct Hn.
  - rewrite lookup_delete_ne in Hn by done. by apply Hl.
Qed.

Lemma invariant_log s l : registry_invariant s → registry_invariant (set_log l s).
Proof. by apply invariant_same_registry. Qed.

Lemma try_except_post {S A} (P : S → Prop) (body : M S A) handler s :
  P (body s).2 → (∀ e s1, P s1 → P (handler e s1).2) →
  P (try_except body handler s).2.
Proof.
  intros Hb Hh. unfold try_except. destruct (body s) as [[a|e] s1]; [exact Hb|].
  destruct (is_Exception e); [by apply Hh | exact Hb].
Qed.

Lemma _load_plugin_module_invariant child manifest s :
  is_Some (Py.dict_get (plugins s) (PluginManifest.name manifest)) →
  registry_invariant s →
  registry_invariant (_load_plugin_module child manifest s).2
  ∧ plugins (_load_plugin_module child manifest s).2 = plugins s.
Proof.
  intros Hreg Hinv. unfold _load_plugin_module.
  apply (try_except_post (fun s' => registry_invariant s' ∧ plugins s' = plugins s)).
  - unfold bind, get, raise, modify, logger.
    destruct (entry_file s child (PluginManifest.entry_point manifest))
      as [[module|e]|]; simpl; split; try reflexivity.
    + by apply invariant_log, invariant_load_module.
    + exact Hinv.
    + by apply invariant_log.
  - intros e s1 [H1 H2]. split; [by apply invariant_log | exact H2].
Qed.

Lemma _load_plugin_invariant child s :
  registry_invariant s → registry_invariant (_load_plugin child s).2.
Proof.
  intros Hinv. unfold _load_plugin. apply (try_except_post registry_invariant).
  2:{ intros e s1 H1. by apply invariant_log. }
  unfold bind at 1, get. unfold bind at 1, lift.
  destruct (open_read _ _) as [t|e]; [|exact Hinv].
  unfold bind at 1. destruct (json_load t) as [j|e]; [|exact Hinv].
  unfold bind at 1.
  destruct (PluginManifest_init j) as [manifest|e]; [|exact Hinv].
  unfold bind at 1, modify at 1.
  set (s1 := set_plugins _ s).
  assert (Hinv1 : registry_invariant s1) by (by apply invariant_register).
  assert (Hreg1 : is_Some (Py.dict_get (plugins s1) (PluginManifest.name manifest))).
  { unfold s1. simpl. rewrite dict_get_set_eq. by eexists. }
  unfold bind at 1. destruct (PluginManifest.enabled manifest).
  - destruct (_load_plugin_module_invariant child manifest s1 Hreg1 Hinv1) as [H2 _].
    destruct (_load_plugin_module child manifest s1) as [[[]|e] s2]; simpl in *.
    + by apply invariant_log.
    + exact H2.
  - simpl. by apply invariant_log.
Qed.

Lemma load_each_invariant children : ∀ s,
  registry_invariant s → registry_invariant (load_each children s).2.
Proof.
  unfold load_each.
  induction children as [|child children IH]; intros s Hinv; [exact Hinv|].
  cbn [for_each]. unfold bind at 1.
  set (body := (s0 <- get ;; match root (fs s0) !! child with
                             | Some n => if is_candidate n then _load_plugin child else ret tt
                             | None => ret tt
                             end)%M).
  assert (Hb : registry_invariant (body s).2).
  { unfold body, bind, get.
    destruct (root (fs s) !! child) as [n|]; [|exact Hinv].
    destruct (is_candidate n); [by apply _load_plugin_invariant | exact Hinv]. }
  destruct (body s) as [[[]|e] s1]; simpl in Hb; [by apply IH | exact Hb].
Qed.

Lemma _load_plugins_invariant s :
  registry_invariant s → registry_invariant (_load_plugins s).2.
Proof.
  intros Hinv. unfold _load_plugins. apply (try_except_post registry_invariant).
  - unfold bind, get. by apply load_each_invariant.
  - intros e s1 H1. by apply invariant_log.
Qed.

Lemma init_invariant dir sandbox_timeout disk sh :
  registry_invariant (init dir sandbox_timeout disk sh).
Proof.
  unfold init. unfold bind at 1.
  match goal with |- context [_load_plugins ?s0] =>
    assert (H : registry_invariant (_load_plugins s0).2) end.
  { apply _load_plugins_invariant.
    split; [by intros key manifest | intros name].
    simpl. rewrite lookup_empty. by intros [? ?]. }
  destruct (_load_plugins _) as [[[]|e] s1]; [|exact H].
  unfold bind, get. by apply invariant_log.
Qed.

Lemma write_manifest_registry child m s :
  registry (write_manifest child m s).2 = registry s.
Proof.
  unfold write_manifest, bind, get, raise, modify.
  destruct (root (fs s) !! child) as [[|d]|]; try reflexivity.
  by destruct (writable d).
Qed.

Lemma toggle_plugin_invariant name enabled s :
  registry_invariant s → registry_invariant (toggle_plugin name enabled s).2.
Proof.
  intros Hinv. unfold toggle_plugin. apply (try_except_post registry_invariant).
  2:{ intros e s1 H1. by apply invariant_log. }
  unfold toggle_plugin_body.
  unfold bind at 1, get.
  destruct (Py.dict_get (plugins s) name) as [manifest|] eqn:Hm;
    [|by apply invariant_log].
  cbv zeta. unfold bind at 1, modify at 1. fold (flag_set s name manifest enabled).
  set (m' := PluginManifest.set_enabled manifest enabled).
  set (s1 := flag_set s name manifest enabled).
  assert (Hname : PluginManifest.name m' = name)
    by (exact (proj1 Hinv name manifest Hm)).
  assert (Hinv1 : registry_invariant s1).
  { unfold s1, flag_set. fold m'. rewrite <- Hname at 1.
    by apply invariant_register. }
  unfold bind at 1.
  pose proof (write_manifest_registry name m' s1) as Hw.
  destruct (write_manifest name m' s1) as [[[]|e] s2]; simpl in Hw.
  2:{ simpl. by apply (invariant_same_registry s1). }
  assert (Hinv2 : registry_invariant s2) by (by apply (invariant_same_registry s1)).
  assert (Hreg2 : is_Some (Py.dict_get (plugins s2) (PluginManifest.name m'))).
  { injection Hw as -> _. rewrite Hname. unfold s1, flag_set. simpl.
    rewrite dict_get_set_eq. by eexists. }
  unfold bind at 1, get. unfold bind at 1.
  destruct (enabled && negb (bool_decide (is_Some (plugin_modules s2 !! name)))).
  - destruct (_load_plugin_module_invariant name m' s2 Hreg2 Hinv2) as [H3 _].
    destruct (_load_plugin_module name m' s2) as [[[]|e] s3]; simpl in *;
      [by apply invariant_log | exact H3].
  - destruct (negb enabled && bool_decide (is_Some (plugin_modules s2 !! name)));
      simpl; apply invariant_log; [by apply invariant_unload | exact Hinv2].
Qed.

Lemma rmdir_registry child s : registry (rmdir child s).2 = registry s.
Proof.
  unfold rmdir, bind, get, raise, modify. by destruct (root_writable (fs s)).
Qed.

Lemma rmtree_registry child s : registry (rmtree child s).2 = registry s.
Proof.
  unfold rmtree. unfold bind at 1, get.
  destruct (root (fs s) !! child) as [[|d]|]; try reflexivity.
  destruct (entries d); [apply rmdir_registry|].
  destruct (dir_writable d); [|reflexivity].
  unfold bind, modify. by rewrite rmdir_registry.
Qed.

Lemma copytree_registry d child s : registry (copytree d child s).2 = registry s.
Proof.
  unfold copytree, bind, get, raise, modify.
  destruct (root (fs s) !! child) as [n|]; [reflexivity|].
  by destruct (root_writable (fs s)).
Qed.

Lemma logger_registry lvl msg s : registry (logger lvl msg s).2 = registry s.
Proof. reflexivity. Qed.

Lemma install_plugin_invariant source_path s :
  registry_invariant s → registry_invariant (install_plugin source_path s).2.
Proof.
  intros Hinv. unfold install_plugin. apply (try_except_post registry_invariant).
  2:{ intros e s1 H1. by apply invariant_log. }
  unfold install_plugin_body.
  unfold bind at 1, get.
  destruct (outside (fs s) !! source_path) as [[|[[t|] fls w dw]]|];
    try (by apply invariant_log).
  unfold bind at 1, lift. destruct (json_load t) as [j|e]; [|exact Hinv].
  unfold bind at 1.
  destruct (PluginManifest_init j) as [manifest|e]; [|exact Hinv].
  set (c1 := if bool_decide (is_Some (Py.dict_get (plugins s) (PluginManifest.name manifest)))
             then logger WARNING _ else ret tt).
  assert (H1 : registry (c1 s).2 = registry s) by (unfold c1; by case_bool_decide).
  unfold bind at 1. destruct (c1 s) as [[[]|e] s1]; simpl in H1.
  2:{ simpl. by apply (invariant_same_registry s). }
  set (c2 := if bool_decide (is_Some (root (fs s) !! PluginManifest.name manifest))
             then rmtree (PluginManifest.name manifest) else ret tt).
  assert (H2 : registry (c2 s1).2 = registry s1).
  { unfold c2. case_bool_decide; [apply rmtree_registry | reflexivity]. }
  unfold bind at 1. destruct (c2 s1) as [[[]|e] s2]; simpl in H2.
  2:{ simpl. apply (invariant_same_registry s); [congruence|done]. }
  unfold bind at 1.
  pose proof (copytree_registry
                {| manifest_json := Some t; files := fls; writable := w;
                   dir_writable := dw |}
                (PluginManifest.name manifest) s2) as H3.
  destruct (copytree _ _ s2) as [[[]|e] s3]; simpl in H3.
  2:{ simpl. apply (invariant_same_registry s); [congruence|done]. }
  assert (Hinv3 : registry_invariant s3).
  { apply (invariant_same_registry s); [congruence|done]. }
  unfold bind at 1.
  pose proof (_load_plugin_invariant (PluginManifest.name manifest) s3 Hinv3) as H4.
  destruct (_load_plugin (PluginManifest.name manifest) s3) as [[[]|e] s4];
    simpl in *; [by apply invariant_log | exact H4].
Qed.

Lemma execute_plugin_registry name method args s :
  registry (execute_plugin name method args s).2 = registry s.
Proof.
  unfold execute_plugin.
  apply (try_except_post (fun s' => registry s' = registry s)).
  2:{ intros e s1 H1. unfold bind, logger, raise. exact H1. }
  unfold execute_plugin_body, bind, get, raise.
  destruct (Py.dict_get (plugins s) name) as [manifest|]; [|reflexivity].
  destruct (negb (PluginManifest.enabled manifest)); [reflexivity|].
  destruct (plugin_modules s !! name) as [module|]; [|reflexivity].
  destruct (module !! method) as [method_func|]; [|reflexivity].
  unfold modify at 1, try_finally, call.
  destruct (method_func args); reflexivity.
Qed.

Lemma _execute_shell_command_registry command s :
  registry (_execute_shell_command command s).2 = registry s.
Proof.
  unfold _execute_shell_command.
  apply (try_except_post (fun s' => registry s' = registry s)).
  2:{ intros e s1 H1. by destruct (String.eqb (exn_class e) "TimeoutExpired"). }
  destruct (is_dangerous command); [reflexivity|].
  unfold bind, get, modify.
  destruct (shell s command) as [rc out err| |e]; simpl; try reflexivity.
  by destruct (Z.eqb rc 0).
Qed.

Lemma stateless_ret {S A} (a : A) : stateless (ret (S := S) a).
Proof. by intros s. Qed.

Lemma stateless_raise {S A} (e : exn) : stateless (raise (S := S) (A := A) e).
Proof. by intros s. Qed.

Lemma stateless_bind {S A B} (c : M S A) (k : A → M S B) :
  stateless c → (∀ a, stateless (k a)) → stateless (bind c k).
Proof.
  intros Hc Hk s. unfold bind. specialize (Hc s).
  destruct (c s) as [[a|e] s1]; simpl in Hc; subst s1; [apply Hk | reflexivity].
Qed.

Lemma unpack2_stateless l : stateless (unpack2 l).
Proof.
  destruct l as [|a [|b [|c l]]]; simpl;
    first [apply stateless_ret | apply stateless_raise].
Qed.

Lemma index_stateless l i : stateless (index l i).
Proof.
  unfold index. destruct (l !! i); [apply stateless_ret | apply stateless_raise].
Qed.

Lemma parse_args_stateless pieces : ∀ args, stateless (parse_args pieces args).
Proof.
  induction pieces as [|arg pieces IH]; intros args; simpl; [apply stateless_ret|].
  destruct (Py.contains "=" arg); [|apply IH].
  apply stateless_bind; [apply unpack2_stateless | intros kv; apply IH].
Qed.

Lemma parse_tool_call_stateless tool_call : stateless (parse_tool_call tool_call).
Proof.
  unfold parse_tool_call.
  destruct (negb (Py.contains "." tool_call) || negb (Py.contains "(" tool_call));
    [apply stateless_ret|].
  apply stateless_bind; [apply unpack2_stateless | intros pm].
  apply stateless_bind; [apply index_stateless | intros method_name].
  apply stateless_bind; [|intros args; apply stateless_ret].
  destruct (Py.contains "(" pm.2 && Py.contains ")" pm.2); [|apply stateless_ret].
  apply stateless_bind; [apply index_stateless | intros after].
  apply stateless_bind; [apply index_stateless | intros args_str].
  apply parse_args_stateless.
Qed.

Lemma _execute_tool_call_registry tool_call s :
  registry (_execute_tool_call tool_call s).2 = registry s.
Proof.
  unfold _execute_tool_call.
  apply (try_except_post (fun s' => registry s' = registry s)).
  2:{ intros e s1 H1. exact H1. }
  unfold bind at 1.
  pose proof (parse_tool_call_stateless tool_call s) as Hp.
  destruct (parse_tool_call tool_call s) as [[[[[plugin method] args]|]|e] s1];
    simpl in Hp; subst s1; try reflexivity.
  unfold bind, bind_arguments.
  destruct (List.find _ args) as [[key v]|]; [reflexivity|].
  apply execute_plugin_registry.
Qed.

Lemma run_directive_registry d s : registry (run_directive d s).2 = registry s.
Proof.
  destruct d as [command|query|tool_call]; simpl; unfold bind.
  - pose proof (_execute_shell_command_registry command s) as H.
    by destruct (_execute_shell_command command s) as [[r|e] s1].
  - reflexivity.
  - pose proof (_execute_tool_call_registry tool_call s) as H.
    by destruct (_execute_tool_call tool_call s) as [[r|e] s1].
Qed.

Lemma run_directives_registry ds : ∀ s,
  registry (run_directives ds s).2 = registry s.
Proof.
  induction ds as [|d ds IH]; intros s; [reflexivity|].
  simpl. unfold bind at 1. pose proof (run_directive_registry d s) as Hd.
  destruct (run_directive d s) as [[r|e] s1]; simpl in Hd; [|exact Hd].
  unfold bind. specialize (IH s1).
  destruct (run_directives ds s1) as [[rs|e] s2]; simpl in *; congruence.
Qed.

Lemma execute_from_response_registry response s :
  registry (execute_from_response response s).2 = registry s.
Proof.
  rewrite execute_from_response_directives.
  pose proof (run_directives_registry
                (omap directive_of (Py.split Py.newline response)) s) as H.
  by destruct (run_directives _ s) as [[rs|e] s1].
Qed.

(** C9: in every state the executor goes through, from its construction on
    and whatever the operations (discovery, load, toggle, install,
    invocation, dispatch from text) and the changes of the disk in between,
    every name with a loaded module is a registered name; each operation
    keeps this, together with the fact that manifests are registered under
    their own names. *)
Theorem loaded_modules_are_registered s :
  reachable s →
  loaded_are_registered s
  ∧ ∀ op, registry_invariant (run op s).
Proof.
  intros Hreach.
  assert (Hstep : ∀ op s0, registry_invariant s0 → registry_invariant (run op s0)).
  { intros op s0 Hinv. destruct op; cbn [run].
    - by apply _load_plugins_invariant.
    - by apply _load_plugin_invariant.
    - by apply toggle_plugin_invariant.
    - by apply install_plugin_invariant.
    - eapply invariant_same_registry; [apply execute_plugin_registry | done].
    - eapply invariant_same_registry; [apply execute_from_response_registry | done].
    - by apply invariant_same_registry with s0. }
  assert (Hinv : registry_invariant s).
  { induction Hreach as [dir t disk sh|op s0 Hreach IH];
      [apply init_invariant | by apply Hstep]. }
  split; [exact (proj2 Hinv) | intros op; by apply Hstep].
Qed.

Lemma loaded_modules_are_registered_witness :
  reachable (run (Toggle "echo" true) (run (Toggle "echo" false) (Example.started true)))
  ∧ plugin_modules (run (Toggle "echo" true)
                        (run (Toggle "echo" false) (Example.started true))) !! "echo"
    = Some Example.echo_module
  ∧ is_Some (Py.dict_get
               (plugins (run (Toggle "echo" true)
                             (run (Toggle "echo" false) (Example.started true))))
               "echo")
  ∧ registry_invariant
      (run (Install "/tmp/echo")
           (run (Toggle "echo" true) (run (Toggle "echo" false) (Example.started true)))).
Proof.
  assert (H : reachable (run (Toggle "echo" true)
                             (run (Toggle "echo" false) (Example.started true))))
    by (do 2 apply reachable_run; unfold Example.started; apply reachable_init).
  assert (Hm : plugin_modules (run (Toggle "echo" true)
                                   (run (Toggle "echo" false) (Example.started true)))
               !! "echo" = Some Example.echo_module) by (vm_compute; reflexivity).
  split; [exact H|]. split; [exact Hm|].
  destruct (loaded_modules_are_registered _ H) as [Hloaded Hops].
  split; [apply Hloaded; rewrite Hm; by eexists | apply Hops].
Defined.

(** ** Model selection *)

Section ModelSelection.
Import RouterSpec.

Lemma has_keyword_mentions keywords text :
  LLMRouter.has_keyword keywords text = true ↔ mentions keywords text.
Proof.
  unfold LLMRouter.has_keyword, Py.any, mentions. rewrite existsb_exists.
  split; intros (k & Hk & Hc); exists k; (split; [by apply list_elem_of_In | exact Hc]).
Qed.

Lemma not_mentions keywords text :
  LLMRouter.has_keyword keywords text = false ↔ ¬ mentions keywords text.
Proof.
  rewrite <- has_keyword_mentions. destruct (LLMRouter.has_keyword keywords text);
    split; [done | by intros [] | done | done].
Qed.

Lemma no_clients_unavailable s model :
  LLMRouter.clients s = [] → LLMRouter._is_model_available s model = false.
Proof.
  intros Hc. unfold LLMRouter._is_model_available. rewrite Hc.
  destruct (LLMRouter.model_map !! model); [|reflexivity].
  apply bool_decide_eq_false_2, not_elem_of_nil.
Qed.

Lemma auto_unavailable s : LLMRouter._is_model_available s "auto" = false.
Proof. reflexivity. Qed.

Lemma select_model_outcome s requested_model prompt :
  (LLMRouter.select_model requested_model prompt s).1
  = selection s requested_model prompt.
Proof.
  unfold LLMRouter.select_model, selection, preferred, bind, get.
  destruct (String.eqb_spec requested_model "auto") as [->|Hne]; cbn [negb andb].
  - rewrite auto_unavailable. unfold ret at 1.
    destruct (LLMRouter._is_model_available s _) eqn:Hp; [reflexivity|].
    by destruct (LLMRouter.clients s).
  - destruct (LLMRouter._is_model_available s requested_model); [reflexivity|].
    unfold LLMRouter.logger at 1, modify.
    change (LLMRouter._is_model_available
              (LLMRouter.Build_state (LLMRouter.clients s) (LLMRouter.model_preferences s) ?[l]) ?[m])
      with (LLMRouter._is_model_available s ?m).
    destruct (LLMRouter._is_model_available s _) eqn:Hp; [reflexivity|].
    cbn [LLMRouter.clients]. by destruct (LLMRouter.clients s).
Qed.

Lemma model_map_provider_of model : LLMRouter.model_map !! model = provider_of model.
Proof.
  unfold provider_of, LLMRouter.model_map.
  destruct (String.eqb_spec model "claude") as [->|H1]; [reflexivity|].
  destruct (String.eqb_spec model "gpt4") as [->|H2]; [reflexivity|].
  destruct (String.eqb_spec model "openai") as [->|H3]; [reflexivity|].
  destruct (String.eqb_spec model "gemini") as [->|H4]; [reflexivity|].
  rewrite !lookup_insert_ne by done. by apply lookup_singleton_ne.
Qed.

Lemma available_has_client s model :
  LLMRouter._is_model_available s model = true ↔ has_client s model.
Proof.
  unfold LLMRouter._is_model_available, has_client.
  rewrite model_map_provider_of.
  destruct (provider_of model) as [provider|].
  - rewrite bool_decide_eq_true. split; [intros Hin; by exists provider|].
    by intros (p & [= <-] & Hin).
  - split; [done | by intros (p & Hp & _)].
Qed.

Lemma unavailable_no_client s model :
  LLMRouter._is_model_available s model = false ↔ ¬ has_client s model.
Proof.
  rewrite <- available_has_client.
  destruct (LLMRouter._is_model_available s model); split; done.
Qed.

(** C6: model selection returns the requested model when its provider has a
    client; otherwise it returns the model the preference table gives for
    the prompt's class when that model's provider has a client, otherwise
    the first provider that has a client, and it raises exactly when no
    provider has a client. A model's provider is [claude] for [claude],
    [openai] for [gpt4] and [openai], [gemini] for [gemini]; [auto] and any
    other name have none. The class is [coding], [reasoning] or [creative],
    decided by which keywords occur in the lowered prompt: [coding] when a
    coding keyword occurs, else [creative] when a creative keyword and no
    reasoning keyword occurs, else [reasoning]. *)
Theorem select_model_selection s requested_model prompt :
  let choice := preferred s (LLMRouter._classify_task prompt) in
  (has_client s requested_model →
   (LLMRouter.select_model requested_model prompt s).1 = Ok requested_model)
  ∧ (¬ has_client s requested_model → has_client s choice →
     (LLMRouter.select_model requested_model prompt s).1 = Ok choice)
  ∧ (¬ has_client s requested_model → ¬ has_client s choice →
     (LLMRouter.select_model requested_model prompt s).1
     = match LLMRouter.clients s with
       | first_provider :: _ => Ok first_provider
       | [] => Raise LLMRouter.no_models
       end)
  ∧ LLMRouter._classify_task prompt ∈ ["coding"; "reasoning"; "creative"]
  ∧ (LLMRouter._classify_task prompt = "coding"
     ↔ mentions LLMRouter.coding_keywords (Py.lower prompt))
  ∧ (LLMRouter._classify_task prompt = "creative"
     ↔ ¬ mentions LLMRouter.coding_keywords (Py.lower prompt)
       ∧ ¬ mentions LLMRouter.reasoning_keywords (Py.lower prompt)
       ∧ mentions LLMRouter.creative_keywords (Py.lower prompt))
  ∧ ((∃ e, (LLMRouter.select_model requested_model prompt s).1 = Raise e)
     ↔ LLMRouter.clients s = []).
Proof.
  intros choice.
  split; [|split; [|split]].
  { intros Hreq%available_has_client.
    rewrite select_model_outcome. unfold selection. by rewrite Hreq. }
  { intros Hreq%unavailable_no_client Hpref%available_has_client.
    rewrite select_model_outcome. unfold selection. fold choice.
    by rewrite Hreq, Hpref. }
  { intros Hreq%unavailable_no_client Hpref%unavailable_no_client.
    rewrite select_model_outcome. unfold selection. fold choice.
    by rewrite Hreq, Hpref. }
  assert (Hclass :
    LLMRouter._classify_task prompt
    = if LLMRouter.has_keyword LLMRouter.coding_keywords (Py.lower prompt)
      then "coding"
      else if LLMRouter.has_keyword LLMRouter.reasoning_keywords (Py.lower prompt)
      then "reasoning"
      else if LLMRouter.has_keyword LLMRouter.creative_keywords (Py.lower prompt)
      then "creative" else "reasoning") by reflexivity.
  split; [|split; [|split]].
  - rewrite Hclass.
    destruct (LLMRouter.has_keyword LLMRouter.coding_keywords _);
      [apply list_elem_of_here|].
    destruct (LLMRouter.has_keyword LLMRouter.reasoning_keywords _);
      [apply list_elem_of_further, list_elem_of_here|].
    destruct (LLMRouter.has_keyword LLMRouter.creative_keywords _);
      [do 2 apply list_elem_of_further; apply list_elem_of_here
      |apply list_elem_of_further, list_elem_of_here].
  - rewrite <- has_keyword_mentions, Hclass.
    destruct (LLMRouter.has_keyword LLMRouter.coding_keywords _); [done|].
    destruct (LLMRouter.has_keyword LLMRouter.reasoning_keywords _); [done|].
    by destruct (LLMRouter.has_keyword LLMRouter.creative_keywords _).
  - rewrite <- !not_mentions, <- has_keyword_mentions, Hclass.
    destruct (LLMRouter.has_keyword LLMRouter.coding_keywords _);
      [split; [done | by intros (? & ? & ?)]|].
    destruct (LLMRouter.has_keyword LLMRouter.reasoning_keywords _);
      [split; [done | by intros (? & ? & ?)]|].
    destruct (LLMRouter.has_keyword LLMRouter.creative_keywords _);
      [done | split; [done | by intros (? & ? & ?)]].
  - rewrite select_model_outcome. unfold selection. split.
    + intros [e He].
      destruct (LLMRouter._is_model_available s requested_model); [done|].
      destruct (LLMRouter._is_model_available s _); [done|].
      by destruct (LLMRouter.clients s).
    + intros Hc. rewrite !no_clients_unavailable by done. rewrite Hc. by eexists.
Qed.

Lemma select_model_selection_witness :
  has_client ExampleTasks.router_claude_only "claude"
  ∧ ¬ has_client ExampleTasks.router_claude_only "gpt4"
  ∧ ¬ has_client ExampleTasks.router_claude_only "gemini"
  ∧ (LLMRouter.select_model "claude" "hello" ExampleTasks.router_claude_only).1
    = Ok "claude"
  ∧ (LLMRouter.select_model "gpt4" "hello" ExampleTasks.router_claude_only).1
    = Ok "claude"
  ∧ (LLMRouter.select_model "gpt4" "a poem" ExampleTasks.router_claude_only).1
    = Ok "claude".
Proof.
  assert (H1 : has_client ExampleTasks.router_claude_only "claude").
  { exists "claude". split; [reflexivity | apply list_elem_of_here]. }
  assert (H2 : ¬ has_client ExampleTasks.router_claude_only "gpt4").
  { intros (p & [= <-] & Hin). by apply list_elem_of_singleton in Hin. }
  assert (H3 : ¬ has_client ExampleTasks.router_claude_only "gemini").
  { intros (p & [= <-] & Hin). by apply list_elem_of_singleton in Hin. }
  split; [exact H1|]. split; [exact H2|]. split; [exact H3|].
  split; [|split].
  - exact (proj1 (select_model_selection ExampleTasks.router_claude_only
                    "claude" "hello") H1).
  - exact (proj1 (proj2 (select_model_selection ExampleTasks.router_claude_only
                           "gpt4" "hello")) H2 H1).
  - exact (proj1 (proj2 (proj2 (select_model_selection ExampleTasks.router_claude_only
                                  "gpt4" "a poem"))) H2 H3).
Defined.
End ModelSelection.

(** ** Task bookkeeping *)

Section Tasks.
Import OrchestratorSpec.
Import TaskOrchestrator.

Variable memory_search : string → result (list string).
Variable llm_execute : string → string → result string.
Variable store_interaction : string → string → list (string * meta_value) → result unit.

Lemma extends_refl s : extends [] s s.
Proof. unfold extends. by rewrite app_nil_r. Qed.

Lemma extends_trans t1 t2 s s1 s2 :
  extends t1 s s1 → extends t2 s1 s2 → extends (t1 ++ t2) s s2.
Proof.
  intros (Ha1 & Hc1 & Ht1) (Ha2 & Hc2 & Ht2). unfold extends.
  rewrite Ha2, Hc2, Ht2, Ha1, Hc1, Ht1. by rewrite app_assoc.
Qed.

Lemma memory_retrieval_step context s :
  extends (lookup_steps context) s (memory_retrieval memory_search context s).2.
Proof.
  unfold memory_retrieval, lookup_steps.
  destruct (TaskContext.use_memory context); [|apply extends_refl].
  unfold bind, enter, modify, lift.
  destruct (memory_search _) as [[|m ms]|e]; try done.
  by destruct (TaskContext.verbose context).
Qed.

Lemma memory_retrieval_raises context s e s1 :
  memory_retrieval memory_search context s = (Raise e, s1) →
  lookup_steps context = [MemoryLookup].
Proof.
  unfold memory_retrieval, lookup_steps.
  by destruct (TaskContext.use_memory context).
Qed.

Lemma model_selection_step context s :
  extends [ModelSelection] s (model_selection context s).2.
Proof.
  unfold model_selection, bind, enter, modify, zoom. simpl.
  destruct (LLMRouter.select_model _ _ _) as [[selected|e] router]; [|done].
  by destruct (TaskContext.verbose context).
Qed.

Lemma llm_execution_step context relevant_context selected_model s :
  extends [ModelCall] s
          (llm_execution llm_execute context relevant_context selected_model s).2.
Proof.
  unfold llm_execution, bind, get, enter, modify, lift.
  by destruct (llm_execute _ _).
Qed.

Lemma plugin_execution_step context response s :
  extends (dispatch_steps context response) s (plugin_execution context response s).2.
Proof.
  unfold plugin_execution, dispatch_steps.
  destruct (TaskContext.enable_plugins context && _requires_plugin_execution response);
    [|apply extends_refl].
  unfold bind, enter, modify, zoom. simpl.
  destruct (PluginExecutor.execute_from_response _ _) as [[[[|c r]|]|e] p]; done.
Qed.

Lemma plugin_execution_raises context response s e s1 :
  plugin_execution context response s = (Raise e, s1) →
  dispatch_steps context response = [PluginDispatch].
Proof.
  unfold plugin_execution, dispatch_steps.
  by destruct (TaskContext.enable_plugins context && _requires_plugin_execution response).
Qed.

(** Plugin dispatch lets out only what dispatch-from-text lets out, which
    is no [Exception]. *)
Lemma plugin_execution_guarded context response :
  guarded (plugin_execution context response).
Proof.
  unfold plugin_execution.
  destruct (TaskContext.enable_plugins context && _requires_plugin_execution response);
    [|by intros s e].
  intros s e. unfold bind, enter, modify, zoom. simpl.
  pose proof (execute_from_response_guarded response (plugin_executor s)) as Hg.
  destruct (PluginExecutor.execute_from_response _ _) as [[[[|c r]|]|e'] p];
    simpl; try done.
  intros [= <-]. by apply Hg.
Qed.

Lemma memory_storage_step context response s :
  extends (write_steps context) s
          (memory_storage store_interaction context response s).2.
Proof.
  unfold memory_storage, write_steps.
  destruct (TaskContext.use_memory context); [|apply extends_refl].
  unfold bind, enter, modify, lift.
  destruct (store_interaction _ _ _) as [[]|e]; [|done].
  by destruct (TaskContext.verbose context).
Qed.

Lemma memory_storage_raises context response s e s1 :
  memory_storage store_interaction context response s = (Raise e, s1) →
  write_steps context = [MemoryWrite].
Proof.
  unfold memory_storage, write_steps.
  by destruct (TaskContext.use_memory context).
Qed.

Lemma task_steps_sublist context reply : sublist (task_steps context reply) pipeline.
Proof.
  unfold task_steps, lookup_steps, dispatch_steps, write_steps, pipeline.
  destruct (TaskContext.use_memory context),
    (TaskContext.enable_plugins context && _requires_plugin_execution reply);
    simpl; repeat constructor.
Qed.

Lemma step_raises_entered context s e failing entered :
  step_raises memory_search llm_execute store_interaction context s e failing entered →
  sublist entered pipeline ∧ last entered = Some failing.
Proof.
  intros [s1 H1|rc s1 s2 H1 H2|rc s1 sel s2 s3 H1 H2 H3
         |rc s1 sel s2 resp s3 s4 H1 H2 H3 H4
         |rc s1 sel s2 resp s3 resp' s4 s5 H1 H2 H3 H4 H5];
    unfold lookup_steps, dispatch_steps, pipeline;
    destruct (TaskContext.use_memory context);
    try destruct (TaskContext.enable_plugins context && _requires_plugin_execution resp);
    simpl; split; try reflexivity; repeat constructor.
Qed.

Lemma step_raises_body context s e failing entered :
  step_raises memory_search llm_execute store_interaction context s e failing entered →
  ∃ s', execute_task_body memory_search llm_execute store_interaction context s
        = (Raise e, s').
Proof.
  unfold execute_task_body, bind.
  intros [s1 H1|rc s1 s2 H1 H2|rc s1 sel s2 s3 H1 H2 H3
         |rc s1 sel s2 resp s3 s4 H1 H2 H3 H4
         |rc s1 sel s2 resp s3 resp' s4 s5 H1 H2 H3 H4 H5];
    rewrite H1, ?H2, ?H3, ?H4, ?H5; by eexists.
Qed.

(** The step that raises, what it raises and the steps entered are
    determined by the task and the state it starts in. *)
Lemma step_raises_functional context s e failing entered e' failing' entered' :
  step_raises memory_search llm_execute store_interaction context s e failing entered →
  step_raises memory_search llm_execute store_interaction context s e' failing' entered' →
  e' = e ∧ failing' = failing ∧ entered' = entered.
Proof.
  intros [s1 H1|rc s1 s2 H1 H2|rc s1 sel s2 s3 H1 H2 H3
         |rc s1 sel s2 resp s3 s4 H1 H2 H3 H4
         |rc s1 sel s2 resp s3 resp' s4 s5 H1 H2 H3 H4 H5]
         [t1 G1|rd t1 t2 G1 G2|rd t1 sel' t2 t3 G1 G2 G3
         |rd t1 sel' t2 resq t3 t4 G1 G2 G3 G4
         |rd t1 sel' t2 resq t3 resq' t4 t5 G1 G2 G3 G4 G5];
    try congruence;
    repeat match goal with
           | H : ?c = _, G : ?c = _ |- _ =>
               rewrite H in G; injection G as ?; subst
           end;
    try done.
Qed.

(** What the body of the [try] leaves: on success the completed context at
    the end of the completed list and the task out of the active map; on
    failure both collections untouched, and the steps entered are those up
    to the step that raised. *)
Lemma execute_task_body_effect context s r s' :
  execute_task_body memory_search llm_execute store_interaction context s = (r, s') →
  match r with
  | Ok response =>
      ∃ selected_model reply,
        trace s' = trace s ++ task_steps context reply
        ∧ completed_tasks s'
          = completed_tasks s ++ [completed context response selected_model]
        ∧ active_tasks s' = delete (TaskContext.task_id context) (active_tasks s)
  | Raise e =>
      ∃ failing entered,
        step_raises memory_search llm_execute store_interaction context s e
                    failing entered
        ∧ trace s' = trace s ++ entered
        ∧ completed_tasks s' = completed_tasks s
        ∧ active_tasks s' = active_tasks s
  end.
Proof.
  unfold execute_task_body. intros Hrun.
  pose proof (memory_retrieval_step context s) as H1.
  unfold bind at 1 in Hrun.
  destruct (memory_retrieval memory_search context s) as [[relevant|e] s1] eqn:E1;
    simpl in H1.
  2:{ injection Hrun as <- <-. exists MemoryLookup, [MemoryLookup].
      split; [by eapply lookup_raises|].
      rewrite (memory_retrieval_raises _ _ _ _ E1) in H1.
      destruct H1 as (? & ? & ?). by repeat split. }
  pose proof (model_selection_step context s1) as H2.
  pose proof (extends_trans _ _ _ _ _ H1 H2) as H12.
  unfold bind at 1 in Hrun.
  destruct (model_selection context s1) as [[selected|e] s2] eqn:E2; simpl in H2, H12.
  2:{ injection Hrun as <- <-. eexists ModelSelection, _.
      split; [by eapply selection_raises|].
      destruct H12 as (? & ? & ?). by repeat split. }
  pose proof (llm_execution_step context relevant selected s2) as H3.
  pose proof (extends_trans _ _ _ _ _ H12 H3) as H123.
  rewrite <- app_assoc in H123. cbn [app] in H123.
  unfold bind at 1 in Hrun.
  destruct (llm_execution llm_execute context relevant selected s2)
    as [[reply|e] s3] eqn:E3; simpl in H3, H123.
  2:{ injection Hrun as <- <-. eexists ModelCall, _.
      split; [by eapply call_raises|].
      destruct H123 as (? & ? & ?). by repeat split. }
  pose proof (plugin_execution_step context reply s3) as H4.
  pose proof (extends_trans _ _ _ _ _ H123 H4) as H1234.
  rewrite <- app_assoc in H1234. cbn [app] in H1234.
  unfold bind at 1 in Hrun.
  destruct (plugin_execution context reply s3) as [[response|e] s4] eqn:E4;
    simpl in H4, H1234.
  2:{ injection Hrun as <- <-. eexists PluginDispatch, _.
      split; [by eapply dispatch_raises|].
      rewrite (plugin_execution_raises _ _ _ _ _ E4) in H1234.
      destruct H1234 as (? & ? & ?). by repeat split. }
  pose proof (memory_storage_step context response s4) as H5.
  pose proof (extends_trans _ _ _ _ _ H1234 H5) as H12345.
  rewrite <- app_assoc in H12345. cbn [app] in H12345.
  unfold bind at 1 in Hrun.
  destruct (memory_storage store_interaction context response s4) as [[[]|e] s5] eqn:E5;
    simpl in H5, H12345; destruct H12345 as (Ha & Hc & Ht).
  - unfold task_completion, bind, modify, logger in Hrun. injection Hrun as <- <-.
    exists selected, reply. simpl. by rewrite Hc, Ha, Ht.
  - injection Hrun as <- <-. eexists MemoryWrite, _.
    split; [by eapply write_raises|].
    rewrite (memory_storage_raises _ _ _ _ _ E5) in Ht. by repeat split.
Qed.

(** C7, as stated, fails: the handler of [execute_task] catches
    [Exception] only. When the reply asks for the tool [halt.now], whose
    code calls [sys.exit], the task raises [SystemExit] from the plugin
    dispatch, stays in the active map and is not added to the completed
    list. *)
Lemma exiting_plugin_leaves_task_active :
  ExampleExit.run_exiting_tool.1 = Raise (Exn "SystemExit" "bye")
  ∧ is_Some (active_tasks ExampleExit.run_exiting_tool.2 !! "t3")
  ∧ completed_tasks ExampleExit.run_exiting_tool.2 = []
  ∧ trace ExampleExit.run_exiting_tool.2
    = [MemoryLookup; ModelSelection; ModelCall; PluginDispatch].
Proof.
  split; [vm_compute; reflexivity|]. split; [|split; vm_compute; reflexivity].
  refine (bool_decide_unpack _ _). vm_compute. exact I.
Qed.

(** C7, amended: each collaborator is entered at most once and in the
    order of the pipeline. A task that returns is out of the active map and
    its context is at the end of the completed list. A task raises exactly
    when one of its steps raises; it raises the same exception, the steps
    entered are those up to the step that raised, and no step is entered
    again. When the exception is an [Exception], the task is out of the
    active map and its context is at the end of the completed list with
    status [failed] and the text of the error; when it is not, as for a
    plugin that exits, the task stays in the active map and the completed
    list is as it was. What the plugin dispatch raises is never an
    [Exception]. *)
Theorem execute_task_bookkeeping s task_id now prompt model use_memory
    enable_plugins verbose :
  let context :=
    TaskContext.Build task_id prompt model use_memory enable_plugins verbose now [] in
  ∃ r s' entered,
    execute_task memory_search llm_execute store_interaction task_id now prompt
                 model use_memory enable_plugins verbose s = (r, s')
    ∧ trace s' = trace s ++ entered
    ∧ sublist entered pipeline
    ∧ match r with
      | Ok response =>
          active_tasks s' = delete task_id (active_tasks s)
          ∧ ∃ selected_model reply,
              completed_tasks s'
              = completed_tasks s ++ [completed context response selected_model]
              ∧ entered = task_steps context reply
      | Raise e =>
          (∃ failing,
             step_raises memory_search llm_execute store_interaction context
                         (task_started s context) e failing entered)
          ∧ if is_Exception e
            then active_tasks s' = delete task_id (active_tasks s)
                 ∧ completed_tasks s' = completed_tasks s ++ [failed context e]
                 ∧ TaskContext.task_id (failed context e) = task_id
                 ∧ TaskContext.metadata (failed context e)
                   = [("status", MStr "failed"); ("error", MStr (exn_str e))]
            else active_tasks s' = <[task_id := context]> (active_tasks s)
                 ∧ completed_tasks s' = completed_tasks s
      end
    ∧ (∀ e failing entered',
         step_raises memory_search llm_execute store_interaction context
                     (task_started s context) e failing entered' →
         r = Raise e ∧ entered' = entered ∧ last entered = Some failing)
    ∧ (∀ e entered',
         step_raises memory_search llm_execute store_interaction context
                     (task_started s context) e PluginDispatch entered' →
         is_Exception e = false).
Proof.
  intros context.
  set (s0 := task_started s context).
  assert (Hdispatch : ∀ e entered',
            step_raises memory_search llm_execute store_interaction context s0 e
                        PluginDispatch entered' →
            is_Exception e = false).
  { intros e entered' Hr. inversion Hr as [| | |rc s1 sel s2 resp s3 s4 H1 H2 H3 H4|].
    apply (plugin_execution_guarded context resp s3). by rewrite H4. }
  destruct (execute_task_body memory_search llm_execute store_interaction context s0)
    as [r0 s1] eqn:Hbody.
  pose proof (execute_task_body_effect context s0 r0 s1 Hbody) as Heff.
  assert (Hstart : execute_task memory_search llm_execute store_interaction task_id now
                     prompt model use_memory enable_plugins verbose s
                   = try_except
                       (execute_task_body memory_search llm_execute store_interaction
                                          context)
                       (fun e =>
                          logger ERROR ("Task " +:+ task_id +:+ " failed: " +:+ exn_str e) ;;
                          modify (fun s => set_completed_tasks
                                             (completed_tasks s ++ [failed context e]) s) ;;
                          s <- get ;;
                          (if bool_decide (is_Some (active_tasks s !! task_id))
                           then modify (fun s => set_active_tasks
                                                   (delete task_id (active_tasks s)) s)
                           else ret tt) ;;
                          raise e)%M s0) by reflexivity.
  assert (Hdel : delete task_id (active_tasks s0) = delete task_id (active_tasks s)).
  { unfold s0, task_started. simpl. apply delete_insert_eq. }
  assert (Hin : is_Some (active_tasks s0 !! task_id)).
  { unfold s0, task_started. simpl. rewrite lookup_insert_eq. by eexists. }
  assert (Htr0 : trace s0 = trace s) by reflexivity.
  assert (Hc0 : completed_tasks s0 = completed_tasks s) by reflexivity.
  assert (Ha0 : active_tasks s0 = <[task_id := context]> (active_tasks s))
    by reflexivity.
  rewrite Hstart. unfold try_except. rewrite Hbody.
  destruct r0 as [response|e].
  - destruct Heff as (selected & reply & Htrace & Hc & Ha).
    exists (Ok response), s1, (task_steps context reply).
    split; [reflexivity|]. split; [by rewrite Htrace|].
    split; [apply task_steps_sublist|].
    split; [split; [by rewrite Ha | exists selected, reply; by rewrite Hc]|].
    split; [|exact Hdispatch].
    intros e failing entered' He.
    destruct (step_raises_body context s0 e failing entered' He) as [s2 H2].
    congruence.
  - destruct Heff as (failing & entered & Hraises & Htrace & Hc & Ha).
    destruct (step_raises_entered _ _ _ _ _ Hraises) as [Hsub Hlast].
    assert (Hunique : ∀ e' failing' entered',
              step_raises memory_search llm_execute store_interaction context s0 e'
                          failing' entered' →
              Raise (A := string) e = Raise e' ∧ entered' = entered
              ∧ last entered = Some failing').
    { intros e' failing' entered' He'.
      destruct (step_raises_functional _ _ _ _ _ _ _ _ Hraises He') as (-> & -> & ->).
      done. }
    destruct (is_Exception e) eqn:He.
    + unfold bind, logger, modify, get, raise.
      cbn [active_tasks set_completed_tasks set_log].
      rewrite Ha, bool_decide_eq_true_2 by exact Hin.
      eexists (Raise e), _, entered.
      split; [reflexivity|].
      cbn [active_tasks completed_tasks trace set_active_tasks set_completed_tasks
           set_log].
      rewrite Ha, Hdel, Hc, Htrace, He.
      split; [done|]. split; [exact Hsub|].
      split; [split; [by exists failing | done]|].
      split; [exact Hunique | exact Hdispatch].
    + exists (Raise e), s1, entered.
      split; [reflexivity|]. split; [by rewrite Htrace|]. split; [exact Hsub|].
      rewrite He.
      split; [split; [by exists failing | by rewrite Ha, Hc]|].
      split; [exact Hunique | exact Hdispatch].
Qed.
End Tasks.

(** ** The operations on example data *)

Example select_requested_unavailable :
  (LLMRouter.select_model "gpt4" "Please debug my code" ExampleTasks.router_claude_only).1
  = Ok "claude".
Proof. vm_compute. reflexivity. Qed.

Example select_none_configured :
  (LLMRouter.select_model "auto" "hello"
     {| LLMRouter.clients := []; LLMRouter.model_preferences := ∅;
        LLMRouter.log := [] |}).1
  = Raise LLMRouter.no_models.
Proof. vm_compute. reflexivity. Qed.

Example classify_examples :
  LLMRouter._classify_task "Write a POEM about SQL" = "coding"
  ∧ LLMRouter._classify_task "write a poem" = "creative"
  ∧ LLMRouter._classify_task "hello" = "reasoning".
Proof. repeat split; vm_compute; reflexivity. Qed.

Example failing_model_call :
  ExampleTasks.run_failing_call.1 = Raise (Exn "APIError" "overloaded")
  ∧ TaskOrchestrator.trace ExampleTasks.run_failing_call.2 = [MemoryLookup; ModelSelection; ModelCall]
  ∧ TaskOrchestrator.active_tasks ExampleTasks.run_failing_call.2 !! "t1" = None
  ∧ TaskContext.metadata <$> TaskOrchestrator.completed_tasks ExampleTasks.run_failing_call.2
    = [[("status", MStr "failed"); ("error", MStr "overloaded")]].
Proof. repeat split; vm_compute; reflexivity. Qed.

Example task_with_tool_call :
  ExampleTasks.run_with_tool.1
  = Ok ("tool:echo.say(text='hi')" +:+ Py.nl +:+ Py.nl +:+ "Plugin Execution Result:"
        +:+ Py.nl +:+ "Tool: echo.say(text='hi')" +:+ Py.nl +:+ "Result: hi")
  ∧ TaskOrchestrator.trace ExampleTasks.run_with_tool.2
    = [MemoryLookup; ModelSelection; ModelCall; PluginDispatch; MemoryWrite].
Proof. repeat split; vm_compute; reflexivity. Qed.

(** * Further properties of the plugin registry *)

(** ** Loading one plugin *)

Lemma open_read_Exception path n e :
  open_read path n = Raise e → is_Exception e = true.
Proof.
  destruct n as [[|d]|]; simpl; try (by intros [= <-]).
  destruct (manifest_json d); [done | by intros [= <-]].
Qed.

Lemma json_load_Exception t e : json_load t = Raise e → is_Exception e = true.
Proof. destruct t; [by intros [= <-] | done]. Qed.

Lemma PluginManifest_init_Exception j e :
  PluginManifest_init j = Raise e → is_Exception e = true.
Proof.
  destruct j as [o|ty]; simpl; [|by intros [= <-]].
  destruct (o_unknown o); [|by intros [= <-]].
  destruct (o_name o), (o_version o), (o_description o), (o_entry_point o),
    (o_permissions o), (o_dependencies o); try done; by intros [= <-].
Qed.

Lemma _load_plugin_unreadable child s :
  persisted_manifest s child = None →
  ∃ e, _load_plugin child s
       = (Ok tt, set_log (log s ++ [(ERROR, "Failed to load plugin from "
                                            +:+ child_path s child +:+ ": "
                                            +:+ exn_str e)]) s).
Proof.
  unfold persisted_manifest, _load_plugin, try_except.
  unfold bind at 1, get. unfold bind at 1, lift.
  destruct (open_read _ _) as [t|e] eqn:Ht;
    [|exists e; by rewrite (open_read_Exception _ _ _ Ht)].
  unfold bind at 1. destruct (json_load t) as [j|e] eqn:Hj;
    [|exists e; by rewrite (json_load_Exception _ _ Hj)].
  unfold bind at 1. destruct (PluginManifest_init j) as [m|e] eqn:Hm; [done|].
  exists e. by rewrite (PluginManifest_init_Exception _ _ Hm).
Qed.

Lemma init_rejects o :
  missing_fields o ≠ [] ∨ o_unknown o ≠ [] →
  ∃ e, PluginManifest_init (JObject o) = Raise e ∧ exn_class e = "TypeError".
Proof.
  intros H. unfold PluginManifest_init.
  destruct (o_unknown o) as [|k ks]; [|by eexists].
  destruct H as [H|H]; [|done].
  unfold missing_fields, if_missing in H.
  destruct (o_name o), (o_version o), (o_description o), (o_entry_point o),
    (o_permissions o), (o_dependencies o); try done; by eexists.
Qed.

(** A manifest that cannot be read as one is skipped: when the manifest file
    of a child of the plugin root is missing, is not JSON, is not a JSON
    object, has a key the dataclass does not know or lacks a required field,
    [_load_plugin] returns without raising, registers nothing, loads nothing,
    leaves the disk alone and logs one error line; the discovery loop then
    goes on with the remaining children. *)
Theorem unreadable_manifest_is_skipped child s :
  persisted_manifest s child = None →
  (∃ line, _load_plugin child s = (Ok tt, set_log (log s ++ [(ERROR, line)]) s)
           ∧ ∀ children n,
               root (fs s) !! child = Some n → is_candidate n = true →
               load_each (child :: children) s
               = load_each children (set_log (log s ++ [(ERROR, line)]) s))
  ∧ (∀ s0 d o,
       root (fs s0) !! child = Some (Directory d) →
       manifest_json d = Some (Parses (JObject o)) →
       persisted_manifest s0 child = None
       ↔ missing_fields o ≠ [] ∨ o_unknown o ≠ []).
Proof.
  intros Hnone. split.
  - destruct (_load_plugin_unreadable child s Hnone) as [e He].
    eexists. split; [exact He|].
    intros children n Hn Hc. unfold load_each. cbn [for_each].
    unfold bind at 1. unfold bind at 1, get. rewrite Hn, Hc, He. reflexivity.
  - intros s0 d o Hd Hm. unfold persisted_manifest. rewrite Hd.
    cbn [open_read]. rewrite Hm. cbn [json_load]. split.
    + unfold PluginManifest_init.
      destruct (o_unknown o) as [|k ks] eqn:Hu; [|by right]. left.
      unfold missing_fields, if_missing.
      destruct (o_name o), (o_version o), (o_description o), (o_entry_point o),
        (o_permissions o), (o_dependencies o); done.
    + intros H. by destruct (init_rejects o H) as (e & -> & _).
Qed.

Lemma unreadable_manifest_is_skipped_witness :
  persisted_manifest (ExampleDisk.started) "broken" = None
  ∧ ∃ line, _load_plugin "broken" ExampleDisk.started
            = (Ok tt, set_log (log ExampleDisk.started ++ [(ERROR, line)])
                              ExampleDisk.started).
Proof.
  assert (H : persisted_manifest (ExampleDisk.started) "broken" = None)
    by (vm_compute; reflexivity).
  split; [exact H|].
  destruct (proj1 (unreadable_manifest_is_skipped "broken" ExampleDisk.started H))
    as (line & Hline & _).
  by exists line.
Defined.

Lemma persisted_manifest_inv s child manifest :
  persisted_manifest s child = Some manifest →
  ∃ t j, open_read (child_path s child +:+ "/manifest.json") (root (fs s) !! child) = Ok t
         ∧ json_load t = Ok j
         ∧ PluginManifest_init j = Ok manifest.
Proof.
  unfold persisted_manifest.
  destruct (open_read _ _) as [t|e] eqn:Ht; [|done].
  destruct (json_load t) as [j|e] eqn:Hj; [|done].
  destruct (PluginManifest_init j) as [m|e] eqn:Hm; [|done].
  intros [= ->]. by exists t, j.
Qed.

(** What [_load_plugin] leaves for a readable manifest, up to its log. *)
Lemma _load_plugin_readable child s manifest :
  persisted_manifest s child = Some manifest →
  (_load_plugin child s).1
  = match PluginManifest.enabled manifest,
          entry_file s child (PluginManifest.entry_point manifest) with
    | true, Some (ImportFails e) => if is_Exception e then Ok tt else Raise e
    | _, _ => Ok tt
    end
  ∧ plugins (_load_plugin child s).2
    = Py.dict_set (plugins s) (PluginManifest.name manifest) manifest
  ∧ fs (_load_plugin child s).2 = fs s
  ∧ plugin_modules (_load_plugin child s).2
    = match PluginManifest.enabled manifest,
            entry_file s child (PluginManifest.entry_point manifest) with
      | true, Some (Imports module) =>
          <[PluginManifest.name manifest := module]> (plugin_modules s)
      | _, _ => plugin_modules s
      end.
Proof.
  intros (t & j & Ht & Hj & Hm)%persisted_manifest_inv.
  destruct (_load_plugin child s) as [r s'] eqn:Hrun. cbn [fst snd].
  unfold _load_plugin, try_except in Hrun.
  unfold bind at 1, get in Hrun. unfold bind at 1, lift in Hrun. rewrite Ht in Hrun.
  unfold bind at 1 in Hrun. rewrite Hj in Hrun.
  unfold bind at 1 in Hrun. rewrite Hm in Hrun.
  unfold bind at 1, modify at 1 in Hrun. unfold bind at 1 in Hrun.
  destruct (PluginManifest.enabled manifest);
    [|by injection Hrun as <- <-].
  unfold _load_plugin_module, try_except in Hrun. unfold bind at 1, get in Hrun.
  change (entry_file (set_plugins ?p s) child ?e) with (entry_file s child e) in Hrun.
  destruct (entry_file s child (PluginManifest.entry_point manifest))
    as [[module|e]|]; try (by injection Hrun as <- <-).
  unfold raise in Hrun. destruct (is_Exception e) eqn:He.
  - by injection Hrun as <- <-.
  - rewrite He in Hrun. by injection Hrun as <- <-.
Qed.

(** A readable manifest is registered under its own name, replacing an
    earlier entry of that name and no other; its module is loaded when the
    manifest is enabled and its entry point imports, and is left as it was
    otherwise (a module loaded earlier stays, also when the manifest now
    says disabled). The disk is not written. [_load_plugin] returns, unless
    the manifest is enabled and importing its entry point raises an
    exception outside [Exception]: it then raises that exception, with the
    manifest registered all the same. A manifest without the key [enabled]
    counts as enabled. *)
Theorem readable_manifest_is_registered child s manifest :
  persisted_manifest s child = Some manifest →
  (_load_plugin child s).1
  = match PluginManifest.enabled manifest,
          entry_file s child (PluginManifest.entry_point manifest) with
    | true, Some (ImportFails e) => if is_Exception e then Ok tt else Raise e
    | _, _ => Ok tt
    end
  ∧ Py.dict_get (plugins (_load_plugin child s).2) (PluginManifest.name manifest)
    = Some manifest
  ∧ (∀ other, other ≠ PluginManifest.name manifest →
       Py.dict_get (plugins (_load_plugin child s).2) other
       = Py.dict_get (plugins s) other)
  ∧ fs (_load_plugin child s).2 = fs s
  ∧ plugin_modules (_load_plugin child s).2
    = match PluginManifest.enabled manifest,
            entry_file s child (PluginManifest.entry_point manifest) with
      | true, Some (Imports module) =>
          <[PluginManifest.name manifest := module]> (plugin_modules s)
      | _, _ => plugin_modules s
      end
  ∧ (∀ o m, o_enabled o = None → PluginManifest_init (JObject o) = Ok m →
            PluginManifest.enabled m = true).
Proof.
  intros H. destruct (_load_plugin_readable child s manifest H) as (Hr & Hp & Hf & Hm).
  split; [exact Hr|]. rewrite Hp. split; [apply dict_get_set_eq|].
  split; [intros other Hne; by apply dict_get_set_ne|].
  split; [exact Hf|]. split; [exact Hm|].
  intros o m Ho. unfold PluginManifest_init.
  destruct (o_unknown o); [|done].
  destruct (o_name o), (o_version o), (o_description o), (o_entry_point o),
    (o_permissions o), (o_dependencies o); try done.
  intros [= <-]. simpl. by rewrite Ho.
Qed.

Lemma readable_manifest_is_registered_witness :
  persisted_manifest ExampleDisk.started "echo" = Some Example.echo_manifest
  ∧ (_load_plugin "echo" ExampleDisk.started).1 = Ok tt
  ∧ Py.dict_get (plugins (_load_plugin "echo" ExampleDisk.started).2) "echo"
    = Some Example.echo_manifest.
Proof.
  assert (H : persisted_manifest ExampleDisk.started "echo"
              = Some Example.echo_manifest) by (vm_compute; reflexivity).
  split; [exact H|].
  destruct (readable_manifest_is_registered "echo" ExampleDisk.started
              Example.echo_manifest H) as (Hr & Hg & _).
  split; [exact Hr | exact Hg].
Defined.

(** ** Toggling and invoking *)

Lemma dict_get_elem_of {V} (d : list (string * V)) k v :
  Py.dict_get d k = Some v → (k, v) ∈ d.
Proof.
  induction d as [|[k' v'] d IH]; [done|]. simpl.
  destruct (String.eqb_spec k' k) as [->|Hne].
  - intros [= ->]. apply list_elem_of_here.
  - intros H. apply list_elem_of_further, IH, H.
Qed.

Lemma elem_of_dict_get {V} (d : list (string * V)) k v :
  NoDup d.*1 → (k, v) ∈ d → Py.dict_get d k = Some v.
Proof.
  induction d as [|[k' v'] d IH]; intros Hnd Hin; [by apply elem_of_nil in Hin|].
  apply NoDup_cons in Hnd as [Hk' Hnd]. simpl in *.
  apply elem_of_cons in Hin as [[= -> ->]|Hin].
  - by rewrite String.eqb_refl.
  - destruct (String.eqb_spec k' k) as [->|Hne]; [|by apply IH].
    exfalso. apply Hk'. apply list_elem_of_fmap. by exists (k, v).
Qed.

Lemma dict_set_keys {V} (d : list (string * V)) k v :
  (Py.dict_set d k v).*1 = if bool_decide (k ∈ d.*1) then d.*1 else d.*1 ++ [k].
Proof.
  induction d as [|[k' v'] d IH]; [reflexivity|]. cbn [Py.dict_set].
  destruct (String.eqb_spec k' k) as [->|Hne].
  - rewrite !fmap_cons. cbn [fst].
    rewrite bool_decide_eq_true_2 by apply list_elem_of_here. reflexivity.
  - rewrite !fmap_cons, IH. cbn [fst]. case_bool_decide as Hin.
    + rewrite bool_decide_eq_true_2 by (by apply list_elem_of_further). reflexivity.
    + rewrite bool_decide_eq_false_2; [reflexivity|].
      intros [?|?]%elem_of_cons; congruence.
Qed.

Lemma dict_set_NoDup {V} (d : list (string * V)) k v :
  NoDup d.*1 → NoDup (Py.dict_set d k v).*1.
Proof.
  intros Hnd. rewrite dict_set_keys. case_bool_decide as Hin; [exact Hnd|].
  apply NoDup_app. split; [exact Hnd|]. split; [|apply NoDup_singleton].
  intros x Hx [=->]%list_elem_of_singleton. done.
Qed.

Lemma list_available_spec s name :
  NoDup (plugins s).*1 →
  name ∈ list_available_plugins s
  ↔ ∃ manifest, Py.dict_get (plugins s) name = Some manifest
                ∧ PluginManifest.enabled manifest = true.
Proof.
  intros Hnd. unfold list_available_plugins. rewrite list_elem_of_fmap. split.
  - intros ([k m] & -> & [Hen Hin]%list_elem_of_filter). simpl in *.
    exists m. split; [by apply elem_of_dict_get | exact Hen].
  - intros (m & Hm & Hen). exists (name, m). split; [reflexivity|].
    apply list_elem_of_filter. split; [exact Hen | by apply dict_get_elem_of].
Qed.

Lemma _load_plugin_module_plugins child manifest s :
  plugins (_load_plugin_module child manifest s).2 = plugins s.
Proof.
  unfold _load_plugin_module.
  apply (try_except_post (fun s' => plugins s' = plugins s)); [|by intros e s1 H1].
  unfold bind, get, raise, modify, logger.
  by destruct (entry_file s child (PluginManifest.entry_point manifest))
    as [[module|e]|].
Qed.

Lemma toggle_plugins_after name enabled s manifest :
  Py.dict_get (plugins s) name = Some manifest →
  plugins (toggle_plugin name enabled s).2
  = Py.dict_set (plugins s) name (PluginManifest.set_enabled manifest enabled).
Proof.
  intros Hm. unfold toggle_plugin.
  apply (try_except_post
           (fun s' => plugins s'
                      = Py.dict_set (plugins s) name
                                    (PluginManifest.set_enabled manifest enabled)));
    [|by intros e s1 H1].
  destruct (toggle_plugin_body name enabled s) as [r s'] eqn:Hrun.
  cbn [snd]. unfold toggle_plugin_body in Hrun.
  unfold bind at 1, get in Hrun. rewrite Hm in Hrun. cbv zeta in Hrun.
  unfold bind at 1, modify at 1 in Hrun.
  fold (flag_set s name manifest enabled) in Hrun.
  set (m' := PluginManifest.set_enabled manifest enabled) in *.
  set (s1 := flag_set s name manifest enabled) in *.
  unfold bind at 1 in Hrun.
  pose proof (write_manifest_registry name m' s1) as Hw.
  destruct (write_manifest name m' s1) as [[[]|e] s2]; simpl in Hw;
    injection Hw as Hw _.
  2:{ injection Hrun as <- <-. exact Hw. }
  unfold bind at 1, get in Hrun. unfold bind at 1 in Hrun.
  destruct (enabled && negb (bool_decide (is_Some (plugin_modules s2 !! name)))).
  - pose proof (_load_plugin_module_plugins name m' s2) as Hl.
    destruct (_load_plugin_module name m' s2) as [[[]|e] s3]; simpl in Hl;
      injection Hrun as <- <-; simpl; rewrite Hl; exact Hw.
  - destruct (negb enabled && bool_decide (is_Some (plugin_modules s2 !! name)));
      injection Hrun as <- <-; exact Hw.
Qed.

(** A plugin toggled to disabled is refused from then on, whether the
    toggle could persist the flag or not: after [toggle_plugin name false] on
    a registered name the plugin is no longer listed as available and every
    invocation of it raises the not-enabled error. *)
Theorem disabled_plugin_is_refused s name manifest method args :
  NoDup (plugins s).*1 →
  Py.dict_get (plugins s) name = Some manifest →
  (name ∉ list_available_plugins (toggle_plugin name false s).2)
  ∧ (name, false) ∈ list_plugins (toggle_plugin name false s).2
  ∧ (execute_plugin name method args (toggle_plugin name false s).2).1
    = Raise (ValueError ("Plugin not enabled: " +:+ name)).
Proof.
  intros Hnd Hm.
  pose proof (toggle_plugins_after name false s manifest Hm) as Hp.
  set (s' := (toggle_plugin name false s).2) in *.
  assert (Hget : Py.dict_get (plugins s') name
                 = Some (PluginManifest.set_enabled manifest false))
    by (by rewrite Hp, dict_get_set_eq).
  assert (Hnd' : NoDup (plugins s').*1) by (rewrite Hp; by apply dict_set_NoDup).
  split; [|split].
  - rewrite (list_available_spec s' name Hnd'). intros (m & Hm' & Hen).
    rewrite Hget in Hm'. by injection Hm' as <-.
  - unfold list_plugins. apply list_elem_of_fmap.
    exists (name, PluginManifest.set_enabled manifest false).
    split; [reflexivity | by apply dict_get_elem_of].
  - unfold execute_plugin, try_except, execute_plugin_body, bind, get.
    by rewrite Hget.
Qed.

Lemma disabled_plugin_is_refused_witness :
  NoDup (plugins (Example.started false)).*1
  ∧ Py.dict_get (plugins (Example.started false)) "echo" = Some Example.echo_manifest
  ∧ (toggle_plugin "echo" false (Example.started false)).1 = Ok false
  ∧ (execute_plugin "echo" "say" [("text", "hi")]
       (toggle_plugin "echo" false (Example.started false)).2).1
    = Raise (ValueError "Plugin not enabled: echo").
Proof.
  assert (H1 : NoDup (plugins (Example.started false)).*1).
  { vm_compute. apply NoDup_singleton. }
  assert (H2 : Py.dict_get (plugins (Example.started false)) "echo"
               = Some Example.echo_manifest) by (vm_compute; reflexivity).
  split; [exact H1|]. split; [exact H2|]. split; [vm_compute; reflexivity|].
  exact (proj2 (proj2 (disabled_plugin_is_refused (Example.started false) "echo"
                         Example.echo_manifest "say" [("text", "hi")] H1 H2))).
Defined.

(** Enabling a plugin whose entry point is missing, or raises an
    [Exception] when it is imported, reports success all the same:
    [toggle_plugin name true] writes the manifest and returns [true], the
    plugin is listed as available, yet no module is loaded and every
    invocation raises the not-loaded error. *)
Theorem enable_without_module_reports_success s name manifest d method args :
  Py.dict_get (plugins s) name = Some manifest →
  plugin_modules s !! name = None →
  root (fs s) !! name = Some (Directory d) →
  writable d = true →
  (∀ module, files d !! PluginManifest.entry_point manifest ≠ Some (Imports module)) →
  (∀ e, files d !! PluginManifest.entry_point manifest = Some (ImportFails e) →
        is_Exception e = true) →
  (toggle_plugin name true s).1 = Ok true
  ∧ persisted_manifest (toggle_plugin name true s).2 name
    = Some (PluginManifest.set_enabled manifest true)
  ∧ name ∈ list_available_plugins (toggle_plugin name true s).2
  ∧ plugin_modules (toggle_plugin name true s).2 !! name = None
  ∧ (execute_plugin name method args (toggle_plugin name true s).2).1
    = Raise (ValueError ("Plugin module not loaded: " +:+ name)).
Proof.
  intros Hm Hmod Hd Hw Hentry Hclass.
  pose proof (toggle_plugins_after name true s manifest Hm) as Hp.
  set (m' := PluginManifest.set_enabled manifest true) in *.
  set (d' := {| manifest_json := Some (Parses (JObject (dump m')));
                files := files d; writable := true;
                dir_writable := dir_writable d |}).
  assert (Hrun : (toggle_plugin name true s).1 = Ok true
                 ∧ root (fs (toggle_plugin name true s).2)
                   = <[name := Directory d']> (root (fs s))
                 ∧ plugin_modules (toggle_plugin name true s).2 = plugin_modules s).
  { destruct (toggle_plugin name true s) as [r s'] eqn:Hrun. cbn [fst snd].
    clear Hp. unfold toggle_plugin, try_except, toggle_plugin_body in Hrun.
    unfold bind at 1, get in Hrun. rewrite Hm in Hrun. cbv zeta in Hrun.
    unfold bind at 1, modify at 1 in Hrun.
    fold (flag_set s name manifest true) in Hrun. fold m' in Hrun.
    unfold bind at 1 in Hrun.
    rewrite (write_manifest_writable name m' (flag_set s name manifest true) d)
      in Hrun by done.
    unfold bind at 1, get in Hrun.
    cbn [plugin_modules set_fs flag_set set_plugins andb negb] in Hrun.
    rewrite Hmod in Hrun.
    rewrite bool_decide_eq_false_2 in Hrun by (by intros [? ?]).
    cbn [negb] in Hrun. unfold bind at 1 in Hrun.
    unfold _load_plugin_module, try_except, bind at 1, get, entry_file in Hrun.
    cbn [fs set_fs root set_root] in Hrun. rewrite lookup_insert_eq in Hrun.
    cbn [files] in Hrun.
    destruct (files d !! PluginManifest.entry_point m') as [[module|e]|] eqn:He.
    - by destruct (Hentry module).
    - unfold raise in Hrun. rewrite (Hclass e He) in Hrun.
      by injection Hrun as <- <-.
    - by injection Hrun as <- <-. }
  destruct Hrun as (Hr & Hroot & Hmods).
  set (s' := (toggle_plugin name true s).2) in *.
  assert (Hget : Py.dict_get (plugins s') name = Some m')
    by (by rewrite Hp, dict_get_set_eq).
  assert (Hnone : plugin_modules s' !! name = None) by (by rewrite Hmods).
  split; [exact Hr|]. split; [by eapply persisted_after_write|].
  split; [|split; [exact Hnone|]].
  - unfold list_available_plugins. apply list_elem_of_fmap. exists (name, m').
    split; [reflexivity|]. apply list_elem_of_filter.
    split; [reflexivity | by apply dict_get_elem_of].
  - unfold execute_plugin, try_except, execute_plugin_body, bind, get.
    rewrite Hget. cbn [PluginManifest.enabled m' PluginManifest.set_enabled negb].
    by rewrite Hnone.
Qed.

Lemma enable_without_module_reports_success_witness :
  (toggle_plugin "hollow" true (install_plugin "/tmp/hollow" ExampleDisk.started).2).1
  = Ok true
  ∧ (execute_plugin "hollow" "run" []
       (toggle_plugin "hollow" true
          (install_plugin "/tmp/hollow" ExampleDisk.started).2).2).1
    = Raise (ValueError "Plugin module not loaded: hollow").
Proof.
  set (s := (install_plugin "/tmp/hollow" ExampleDisk.started).2).
  assert (H1 : Py.dict_get (plugins s) "hollow" = Some ExampleDisk.hollow_manifest)
    by (vm_compute; reflexivity).
  assert (H2 : plugin_modules s !! "hollow" = None) by (vm_compute; reflexivity).
  assert (H3 : root (fs s) !! "hollow" = Some (Directory ExampleDisk.hollow_folder))
    by (vm_compute; reflexivity).
  assert (H4 : ∀ module,
            files ExampleDisk.hollow_folder
              !! PluginManifest.entry_point ExampleDisk.hollow_manifest
            ≠ Some (Imports module)) by (intros module; vm_compute; discriminate).
  assert (H5 : ∀ e,
            files ExampleDisk.hollow_folder
              !! PluginManifest.entry_point ExampleDisk.hollow_manifest
            = Some (ImportFails e) → is_Exception e = true)
    by (intros e; vm_compute; discriminate).
  pose proof (enable_without_module_reports_success s "hollow"
                ExampleDisk.hollow_manifest ExampleDisk.hollow_folder "run" []
                H1 H2 H3 eq_refl H4 H5) as (Ha & _ & _ & _ & Hb).
  split; [exact Ha | exact Hb].
Defined.

(** What [execute_plugin] does once the four checks pass. *)
Lemma execute_plugin_call s name method args manifest module method_func :
  Py.dict_get (plugins s) name = Some manifest →
  PluginManifest.enabled manifest = true →
  plugin_modules s !! name = Some module →
  module !! method = Some method_func →
  execute_plugin name method args s
  = match method_func args with
    | Returned v => (Ok v, set_alarm 0 s)
    | Raised e =>
        (Raise e,
         if is_Exception e
         then set_log (log s ++ [(ERROR, "Plugin execution failed " +:+ name +:+ "."
                                          +:+ method +:+ ": " +:+ exn_str e)])
                      (set_alarm 0 s)
         else set_alarm 0 s)
    | Overran =>
        (Raise (TimeoutError ("Plugin execution timed out after "
                              +:+ Py.str_of_nat (timeout s) +:+ "s")),
         set_log (log s ++ [(ERROR, "Plugin execution failed " +:+ name +:+ "."
                                     +:+ method +:+ ": Plugin execution timed out after "
                                     +:+ Py.str_of_nat (timeout s) +:+ "s")])
                 (set_alarm 0 s))
    end.
Proof.
  intros Hm Hen Hmod Hf.
  unfold execute_plugin, try_except, execute_plugin_body, bind, get.
  rewrite Hm, Hen, Hmod, Hf. cbn [negb]. unfold modify at 1, try_finally, call.
  destruct (method_func args) as [v|e|]; try reflexivity.
  unfold raise, modify, logger. cbn beta iota. by destruct (is_Exception e).
Qed.

(** An invocation returns a value exactly when the plugin is registered and
    enabled, its module is loaded, the module has the method, and the
    method returns that value on the arguments; the value is then passed on
    untouched, nothing is logged and the alarm is off again. *)
Theorem execute_plugin_returns_iff s name method args v :
  ((execute_plugin name method args s).1 = Ok v
   ↔ ∃ manifest module method_func,
       Py.dict_get (plugins s) name = Some manifest
       ∧ PluginManifest.enabled manifest = true
       ∧ plugin_modules s !! name = Some module
       ∧ module !! method = Some method_func
       ∧ method_func args = Returned v)
  ∧ ((execute_plugin name method args s).1 = Ok v →
     (execute_plugin name method args s).2 = set_alarm 0 s).
Proof.
  assert (Hiff : (execute_plugin name method args s).1 = Ok v
                 → ∃ manifest module method_func,
                     Py.dict_get (plugins s) name = Some manifest
                     ∧ PluginManifest.enabled manifest = true
                     ∧ plugin_modules s !! name = Some module
                     ∧ module !! method = Some method_func
                     ∧ method_func args = Returned v).
  { destruct (Py.dict_get (plugins s) name) as [manifest|] eqn:Hm.
    2:{ unfold execute_plugin, try_except, execute_plugin_body, bind, get.
        rewrite Hm. by simpl. }
    destruct (PluginManifest.enabled manifest) eqn:Hen.
    2:{ unfold execute_plugin, try_except, execute_plugin_body, bind, get.
        rewrite Hm, Hen. by simpl. }
    destruct (plugin_modules s !! name) as [module|] eqn:Hmod.
    2:{ unfold execute_plugin, try_except, execute_plugin_body, bind, get.
        rewrite Hm, Hen, Hmod. by simpl. }
    destruct (module !! method) as [method_func|] eqn:Hf.
    2:{ unfold execute_plugin, try_except, execute_plugin_body, bind, get.
        rewrite Hm, Hen, Hmod, Hf. by simpl. }
    rewrite (execute_plugin_call s name method args manifest module method_func)
      by done.
    destruct (method_func args) as [v'| |] eqn:Hcall; try done.
    intros [= ->]. by exists manifest, module, method_func. }
  split; [split; [exact Hiff|]|].
  - intros (manifest & module & method_func & Hm & Hen & Hmod & Hf & Hcall).
    rewrite (execute_plugin_call s name method args manifest module method_func)
      by done.
    by rewrite Hcall.
  - intros H. destruct (Hiff H)
      as (manifest & module & method_func & Hm & Hen & Hmod & Hf & Hcall).
    rewrite (execute_plugin_call s name method args manifest module method_func)
      by done.
    by rewrite Hcall.
Qed.

Lemma execute_plugin_alarm s name method args :
  alarm s = 0 → alarm (execute_plugin name method args s).2 = 0.
Proof.
  intros Halarm. unfold execute_plugin.
  apply (try_except_post (fun s' => alarm s' = 0)); [|by intros e s1 H1].
  unfold execute_plugin_body, bind, get, raise, modify.
  destruct (Py.dict_get (plugins s) name) as [manifest|]; [|exact Halarm].
  destruct (negb (PluginManifest.enabled manifest)); [exact Halarm|].
  destruct (plugin_modules s !! name) as [module|]; [|exact Halarm].
  destruct (module !! method) as [method_func|]; [|exact Halarm].
  unfold try_finally, call, ret, raise, bind, get.
  by destruct (method_func args).
Qed.

(** The alarm is released after every invocation: started with no alarm
    pending, [execute_plugin] ends with no alarm pending whether the method
    returned, raised or ran into the alarm; a method that overruns yields
    the timed-out error that names the configured timeout. *)
Theorem alarm_is_released s name method args :
  alarm s = 0 →
  alarm (execute_plugin name method args s).2 = 0
  ∧ (∀ manifest module method_func,
       Py.dict_get (plugins s) name = Some manifest →
       PluginManifest.enabled manifest = true →
       plugin_modules s !! name = Some module →
       module !! method = Some method_func →
       method_func args = Overran →
       (execute_plugin name method args s).1
       = Raise (TimeoutError ("Plugin execution timed out after "
                              +:+ Py.str_of_nat (timeout s) +:+ "s"))).
Proof.
  intros Halarm. split; [by apply execute_plugin_alarm|].
  intros manifest module method_func Hm Hen Hmod Hf Hcall.
  rewrite (execute_plugin_call s name method args manifest module method_func)
    by done.
  by rewrite Hcall.
Qed.

Lemma alarm_is_released_witness :
  alarm (Example.started true) = 0
  ∧ alarm (execute_plugin "echo" "say" [] (Example.started true)).2 = 0.
Proof.
  assert (H : alarm (Example.started true) = 0) by (vm_compute; reflexivity).
  split; [exact H|].
  exact (proj1 (alarm_is_released (Example.started true) "echo" "say" [] H)).
Defined.

(** ** Install *)

Import RegistrySpec.

Lemma source_manifest_inv s source_path d manifest :
  source_manifest s source_path = Some (d, manifest) →
  ∃ t j, outside (fs s) !! source_path = Some (Directory d)
         ∧ manifest_json d = Some t
         ∧ json_load t = Ok j
         ∧ PluginManifest_init j = Ok manifest.
Proof.
  unfold source_manifest.
  destruct (outside (fs s) !! source_path) as [[|d']|] eqn:Ho; try done.
  destruct (manifest_json d') as [t|] eqn:Ht; [|done].
  destruct (json_load t) as [j|e] eqn:Hj; [|done].
  destruct (PluginManifest_init j) as [m|e] eqn:Hm; [|done].
  intros [= -> ->]. by exists t, j.
Qed.

Lemma install_plugin_bad_source s source_path :
  source_manifest s source_path = None →
  ∃ line, install_plugin source_path s
          = (Ok false, set_log (log s ++ [(ERROR, line)]) s).
Proof.
  unfold source_manifest, install_plugin, try_except, install_plugin_body.
  unfold bind at 1, get.
  destruct (outside (fs s) !! source_path) as [[|[[t|] fls w dw]]|];
    try (intros _; by eexists).
  cbn [manifest_json]. unfold bind at 1, lift.
  destruct (json_load t) as [j|e] eqn:Hj;
    [|intros _; rewrite (json_load_Exception _ _ Hj); by eexists].
  unfold bind at 1.
  destruct (PluginManifest_init j) as [m|e] eqn:Hm; [done|].
  intros _. rewrite (PluginManifest_init_Exception _ _ Hm). by eexists.
Qed.

Lemma rmtree_removable s n d :
  root (fs s) !! n = Some (Directory d) →
  entries d = [] ∨ dir_writable d = true →
  root_writable (fs s) = true →
  rmtree n s = (Ok tt, set_fs (set_root (delete n (root (fs s))) (fs s)) s).
Proof.
  intros Hn Hd Hw. unfold rmtree. unfold bind at 1, get. rewrite Hn.
  destruct (entries d) as [|entry rest] eqn:He.
  - unfold rmdir, bind, get. by rewrite Hw.
  - destruct Hd as [Hd|Hd]; [done|]. rewrite Hd.
    unfold bind, modify, rmdir, bind, get.
    cbn [fs set_fs root set_root root_writable]. rewrite Hw.
    unfold modify. cbn [fs set_fs root set_root root_writable].
    by rewrite delete_insert_eq.
Qed.

(** The copy and the load at the end of [install_plugin], run in a state
    whose disk is that of [s]. *)
Lemma copy_and_load s s0 d manifest t j line :
  fs s0 = fs s →
  manifest_json d = Some t →
  json_load t = Ok j →
  PluginManifest_init j = Ok manifest →
  root_writable (fs s) = true →
  removable (root (fs s) !! PluginManifest.name manifest) →
  ∃ s3,
    ((if bool_decide (is_Some (root (fs s) !! PluginManifest.name manifest))
      then rmtree (PluginManifest.name manifest) else ret tt) ;;
     copytree d (PluginManifest.name manifest) ;;
     _load_plugin (PluginManifest.name manifest) ;;
     logger INFO line ;;
     ret true)%M s0 = (install_outcome manifest d, s3)
    ∧ root (fs s3) = <[PluginManifest.name manifest := Directory d]> (root (fs s))
    ∧ outside (fs s3) = outside (fs s)
    ∧ root_writable (fs s3) = true
    ∧ plugins s3 = Py.dict_set (plugins s0) (PluginManifest.name manifest) manifest
    ∧ plugin_modules s3 = modules_after_load manifest d (plugin_modules s0).
Proof.
  intros Hfs Ht Hj Hm Hw Hrem.
  set (n := PluginManifest.name manifest) in *.
  set (s2 := set_fs (set_root (<[n := Directory d]> (root (fs s))) (fs s)) s0).
  assert (Hcopy : ((if bool_decide (is_Some (root (fs s) !! n))
                    then rmtree n else ret tt) ;; copytree d n)%M s0 = (Ok tt, s2)).
  { unfold bind. destruct (bool_decide (is_Some (root (fs s) !! n))) eqn:Hex.
    - apply bool_decide_eq_true_1 in Hex.
      destruct (root (fs s) !! n) as [[|d0]|] eqn:Hn; [done| |by destruct Hex].
      rewrite (rmtree_removable s0 n d0) by (by rewrite ?Hfs).
      unfold copytree, bind, get, modify.
      cbn [fs set_fs root set_root root_writable]. rewrite Hfs.
      rewrite lookup_delete_eq, Hw. unfold s2.
      cbn [fs set_fs root set_root]. by rewrite insert_delete_eq.
    - apply bool_decide_eq_false_1 in Hex.
      unfold ret, copytree, bind, get, modify. rewrite Hfs.
      destruct (root (fs s) !! n) eqn:Hn; [by destruct Hex|].
      rewrite Hw. unfold s2. by rewrite Hfs. }
  assert (Hpers : persisted_manifest s2 n = Some manifest).
  { unfold persisted_manifest, s2. cbn [fs set_fs root set_root].
    rewrite lookup_insert_eq. cbn [open_read]. by rewrite Ht, Hj, Hm. }
  assert (Hentry : entry_file s2 n (PluginManifest.entry_point manifest)
                   = files d !! PluginManifest.entry_point manifest).
  { unfold entry_file, s2. cbn [fs set_fs root set_root].
    by rewrite lookup_insert_eq. }
  destruct (_load_plugin_readable n s2 manifest Hpers) as (Hr & Hp & Hf & Hmod).
  rewrite Hentry in Hr, Hmod.
  destruct (_load_plugin n s2) as [r3 s3] eqn:Hload. cbn [fst snd] in *.
  assert (Hstate : root (fs s3) = <[n := Directory d]> (root (fs s))
                   ∧ outside (fs s3) = outside (fs s)
                   ∧ root_writable (fs s3) = true
                   ∧ plugins s3 = Py.dict_set (plugins s0) n manifest
                   ∧ plugin_modules s3 = modules_after_load manifest d (plugin_modules s0)).
  { rewrite Hf, Hp, Hmod. unfold s2.
    cbn [fs set_fs root set_root outside root_writable plugins plugin_modules].
    by repeat split. }
  assert (Hrun : ((if bool_decide (is_Some (root (fs s) !! n))
                   then rmtree n else ret tt) ;;
                  copytree d n ;; _load_plugin n ;; logger INFO line ;; ret true)%M s0
                 = match r3 with
                   | Ok _ => (Ok true, set_log (log s3 ++ [(INFO, line)]) s3)
                   | Raise e => (Raise e, s3)
                   end).
  { unfold bind at 1. unfold bind in Hcopy.
    destruct ((if bool_decide (is_Some (root (fs s) !! n)) then rmtree n else ret tt) s0)
      as [[[]|e] s15]; [|done].
    unfold bind at 1. rewrite Hcopy. unfold bind at 1. rewrite Hload.
    by destruct r3. }
  rewrite Hrun. unfold install_outcome. subst r3.
  destruct (PluginManifest.enabled manifest);
    [|by eexists].
  destruct (files d !! PluginManifest.entry_point manifest) as [[module|e]|];
    try (by eexists).
  destruct (is_Exception e); by eexists.
Qed.

(** What an install with a readable source leaves, up to the log. *)
Lemma install_plugin_effect s source_path d manifest :
  source_manifest s source_path = Some (d, manifest) →
  root_writable (fs s) = true →
  removable (root (fs s) !! PluginManifest.name manifest) →
  (install_plugin source_path s).1 = install_outcome manifest d
  ∧ root (fs (install_plugin source_path s).2)
    = <[PluginManifest.name manifest := Directory d]> (root (fs s))
  ∧ outside (fs (install_plugin source_path s).2) = outside (fs s)
  ∧ root_writable (fs (install_plugin source_path s).2) = true
  ∧ plugins (install_plugin source_path s).2
    = Py.dict_set (plugins s) (PluginManifest.name manifest) manifest
  ∧ plugin_modules (install_plugin source_path s).2
    = modules_after_load manifest d (plugin_modules s).
Proof.
  intros (t & j & Ho & Ht & Hj & Hm)%source_manifest_inv Hw Hrem.
  assert (Hpass : ∀ s3, match install_outcome manifest d with
                        | Ok a => (Ok a, s3)
                        | Raise e =>
                            if is_Exception e
                            then (logger ERROR ("Failed to install plugin from "
                                                +:+ source_path +:+ ": " +:+ exn_str e) ;;
                                  ret false)%M s3
                            else (Raise e, s3)
                        end = (install_outcome manifest d, s3)).
  { intros s3. unfold install_outcome.
    destruct (PluginManifest.enabled manifest); [|reflexivity].
    destruct (files d !! PluginManifest.entry_point manifest) as [[module|e]|];
      try reflexivity.
    destruct (is_Exception e) eqn:He; [reflexivity | by rewrite He]. }
  destruct (install_plugin source_path s) as [r s'] eqn:Hrun. cbn [fst snd].
  unfold install_plugin, try_except, install_plugin_body in Hrun.
  unfold bind at 1, get in Hrun. rewrite Ho in Hrun.
  destruct d as [mj fls w dw]. cbn [manifest_json] in Ht. subst mj.
  unfold bind at 1, lift in Hrun. rewrite Hj in Hrun.
  unfold bind at 1 in Hrun. rewrite Hm in Hrun.
  unfold bind at 1 in Hrun.
  destruct (bool_decide (is_Some (Py.dict_get (plugins s) (PluginManifest.name manifest)))).
  - unfold logger at 1, modify in Hrun.
    destruct (copy_and_load s (set_log (log s ++ [(WARNING, "Plugin "
                 +:+ PluginManifest.name manifest +:+ " already exists, updating...")]) s)
                {| manifest_json := Some t; files := fls; writable := w;
                   dir_writable := dw |}
                manifest t j
                ("Plugin " +:+ PluginManifest.name manifest +:+ " installed successfully")
                eq_refl eq_refl Hj Hm Hw Hrem) as (s3 & Hc & Hrest).
    rewrite Hc, Hpass in Hrun. injection Hrun as <- <-.
    split; [reflexivity | exact Hrest].
  - unfold ret at 1 in Hrun.
    destruct (copy_and_load s s
                {| manifest_json := Some t; files := fls; writable := w;
                   dir_writable := dw |}
                manifest t j
                ("Plugin " +:+ PluginManifest.name manifest +:+ " installed successfully")
                eq_refl eq_refl Hj Hm Hw Hrem) as (s3 & Hc & Hrest).
    rewrite Hc, Hpass in Hrun. injection Hrun as <- <-.
    split; [reflexivity | exact Hrest].
Qed.

(** An install from a source that is missing, is not a directory, has no
    [manifest.json] or has one that does not read as a manifest is refused
    before anything is touched: [install_plugin] returns [false], logs one
    error line, and leaves the registry, the loaded modules and the disk as
    they were. *)
Theorem install_refuses_bad_source s source_path :
  source_manifest s source_path = None →
  ∃ line, install_plugin source_path s
          = (Ok false, set_log (log s ++ [(ERROR, line)]) s)
          ∧ plugins (install_plugin source_path s).2 = plugins s
          ∧ plugin_modules (install_plugin source_path s).2 = plugin_modules s
          ∧ fs (install_plugin source_path s).2 = fs s.
Proof.
  intros H. destruct (install_plugin_bad_source s source_path H) as [line Hl].
  exists line. by rewrite Hl.
Qed.

Lemma install_refuses_bad_source_witness :
  source_manifest ExampleDisk.started "/tmp/notes.txt" = None
  ∧ (install_plugin "/tmp/notes.txt" ExampleDisk.started).1 = Ok false
  ∧ source_manifest ExampleDisk.started "/nowhere" = None
  ∧ (install_plugin "/nowhere" ExampleDisk.started).1 = Ok false.
Proof.
  assert (H1 : source_manifest ExampleDisk.started "/tmp/notes.txt" = None)
    by (vm_compute; reflexivity).
  assert (H2 : source_manifest ExampleDisk.started "/nowhere" = None)
    by (vm_compute; reflexivity).
  destruct (install_refuses_bad_source ExampleDisk.started "/tmp/notes.txt" H1)
    as (l1 & E1 & _).
  destruct (install_refuses_bad_source ExampleDisk.started "/nowhere" H2)
    as (l2 & E2 & _).
  split; [exact H1|]. split; [by rewrite E1|]. split; [exact H2 | by rewrite E2].
Defined.

(** An install from a directory whose manifest reads and names one path
    component, into a writable plugin root where the folder of that name,
    if there is one, can be removed: the directory stands under the
    manifest's name in the plugin root, replacing what was there; the
    manifest is registered under its name and is the one a restart would
    read; other names and other folders are as they were. The module of the
    entry point is loaded under the name when the manifest is enabled and
    the entry point imports; otherwise the loaded modules are as they were,
    a module loaded earlier under that name included. The install returns
    [true], also when nothing was loaded, unless the manifest is enabled and
    the import raises an exception outside [Exception], which the install
    raises after the copy and the registration. *)
Theorem install_registers_the_copy s source_path d manifest :
  source_manifest s source_path = Some (d, manifest) →
  is_component (PluginManifest.name manifest) = true →
  root_writable (fs s) = true →
  removable (root (fs s) !! PluginManifest.name manifest) →
  (install_plugin source_path s).1 = install_outcome manifest d
  ∧ root (fs (install_plugin source_path s).2) !! PluginManifest.name manifest
    = Some (Directory d)
  ∧ Py.dict_get (plugins (install_plugin source_path s).2)
                (PluginManifest.name manifest) = Some manifest
  ∧ persisted_manifest (install_plugin source_path s).2 (PluginManifest.name manifest)
    = Some manifest
  ∧ plugin_modules (install_plugin source_path s).2
    = match PluginManifest.enabled manifest,
            files d !! PluginManifest.entry_point manifest with
      | true, Some (Imports module) =>
          <[PluginManifest.name manifest := module]> (plugin_modules s)
      | _, _ => plugin_modules s
      end
  ∧ (∀ other, other ≠ PluginManifest.name manifest →
       root (fs (install_plugin source_path s).2) !! other = root (fs s) !! other
       ∧ Py.dict_get (plugins (install_plugin source_path s).2) other
         = Py.dict_get (plugins s) other).
Proof.
  intros Hsrc _ Hw Hrem.
  destruct (install_plugin_effect s source_path d manifest Hsrc Hw Hrem)
    as (Hr & Hroot & Hout & Hw' & Hp & Hmod).
  destruct (source_manifest_inv _ _ _ _ Hsrc) as (t & j & _ & Ht & Hj & Hm).
  split; [exact Hr|]. split; [by rewrite Hroot, lookup_insert_eq|].
  split; [by rewrite Hp, dict_get_set_eq|]. split.
  { unfold persisted_manifest. rewrite Hroot, lookup_insert_eq.
    cbn [open_read]. by rewrite Ht, Hj, Hm. }
  split; [exact Hmod|].
  intros other Hne. rewrite Hroot, Hp.
  split; [by apply lookup_insert_ne | by apply dict_get_set_ne].
Qed.

Lemma install_registers_the_copy_witness :
  source_manifest ExampleDisk.started "/tmp/echo"
  = Some (Example.echo_folder true, Example.echo_manifest)
  ∧ removable (root (fs ExampleDisk.started) !! "echo")
  ∧ (install_plugin "/tmp/echo" ExampleDisk.started).1 = Ok true
  ∧ root (fs (install_plugin "/tmp/echo" ExampleDisk.started).2) !! "echo"
    = Some (Directory (Example.echo_folder true))
  ∧ plugin_modules (install_plugin "/tmp/echo" ExampleDisk.started).2 !! "echo"
    = Some Example.echo_module.
Proof.
  assert (H1 : source_manifest ExampleDisk.started "/tmp/echo"
               = Some (Example.echo_folder true, Example.echo_manifest))
    by (vm_compute; reflexivity).
  assert (H2 : removable (root (fs ExampleDisk.started)
                            !! PluginManifest.name Example.echo_manifest)).
  { assert (Hn : root (fs ExampleDisk.started)
                   !! PluginManifest.name Example.echo_manifest
                 = Some (Directory (Example.echo_folder true)))
      by (vm_compute; reflexivity).
    rewrite Hn. by right. }
  destruct (install_registers_the_copy ExampleDisk.started "/tmp/echo"
              _ _ H1 eq_refl eq_refl H2) as (Hr & Hd & _ & _ & Hmod & _).
  split; [exact H1|]. split; [exact H2|]. split; [exact Hr|]. split; [exact Hd|].
  rewrite Hmod. apply lookup_insert_eq.
Defined.

(** The folder that stands in the way must let its entries be removed: on
    the disk whose [echo] folder is read-only the install of a copy returns
    [false] and leaves the folder and the registry as they were. An install
    of the plugin whose entry point exits raises [SystemExit] with the copy
    made and the manifest registered. *)
Example install_needs_a_removable_folder :
  (install_plugin "/tmp/echo" (set_fs ExampleDisk.locked_disk (Example.started false))).1
  = Ok false
  ∧ root (fs (install_plugin "/tmp/echo"
                (set_fs ExampleDisk.locked_disk (Example.started false))).2)
    = root ExampleDisk.locked_disk
  ∧ (install_plugin "/tmp/boom" ExampleExit.started).1 = Raise (Exn "SystemExit" "bye")
  ∧ is_Some (Py.dict_get (plugins (install_plugin "/tmp/boom" ExampleExit.started).2)
                         "boom").
Proof.
  split; [vm_compute; reflexivity|]. split; [vm_compute; reflexivity|].
  split; [vm_compute; reflexivity|].
  refine (bool_decide_unpack _ _). vm_compute. exact I.
Qed.

Lemma dict_set_twice {V} (d : list (string * V)) k v :
  Py.dict_set (Py.dict_set d k v) k v = Py.dict_set d k v.
Proof.
  induction d as [|[k' v'] d IH]; simpl.
  - by rewrite String.eqb_refl.
  - destruct (String.eqb k' k) eqn:Hk; simpl; rewrite Hk; [reflexivity | by rewrite IH].
Qed.

Lemma modules_after_load_twice manifest d modules :
  modules_after_load manifest d (modules_after_load manifest d modules)
  = modules_after_load manifest d modules.
Proof.
  unfold modules_after_load.
  destruct (PluginManifest.enabled manifest); [|reflexivity].
  destruct (files d !! PluginManifest.entry_point manifest) as [[module|e]|];
    try reflexivity.
  apply insert_insert_eq.
Qed.

Lemma filter_none {A} (P : A → Prop) `{∀ x, Decision (P x)} (l : list A) :
  (∀ x, x ∈ l → ¬ P x) → filter P l = [].
Proof.
  induction l as [|x l IH]; [done|]. intros Hall.
  rewrite filter_cons_False by (apply Hall, list_elem_of_here).
  apply IH. intros y Hy. by apply Hall, list_elem_of_further.
Qed.

Lemma one_entry_per_key {V} (d : list (string * V)) k v :
  NoDup d.*1 → Py.dict_get d k = Some v →
  filter (fun kv => kv.1 = k) d = [(k, v)].
Proof.
  induction d as [|[k' v'] d IH]; [done|]. rewrite fmap_cons. cbn [fst].
  intros [Hk' Hnd]%NoDup_cons. cbn [Py.dict_get].
  destruct (String.eqb_spec k' k) as [->|Hne].
  - intros [= ->]. rewrite filter_cons_True by done. f_equal.
    apply filter_none. intros [k'' v''] Hin Heq. simpl in Heq.
    subst k''. apply Hk'. apply list_elem_of_fmap. by exists (k, v'').
  - intros Hget. rewrite filter_cons_False by done. by apply IH.
Qed.

(** Installing the same source twice is installing it once, for a source
    whose manifest names one path component and whose folder lets its
    entries be removed, into a writable plugin root where no folder that
    cannot be removed stands in the way: the second install returns what
    the first returned and leaves the disk, the registry and the loaded
    modules exactly as the first one left them, and the registry holds one
    entry for the plugin's name. *)
Theorem install_twice_is_install_once s source_path d manifest :
  source_manifest s source_path = Some (d, manifest) →
  is_component (PluginManifest.name manifest) = true →
  dir_writable d = true →
  root_writable (fs s) = true →
  removable (root (fs s) !! PluginManifest.name manifest) →
  NoDup (plugins s).*1 →
  (install_plugin source_path s).1 = install_outcome manifest d
  ∧ (install_plugin source_path (install_plugin source_path s).2).1
    = install_outcome manifest d
  ∧ fs (install_plugin source_path (install_plugin source_path s).2).2
    = fs (install_plugin source_path s).2
  ∧ plugins (install_plugin source_path (install_plugin source_path s).2).2
    = plugins (install_plugin source_path s).2
  ∧ plugin_modules (install_plugin source_path (install_plugin source_path s).2).2
    = plugin_modules (install_plugin source_path s).2
  ∧ filter (fun kv => kv.1 = PluginManifest.name manifest)
           (plugins (install_plugin source_path (install_plugin source_path s).2).2)
    = [(PluginManifest.name manifest, manifest)].
Proof.
  intros Hsrc _ Hdw Hw Hrem Hnd.
  destruct (install_plugin_effect s source_path d manifest Hsrc Hw Hrem)
    as (Hr & Hroot & Hout & Hw' & Hp & Hmod).
  set (s1 := (install_plugin source_path s).2) in *.
  assert (Hsrc1 : source_manifest s1 source_path = Some (d, manifest)).
  { unfold source_manifest in *. by rewrite Hout. }
  assert (Hrem1 : removable (root (fs s1) !! PluginManifest.name manifest)).
  { rewrite Hroot, lookup_insert_eq. by right. }
  destruct (install_plugin_effect s1 source_path d manifest Hsrc1 Hw' Hrem1)
    as (Hr2 & Hroot2 & Hout2 & Hw2 & Hp2 & Hmod2).
  set (s2 := (install_plugin source_path s1).2) in *.
  assert (Hplug : plugins s2 = plugins s1) by (by rewrite Hp2, Hp, dict_set_twice).
  split; [exact Hr|]. split; [exact Hr2|]. split; [|split; [exact Hplug|split]].
  - destruct (fs s2) as [r2 o2 w2], (fs s1) as [r1 o1 w1]. simpl in *.
    assert (r2 = r1) as -> by (rewrite Hroot2, Hroot; apply insert_insert_eq).
    congruence.
  - by rewrite Hmod2, Hmod, modules_after_load_twice.
  - rewrite Hplug, Hp. apply one_entry_per_key; [by apply dict_set_NoDup|].
    apply dict_get_set_eq.
Qed.

Lemma install_twice_is_install_once_witness :
  source_manifest ExampleDisk.started "/tmp/echo"
  = Some (Example.echo_folder true, Example.echo_manifest)
  ∧ (install_plugin "/tmp/echo" (install_plugin "/tmp/echo" ExampleDisk.started).2).1
    = Ok true
  ∧ plugins (install_plugin "/tmp/echo" (install_plugin "/tmp/echo" ExampleDisk.started).2).2
    = plugins (install_plugin "/tmp/echo" ExampleDisk.started).2.
Proof.
  assert (H1 : source_manifest ExampleDisk.started "/tmp/echo"
               = Some (Example.echo_folder true, Example.echo_manifest))
    by (vm_compute; reflexivity).
  assert (H2 : removable (root (fs ExampleDisk.started)
                            !! PluginManifest.name Example.echo_manifest)).
  { assert (Hn : root (fs ExampleDisk.started)
                   !! PluginManifest.name Example.echo_manifest
                 = Some (Directory (Example.echo_folder true)))
      by (vm_compute; reflexivity).
    rewrite Hn. by right. }
  assert (H3 : NoDup (plugins ExampleDisk.started).*1).
  { vm_compute. apply NoDup_singleton. }
  destruct (install_twice_is_install_once ExampleDisk.started "/tmp/echo" _ _
              H1 eq_refl eq_refl eq_refl H2 H3) as (_ & Hr & _ & Hp & _).
  split; [exact H1|]. split; [exact Hr | exact Hp].
Defined.

(** * Further properties of the dispatch from text *)

(** ** Substrings *)

Lemma prefix_empty s : String.prefix "" s = true.
Proof. by destruct s. Qed.

Lemma prefix_app p s t :
  String.prefix p s = true → String.prefix p (s +:+ t) = true.
Proof.
  revert s. induction p as [|a p IH]; intros s; [intros _; apply prefix_empty|].
  destruct s as [|b s]; [done|]. simpl.
  destruct (ascii_dec a b); [apply IH | done].
Qed.

Lemma contains_prefix p s : String.prefix p s = true → Py.contains p s = true.
Proof. intros H. destruct s; simpl in *; by rewrite H. Qed.

Lemma contains_cons p a s :
  Py.contains p s = true → Py.contains p (String a s) = true.
Proof. intros H. cbn [Py.contains]. rewrite H. apply orb_true_r. Qed.

Lemma contains_app_r p s t :
  Py.contains p t = true → Py.contains p (s +:+ t) = true.
Proof.
  intros H. induction s as [|a s IH]; [exact H|].
  change (String a s +:+ t) with (String a (s +:+ t)). by apply contains_cons.
Qed.

Lemma contains_app_l p s t :
  Py.contains p s = true → Py.contains p (s +:+ t) = true.
Proof.
  induction s as [|a s IH].
  - simpl. rewrite orb_false_r. intros H. apply contains_prefix.
    destruct p; [apply prefix_empty | done].
  - change (String a s +:+ t) with (String a (s +:+ t)).
    cbn [Py.contains]. intros [H|H]%orb_true_iff.
    + apply orb_true_iff. left.
      by apply (prefix_app p (String a s) t).
    + apply orb_true_iff. right. by apply IH.
Qed.

(** The deny-list cannot be evaded by wrapping: a command that is blocked
    stays blocked with any text put before and after it, and then starts no
    subprocess either. *)
Theorem blocked_command_stays_blocked_when_wrapped s command before after :
  is_dangerous command = true →
  is_dangerous (before +:+ command +:+ after) = true
  ∧ _execute_shell_command (before +:+ command +:+ after) s
    = (Ok "Error: Dangerous command blocked", s).
Proof.
  intros H.
  assert (Hd : is_dangerous (before +:+ command +:+ after) = true).
  { unfold is_dangerous, Py.any in *. apply existsb_exists.
    apply existsb_exists in H as (dangerous & Hin & Hc). exists dangerous.
    split; [exact Hin|]. by apply contains_app_r, contains_app_l. }
  split; [exact Hd|]. unfold _execute_shell_command, try_except. by rewrite Hd.
Qed.

Lemma blocked_command_stays_blocked_when_wrapped_witness :
  is_dangerous "sudo reboot" = true
  ∧ is_dangerous ("cd /tmp && " +:+ "sudo reboot" +:+ " # now") = true.
Proof.
  assert (H : is_dangerous "sudo reboot" = true) by reflexivity.
  split; [exact H|].
  exact (proj1 (blocked_command_stays_blocked_when_wrapped
                  (Example.started true) "sudo reboot" "cd /tmp && " " # now" H)).
Defined.

(** ** Replies put one after the other *)

Lemma split_nonempty c s : ∃ h t, Py.split c s = h :: t.
Proof.
  induction s as [|a s (h & t & IH)]; [by eexists _, _|]. simpl.
  destruct (Ascii.eqb a c); [by eexists _, _|]. rewrite IH. by eexists _, _.
Qed.

Lemma split_app_sep c s t :
  Py.split c (s +:+ String c t) = Py.split c s ++ Py.split c t.
Proof.
  induction s as [|a s IH].
  - simpl. by rewrite Ascii.eqb_refl.
  - change (String a s +:+ String c t) with (String a (s +:+ String c t)).
    cbn [Py.split]. rewrite IH. destruct (Ascii.eqb a c); [reflexivity|].
    destruct (split_nonempty c s) as (h & tl & ->). reflexivity.
Qed.

Lemma run_directives_app ds1 ds2 s :
  run_directives (ds1 ++ ds2) s
  = match run_directives ds1 s with
    | (Ok r1, s1) =>
        match run_directives ds2 s1 with
        | (Ok r2, s2) => (Ok (r1 ++ r2), s2)
        | (Raise e, s2) => (Raise e, s2)
        end
    | (Raise e, s1) => (Raise e, s1)
    end.
Proof.
  revert s. induction ds1 as [|d ds1 IH]; intros s.
  - simpl. unfold ret. by destruct (run_directives ds2 s) as [[r2|e] s2].
  - cbn [app run_directives]. unfold bind at 1 3.
    destruct (run_directive d s) as [[r|e] s0]; [|reflexivity].
    unfold bind, ret. rewrite IH.
    destruct (run_directives ds1 s0) as [[r1|e] s1]; [|reflexivity].
    by destruct (run_directives ds2 s1) as [[r2|e] s2].
Qed.

(** Dispatch composes over replies: dispatching one reply followed by a
    newline and a second reply handles the lines of the first, then the
    lines of the second in the state the first left, and returns the results
    of the first followed by those of the second. When plugin code called
    for the first reply raises an exception outside [Exception], the second
    reply is not handled; what either raises, the whole raises. *)
Theorem dispatch_of_replies_in_sequence first second s :
  execute_from_response (first +:+ Py.nl +:+ second) s
  = match run_directives (omap directive_of (Py.split Py.newline first)) s with
    | (Ok r1, s1) =>
        match run_directives (omap directive_of (Py.split Py.newline second)) s1 with
        | (Ok r2, s2) => (Ok (text_block (r1 ++ r2)), s2)
        | (Raise e, s2) => (Raise e, s2)
        end
    | (Raise e, s1) => (Raise e, s1)
    end
  ∧ (∀ response s0,
       execute_from_response response s0
       = match run_directives
                 (omap directive_of (Py.split Py.newline response)) s0 with
         | (Ok results, s') => (Ok (text_block results), s')
         | (Raise e, s') => (Raise e, s')
         end).
Proof.
  split; [|apply execute_from_response_directives].
  rewrite execute_from_response_directives.
  change (first +:+ Py.nl +:+ second) with (first +:+ String Py.newline second).
  rewrite split_app_sep, omap_app, run_directives_app.
  destruct (run_directives (omap directive_of (Py.split Py.newline first)) s)
    as [[r1|e] s1]; [|reflexivity].
  by destruct (run_directives (omap directive_of (Py.split Py.newline second)) s1)
    as [[r2|e] s2].
Qed.

(** Two replies on the example executor: the results of the first come
    before those of the second; a first reply whose tool exits stops the
    whole. *)
Example replies_in_sequence :
  (execute_from_response ("tool:echo.say(text=a)" +:+ Py.nl +:+ "tool:echo.say(text=b)")
     (Example.started true)).1
  = Ok (Some ("Tool: echo.say(text=a)" +:+ Py.nl +:+ "Result: a" +:+ Py.nl +:+ Py.nl
              +:+ "Tool: echo.say(text=b)" +:+ Py.nl +:+ "Result: b"))
  ∧ (execute_from_response ("tool:halt.now()" +:+ Py.nl +:+ "execute: ls")
       ExampleExit.started).1
    = Raise (Exn "SystemExit" "bye")
  ∧ subprocesses (execute_from_response ("tool:halt.now()" +:+ Py.nl +:+ "execute: ls")
                    ExampleExit.started).2
    = [].
Proof. repeat split; vm_compute; reflexivity. Qed.

(** ** The orchestrator's test before the dispatch *)

Lemma contains_lstrip p f s :
  Py.contains p (Py.lstrip_by f s) = true → Py.contains p s = true.
Proof.
  induction s as [|a s IH]; [done|]. cbn [Py.lstrip_by].
  destruct (f a); [|done]. intros H. by apply contains_cons, IH.
Qed.

Lemma rstrip_is_prefix f s : ∃ rest, s = Py.rstrip_by f s +:+ rest.
Proof.
  induction s as [|a s (rest & IH)]; [by exists ""|]. cbn [Py.rstrip_by].
  destruct (Py.rstrip_by f s) as [|b r] eqn:Hr.
  - destruct (f a); [by exists (String a s) | by exists s].
  - exists rest. change (String a (String b r) +:+ rest)
      with (String a (String b r +:+ rest)). by rewrite <- IH.
Qed.

Lemma contains_strip p s :
  Py.contains p (Py.strip s) = true → Py.contains p s = true.
Proof.
  unfold Py.strip, Py.strip_by. intros H. apply (contains_lstrip p Py.isspace).
  destruct (rstrip_is_prefix Py.isspace (Py.lstrip_by Py.isspace s)) as [rest Hrest].
  rewrite Hrest. by apply contains_app_l.
Qed.

Lemma split_head_is_prefix c s h t :
  Py.split c s = h :: t → ∃ rest, s = h +:+ rest.
Proof.
  revert h t. induction s as [|a s IH]; intros h t; simpl.
  - intros [= <- <-]. by exists "".
  - destruct (Ascii.eqb a c); [intros [= <- <-]; by eexists|].
    destruct (split_nonempty c s) as (h' & t' & Hs). rewrite Hs.
    intros [= <- <-]. destruct (IH h' t' Hs) as [rest ->]. by exists rest.
Qed.

Lemma contains_split_piece c p s line :
  line ∈ Py.split c s → Py.contains p line = true → Py.contains p s = true.
Proof.
  revert line. induction s as [|a s IH]; intros line; cbn [Py.split].
  - by intros ->%list_elem_of_singleton.
  - destruct (Ascii.eqb a c).
    + intros [->|Hin]%elem_of_cons Hc.
      * apply contains_prefix. simpl in Hc. rewrite orb_false_r in Hc.
        destruct p; [apply prefix_empty | done].
      * apply contains_cons. by eapply IH.
    + destruct (split_nonempty c s) as (h & t & Hs). rewrite Hs.
      destruct (split_head_is_prefix c s h t Hs) as [rest Hrest].
      intros [->|Hin]%elem_of_cons Hc.
      * rewrite Hrest. by apply (contains_app_l p (String a h) rest).
      * apply contains_cons. apply (IH line); [|exact Hc].
        rewrite Hs. by apply list_elem_of_further.
Qed.

Lemma prefix_lower p s :
  String.prefix p s = true → String.prefix (Py.lower p) (Py.lower s) = true.
Proof.
  revert s. induction p as [|a p IH]; intros s; [intros _; apply prefix_empty|].
  destruct s as [|b s]; [done|]. simpl.
  destruct (ascii_dec a b) as [->|]; [|done]. intros H.
  destruct (ascii_dec (Py.lower_char b) (Py.lower_char b)); [by apply IH | done].
Qed.

Lemma contains_lower p s :
  Py.contains p s = true → Py.contains (Py.lower p) (Py.lower s) = true.
Proof.
  induction s as [|a s IH].
  - simpl. rewrite !orb_false_r. apply (prefix_lower p "").
  - cbn [Py.contains Py.lower]. intros [H|H]%orb_true_iff; apply orb_true_iff.
    + left. by apply (prefix_lower p (String a s)).
    + right. by apply IH.
Qed.

Lemma directive_prefix line d :
  directive_of line = Some d →
  ∃ p, p ∈ ["execute:"; "search:"; "tool:"] ∧ Py.startswith (Py.strip line) p = true.
Proof.
  unfold directive_of.
  destruct (Py.startswith (Py.strip line) "execute:") eqn:He;
    [intros _; exists "execute:"; split; [apply list_elem_of_here | exact He]|].
  destruct (Py.startswith (Py.strip line) "search:") eqn:Hs;
    [intros _; exists "search:"; split;
       [apply list_elem_of_further, list_elem_of_here | exact Hs]|].
  destruct (Py.startswith (Py.strip line) "tool:") eqn:Ht; [|done].
  intros _. exists "tool:". split; [|exact Ht].
  do 2 apply list_elem_of_further. apply list_elem_of_here.
Qed.

Lemma directive_requires_plugin_execution response line d :
  line ∈ Py.split Py.newline response →
  directive_of line = Some d →
  TaskOrchestrator._requires_plugin_execution response = true.
Proof.
  intros Hin (p & Hp & Hstart)%directive_prefix.
  assert (Hc : Py.contains (Py.lower p) (Py.lower response) = true).
  { apply contains_lower. apply (contains_split_piece Py.newline p response line Hin).
    apply contains_strip. by apply contains_prefix. }
  unfold TaskOrchestrator._requires_plugin_execution, Py.any.
  apply existsb_exists. exists p. split.
  - apply list_elem_of_In. unfold TaskOrchestrator.tool_indicators.
    repeat (apply elem_of_cons in Hp as [->|Hp];
            [repeat first [apply list_elem_of_here | apply list_elem_of_further]|]).
    by apply elem_of_nil in Hp.
  - repeat (apply elem_of_cons in Hp as [->|Hp]; [exact Hc|]).
    by apply elem_of_nil in Hp.
Qed.

(** The orchestrator's test lets through every reply the dispatcher would
    act on: whenever dispatch-from-text has a result for a reply, in any
    state of the executor, [_requires_plugin_execution] holds of that reply,
    so the orchestrator's cheaper check never hides a tool line. *)
Theorem dispatch_result_passes_the_gate response s text :
  (execute_from_response response s).1 = Ok (Some text) →
  TaskOrchestrator._requires_plugin_execution response = true.
Proof.
  intros H. rewrite execute_from_response_directives in H.
  pose proof (run_directives_result
                (omap directive_of (Py.split Py.newline response)) s) as Hlen.
  destruct (run_directives _ s) as [[results|e] s']; [|done].
  cbn [fst] in H.
  destruct (omap directive_of (Py.split Py.newline response)) as [|d ds] eqn:Hd.
  { destruct results; done. }
  assert (Hin : d ∈ omap directive_of (Py.split Py.newline response))
    by (rewrite Hd; apply list_elem_of_here).
  apply list_elem_of_omap in Hin as (line & Hline & Hdir).
  by eapply directive_requires_plugin_execution.
Qed.

Lemma dispatch_result_passes_the_gate_witness :
  (execute_from_response "  TOOL: x" (Example.started true)).1 = Ok None
  ∧ (execute_from_response " tool:echo.say(text=hi) " (Example.started true)).1
    = Ok (Some ("Tool: echo.say(text=hi)" +:+ Py.nl +:+ "Result: hi"))
  ∧ TaskOrchestrator._requires_plugin_execution " tool:echo.say(text=hi) " = true.
Proof.
  assert (H : (execute_from_response " tool:echo.say(text=hi) "
                 (Example.started true)).1
              = Ok (Some ("Tool: echo.say(text=hi)" +:+ Py.nl +:+ "Result: hi")))
    by (vm_compute; reflexivity).
  split; [vm_compute; reflexivity|]. split; [exact H|].
  exact (dispatch_result_passes_the_gate _ _ _ H).
Defined.

(** * Further properties of the orchestrator *)

(** ** A small logic of what a computation keeps *)

Section Keeps.
Context {S : Type} (R : relation S) `{!PreOrder R}.

Lemma keeps_ret {A} (a : A) : keeps R (ret a).
Proof. intros s. reflexivity. Qed.

Lemma keeps_raise {A} (e : exn) : keeps R (raise (A := A) e).
Proof. intros s. reflexivity. Qed.

Lemma keeps_get : keeps R get.
Proof. intros s. reflexivity. Qed.

Lemma keeps_modify (f : S → S) : (∀ s, R s (f s)) → keeps R (modify f).
Proof. intros H s. apply H. Qed.

Lemma keeps_bind {A B} (c : M S A) (k : A → M S B) :
  keeps R c → (∀ a, keeps R (k a)) → keeps R (bind c k).
Proof.
  intros Hc Hk s. unfold bind. specialize (Hc s).
  destruct (c s) as [[a|e] s1]; simpl in *; [|exact Hc].
  etrans; [exact Hc | apply Hk].
Qed.

Lemma keeps_try_except {A} (body : M S A) (handler : exn → M S A) :
  keeps R body → (∀ e, keeps R (handler e)) → keeps R (try_except body handler).
Proof.
  intros Hb Hh s. unfold try_except. specialize (Hb s).
  destruct (body s) as [[a|e] s1]; simpl in *; [exact Hb|].
  destruct (is_Exception e); [|exact Hb].
  etrans; [exact Hb | apply Hh].
Qed.
End Keeps.

(** ** What a task keeps *)

Section TaskKeeps.
Import FrameSpec.
Import TaskOrchestrator.

Variable memory_search : string → result (list string).
Variable llm_execute : string → string → result string.
Variable store_interaction : string → string → list (string * meta_value) → result unit.

Context (R : relation state) `{!PreOrder R}.
Variables use_memory enable_plugins : bool.

Hypothesis R_log : ∀ s l, R s (set_log l s).
Hypothesis R_active : ∀ s a, R s (set_active_tasks a s).
Hypothesis R_completed : ∀ s c, R s (set_completed_tasks c s).
Hypothesis R_enter : ∀ st s,
  (st = MemoryLookup ∨ st = MemoryWrite → use_memory = true) →
  (st = PluginDispatch → enable_plugins = true) →
  R s (set_trace (trace s ++ [st]) s).
Hypothesis R_router : ∀ s requested prompt,
  R s (set_llm_router (LLMRouter.select_model requested prompt (llm_router s)).2 s).
Hypothesis R_executor : enable_plugins = true → ∀ s response,
  R s (set_plugin_executor
         (PluginExecutor.execute_from_response response (plugin_executor s)).2 s).

Lemma keeps_logger lvl msg : keeps R (logger lvl msg).
Proof. apply keeps_modify. intros s. apply R_log. Qed.

Lemma keeps_lift {A} (r : result A) : keeps R (lift r).
Proof. intros s. reflexivity. Qed.

Lemma keeps_enter st :
  (st = MemoryLookup ∨ st = MemoryWrite → use_memory = true) →
  (st = PluginDispatch → enable_plugins = true) →
  keeps R (enter st).
Proof. intros H1 H2. apply keeps_modify. intros s. by apply R_enter. Qed.

Lemma keeps_when_verbose (b : bool) msg :
  keeps R (if b then logger INFO msg else ret tt).
Proof. destruct b; [apply keeps_logger | by apply keeps_ret]. Qed.

Lemma execute_task_keeps task_id now prompt model verbose :
  keeps R (execute_task memory_search llm_execute store_interaction task_id now
                        prompt model use_memory enable_plugins verbose).
Proof.
  unfold execute_task.
  apply keeps_bind; [done | (apply keeps_modify; intros s; apply R_active) |].
  intros _. apply keeps_bind; [done | apply keeps_logger |]. intros _.
  apply keeps_try_except; [done | |].
  - unfold execute_task_body.
    apply keeps_bind; [done | |].
    { unfold memory_retrieval. cbn [TaskContext.use_memory].
      destruct (Sumbool.sumbool_of_bool use_memory) as [Hmem|Hmem]; rewrite Hmem;
        [|by apply keeps_ret].
      apply keeps_bind; [done | apply keeps_enter; [done | by intros [=]] |].
      intros _. apply keeps_bind; [done | apply keeps_lift |].
      intros [|m ms]; [by apply keeps_ret|].
      apply keeps_bind; [done | apply keeps_when_verbose | intros _; by apply keeps_ret]. }
    intros relevant. apply keeps_bind; [done | |].
    { unfold model_selection.
      apply keeps_bind;
        [done | apply keeps_enter; [by intros [[=]|[=]] | by intros [=]] |].
      intros _. apply keeps_bind; [done | |].
      { intros s. unfold zoom.
        pose proof (R_router s model prompt) as Hr. cbn [TaskContext.model TaskContext.prompt].
        by destruct (LLMRouter.select_model model prompt (llm_router s)). }
      intros selected.
      apply keeps_bind; [done | apply keeps_when_verbose | intros _; by apply keeps_ret]. }
    intros selected. apply keeps_bind; [done | |].
    { unfold llm_execution. apply keeps_bind; [done | by apply keeps_get |].
      intros s0. apply keeps_bind;
        [done | apply keeps_enter; [by intros [[=]|[=]] | by intros [=]] |].
      intros _. apply keeps_lift. }
    intros response. apply keeps_bind; [done | |].
    { unfold plugin_execution. cbn [TaskContext.enable_plugins].
      destruct (Sumbool.sumbool_of_bool enable_plugins) as [Hplug|Hplug]; rewrite Hplug;
        [|by apply keeps_ret].
      destruct (_requires_plugin_execution response); [|by apply keeps_ret].
      cbn [andb].
      apply keeps_bind; [done | apply keeps_enter; [by intros [[=]|[=]] | done] |].
      intros _. apply keeps_bind; [done | |].
      { intros s. unfold zoom.
        pose proof (R_executor Hplug s response) as Hr.
        by destruct (PluginExecutor.execute_from_response response (plugin_executor s)). }
      intros [[|c r]|]; by apply keeps_ret. }
    intros response'. apply keeps_bind; [done | |].
    { unfold memory_storage. cbn [TaskContext.use_memory].
      destruct (Sumbool.sumbool_of_bool use_memory) as [Hmem|Hmem]; rewrite Hmem;
        [|by apply keeps_ret].
      apply keeps_bind; [done | apply keeps_enter; [done | by intros [=]] |].
      intros _. apply keeps_bind; [done | apply keeps_lift |].
      intros _. apply keeps_when_verbose. }
    intros _. unfold task_completion. cbv zeta.
    apply keeps_bind; [done | (apply keeps_modify; intros s; apply R_completed) |].
    intros _. apply keeps_bind;
      [done | (apply keeps_modify; intros s; apply R_active) |].
    intros _. apply keeps_bind; [done | apply keeps_logger | intros _; by apply keeps_ret].
  - intros e. apply keeps_bind; [done | apply keeps_logger |]. intros _. cbv zeta.
    apply keeps_bind; [done | (apply keeps_modify; intros s; apply R_completed) |].
    intros _. apply keeps_bind; [done | by apply keeps_get |]. intros s0.
    apply keeps_bind; [done | | intros _; by apply keeps_raise].
    destruct (bool_decide (is_Some (active_tasks s0 !! task_id)));
      [(apply keeps_modify; intros s; apply R_active) | by apply keeps_ret].
Qed.
End TaskKeeps.

Lemma fst_bind {S A B} (c : M S A) (k : A → M S B) s :
  (bind c k s).1
  = match c s with
    | (Ok a, s1) => (k a s1).1
    | (Raise e, _) => Raise e
    end.
Proof. unfold bind. by destruct (c s) as [[a|e] s1]. Qed.

Lemma fst_try_reraise {S A} (body : M S A) (handler : exn → M S A) s :
  (∀ e s1, (handler e s1).1 = Raise e) →
  (try_except body handler s).1 = (body s).1.
Proof.
  intros Hh. unfold try_except. destruct (body s) as [[a|e] s1]; [done|].
  destruct (is_Exception e); [apply Hh | done].
Qed.

Lemma select_model_configuration requested_model prompt s :
  LLMRouter.clients (LLMRouter.select_model requested_model prompt s).2
  = LLMRouter.clients s
  ∧ LLMRouter.model_preferences (LLMRouter.select_model requested_model prompt s).2
    = LLMRouter.model_preferences s.
Proof.
  unfold LLMRouter.select_model, bind, get, ret, raise, LLMRouter.logger, modify.
  destruct (negb (requested_model =? "auto")%string
            && LLMRouter._is_model_available s requested_model); [done|].
  destruct (negb (requested_model =? "auto")%string); cbv beta iota;
    (match goal with |- context [LLMRouter._is_model_available ?s' ?m] =>
       destruct (LLMRouter._is_model_available s' m) end; [done|]);
    cbn [LLMRouter.clients]; destruct (LLMRouter.clients s) eqn:Hc;
    cbn [snd LLMRouter.clients LLMRouter.model_preferences]; by rewrite ?Hc.
Qed.

Module FrameInstances.
Import FrameSpec.
Import TaskOrchestrator.

#[export] Instance same_configuration_preorder : PreOrder same_configuration.
Proof.
  split.
  - by intros s.
  - intros s1 s2 s3 (H1 & H2 & H3 & H4) (K1 & K2 & K3 & K4).
    unfold same_configuration. by rewrite K1, K2, K3, K4.
Qed.

#[export] Instance same_executor_preorder : PreOrder same_executor.
Proof.
  split.
  - by intros s.
  - intros s1 s2 s3 H K. unfold same_executor in *. by rewrite K.
Qed.

#[export] Instance entered_only_preorder allowed : PreOrder (entered_only allowed).
Proof.
  split.
  - intros s. exists []. by rewrite app_nil_r.
  - intros s1 s2 s3 (e1 & H1 & A1) (e2 & H2 & A2).
    exists (e1 ++ e2). split.
    + by rewrite H2, H1, app_assoc.
    + by apply Forall_app.
Qed.
End FrameInstances.

Section TaskFrames.
Import FrameSpec.
Import FrameInstances.
Import TaskOrchestrator.

Variable memory_search : string → result (list string).
Variable llm_execute : string → string → result string.
Variable store_interaction : string → string → list (string * meta_value) → result unit.

(** Whatever a task does and however it ends, the plugin executor's
    registry (the manifests and the loaded modules) and the router's clients
    and preference table are afterwards what they were before. *)
Theorem task_keeps_configuration s task_id now prompt model use_memory
    enable_plugins verbose :
  same_configuration s
    (execute_task memory_search llm_execute store_interaction task_id now prompt
                  model use_memory enable_plugins verbose s).2.
Proof.
  apply (execute_task_keeps memory_search llm_execute store_interaction
           same_configuration use_memory enable_plugins); try done.
  - intros s0 requested p. unfold same_configuration. cbn [llm_router plugin_executor set_llm_router].
    by destruct (select_model_configuration requested p (llm_router s0)) as [-> ->].
  - intros _ s0 response. unfold same_configuration.
    cbn [llm_router plugin_executor set_plugin_executor].
    pose proof (execute_from_response_registry response (plugin_executor s0)) as H.
    unfold registry in H. by injection H as -> ->.
Qed.

(** A task run with plugins disabled never enters the dispatch from text and
    leaves the plugin executor, all of it, as it was, whatever the model
    replies. *)
Theorem task_without_plugins_spares_executor s task_id now prompt model
    use_memory verbose :
  let s' := (execute_task memory_search llm_execute store_interaction task_id now
                          prompt model use_memory false verbose s).2 in
  plugin_executor s' = plugin_executor s
  ∧ ∃ entered, trace s' = trace s ++ entered ∧ PluginDispatch ∉ entered.
Proof.
  split.
  - apply (execute_task_keeps memory_search llm_execute store_interaction
             same_executor use_memory false); done.
  - destruct (execute_task_keeps memory_search llm_execute store_interaction
               (entered_only (λ st, st ≠ PluginDispatch)) use_memory false)
      with (task_id := task_id) (now := now) (prompt := prompt) (model := model)
           (verbose := verbose) (s := s)
      as (entered & Ht & Hall); try (by intros; exists []; rewrite app_nil_r).
    + intros st s0 _ Hp. exists [st]. split; [done|].
      apply Forall_singleton. intros ->. by specialize (Hp eq_refl).
    + exists entered. split; [done|].
      intros Hin. by eapply Forall_forall in Hall.
Qed.

(** A task run with memory disabled enters neither the memory search nor
    the memory write. *)
Theorem task_without_memory_spares_memory s task_id now prompt model
    enable_plugins verbose :
  ∃ entered,
    trace (execute_task memory_search llm_execute store_interaction task_id now
                        prompt model false enable_plugins verbose s).2
    = trace s ++ entered
    ∧ (MemoryLookup ∉ entered) ∧ (MemoryWrite ∉ entered).
Proof.
  destruct (execute_task_keeps memory_search llm_execute store_interaction
              (entered_only (λ st, st ≠ MemoryLookup ∧ st ≠ MemoryWrite))
              false enable_plugins)
    with (task_id := task_id) (now := now) (prompt := prompt) (model := model)
         (verbose := verbose) (s := s)
    as (entered & Ht & Hall); try (by intros; exists []; rewrite app_nil_r).
  - intros st s0 Hm _. exists [st]. split; [done|].
    apply Forall_singleton. split; intros ->; by specialize (Hm ltac:(auto)).
  - exists entered. split; [done|].
    split; intros Hin; eapply Forall_forall in Hall; try exact Hin; simpl in Hall;
      by destruct Hall.
Qed.

Lemma model_selection_result context s :
  (model_selection context s).1
  = (LLMRouter.select_model (TaskContext.model context) (TaskContext.prompt context)
                            (llm_router s)).1.
Proof.
  unfold model_selection. rewrite fst_bind. unfold enter at 1, modify at 1.
  rewrite fst_bind. unfold zoom. cbn [llm_router set_trace].
  destruct (LLMRouter.select_model _ _ (llm_router s)) as [[selected|e] r']; [|done].
  rewrite fst_bind. by destruct (TaskContext.verbose context).
Qed.

Lemma llm_execution_plain context selected_model s :
  TaskContext.enable_plugins context = false →
  (llm_execution llm_execute context "" selected_model s).1
  = llm_execute selected_model (TaskContext.prompt context).
Proof.
  intros Hoff. unfold llm_execution, _build_enhanced_prompt. by rewrite Hoff.
Qed.

(** With memory and plugins both disabled, the task returns exactly what
    the model call returns for the selected model and the prompt as given,
    and raises exactly what the selection or that call raises. *)
Theorem plain_task_is_the_model_call s task_id now prompt model verbose :
  (execute_task memory_search llm_execute store_interaction task_id now prompt
                model false false verbose s).1
  = match (LLMRouter.select_model model prompt (llm_router s)).1 with
    | Ok selected_model => llm_execute selected_model prompt
    | Raise e => Raise e
    end.
Proof.
  unfold execute_task. cbv zeta.
  rewrite fst_bind. unfold modify at 1.
  rewrite fst_bind. unfold logger at 1, modify at 1.
  rewrite fst_try_reraise.
  2:{ intros e s0. rewrite fst_bind. unfold logger at 1, modify at 1.
      rewrite fst_bind. unfold modify at 1. rewrite fst_bind. unfold get.
      rewrite fst_bind.
      by destruct (bool_decide _). }
  set (context := TaskContext.Build task_id prompt model false false verbose now []).
  match goal with |- (execute_task_body _ _ _ _ ?s0).1 = _ => set (s1 := s0) end.
  change (llm_router s) with (llm_router s1).
  unfold execute_task_body. rewrite fst_bind.
  unfold memory_retrieval at 1. cbn [TaskContext.use_memory context]. unfold ret at 1.
  rewrite fst_bind.
  pose proof (model_selection_result context s1) as Hsel.
  cbn [TaskContext.model TaskContext.prompt context] in Hsel. rewrite <- Hsel.
  destruct (model_selection context s1) as [[selected|e] s2]; [|done].
  cbn [fst]. rewrite fst_bind.
  pose proof (llm_execution_plain context selected s2 eq_refl) as Hllm.
  cbn [TaskContext.prompt context] in Hllm. rewrite <- Hllm.
  by destruct (llm_execution llm_execute context "" selected s2) as [[response|e] s3].
Qed.
End TaskFrames.

(** ** The router's clients and the model call *)

Section Clients.
Import LLMRouter.
Import LLMClients.
Import ClientsSpec.

(** What a client's constructor raises is caught. *)
Lemma try_construct v provider key (k : M state unit) handler s :
  try_except (match construct v provider key with
              | None => k
              | Some e => raise e
              end) handler s
  = match construct v provider key with
    | None => try_except k handler s
    | Some e => handler e s
    end.
Proof.
  destruct (construct v provider key) as [e|] eqn:E; [|reflexivity].
  unfold try_except, raise. by rewrite (construct_raises_Exception v _ _ _ E).
Qed.

Lemma init_block v api_keys provider greeting handler s :
  (∀ e s0, ∃ l, handler e s0
                = (Ok tt, Build_state (clients s0) (model_preferences s0) l)) →
  ∃ l,
    try_except
      (match api_keys !! provider with
       | Some key =>
           if negb (String.eqb key "") then
             match construct v provider key with
             | None => modify (set_client provider) ;; logger INFO greeting
             | Some e => raise e
             end
           else ret tt
       | None => ret tt
       end)%M handler s
    = (Ok tt,
       Build_state (if has_working_key v api_keys provider
                    then clients (set_client provider s) else clients s)
                   (model_preferences s) l).
Proof.
  intros Hh. unfold has_working_key.
  destruct (api_keys !! provider) as [key|]; [|exists (log s); by destruct s].
  destruct (negb (key =? "")%string); [|exists (log s); by destruct s].
  rewrite try_construct. cbn [andb].
  destruct (construct v provider key) as [e|]; [apply Hh|].
  by eexists.
Qed.

Lemma _init_clients_effect v api_keys s :
  ∃ l,
    _init_clients v api_keys s
    = (Ok tt,
       Build_state
         (let cs := if has_working_key v api_keys "openai"
                    then clients (set_client "openai" s) else clients s in
          if has_working_key v api_keys "claude"
          then clients (set_client "claude" (Build_state cs (model_preferences s) []))
          else cs)
         (model_preferences s) l).
Proof.
  unfold _init_clients. unfold bind at 1.
  destruct (init_block v api_keys "openai" "OpenAI client initialized"
              (fun e => logger WARNING ("Failed to initialize OpenAI client: "
                                        +:+ exn_str e)) s) as [l1 ->];
    [by eexists|].
  destruct (init_block v api_keys "claude" "Claude client initialized"
              (fun e => logger WARNING ("Failed to initialize Claude client: "
                                        +:+ exn_str e))
              (Build_state
                 (if has_working_key v api_keys "openai"
                  then clients (set_client "openai" s) else clients s)
                 (model_preferences s) l1)) as [l2 ->]; [by eexists|].
  by exists l2.
Qed.

Lemma init_clients v api_keys preferences :
  clients (init v api_keys preferences)
  = filter (fun provider => has_working_key v api_keys provider = true)
           ["openai"; "claude"]
  ∧ model_preferences (init v api_keys preferences) = preferences.
Proof.
  unfold init.
  destruct (_init_clients_effect v api_keys (Build_state [] ∅ [])) as [l ->].
  rewrite !filter_cons, filter_nil.
  destruct (has_working_key v api_keys "openai"),
    (has_working_key v api_keys "claude"); split; reflexivity.
Qed.

Lemma model_map_inv model provider :
  model_map !! model = Some provider →
  (model = "claude" ∧ provider = "claude")
  ∨ (model = "gpt4" ∧ provider = "openai")
  ∨ (model = "openai" ∧ provider = "openai")
  ∨ (model = "gemini" ∧ provider = "gemini").
Proof.
  unfold model_map. rewrite !lookup_insert_Some, lookup_singleton_Some.
  intros [[<- <-]|[_ [[<- <-]|[_ [[<- <-]|[_ [<- <-]]]]]]]; auto.
Qed.

Lemma available_inv s model :
  _is_model_available s model = true →
  ∃ provider, model_map !! model = Some provider ∧ provider ∈ clients s.
Proof.
  unfold _is_model_available.
  destruct (model_map !! model) as [provider|]; [|done].
  intros H%bool_decide_eq_true. by exists provider.
Qed.

Lemma selection_is_available s requested_model prompt model :
  (∀ provider, provider ∈ clients s → provider = "openai" ∨ provider = "claude") →
  (select_model requested_model prompt s).1 = Ok model →
  ∃ provider, model_map !! model = Some provider ∧ provider ∈ clients s.
Proof.
  intros Hknown. rewrite select_model_outcome. unfold RouterSpec.selection.
  destruct (_is_model_available s requested_model) eqn:Hreq.
  { intros [= Hm]. subst model. by apply available_inv. }
  destruct (_is_model_available s (RouterSpec.preferred s _)) eqn:Hpref.
  { intros [= Hm]. subst model. by apply available_inv. }
  destruct (clients s) as [|first_provider rest] eqn:Hc; [done|].
  intros [= Hm]. subst model. exists first_provider.
  assert (Hin : first_provider ∈ first_provider :: rest) by apply list_elem_of_here.
  split; [|done].
  destruct (Hknown _ Hin) as [-> | ->]; reflexivity.
Qed.

Lemma execute_body_served v model provider prompt s :
  model_map !! model = Some provider →
  provider ∈ clients (router s) →
  provider ≠ "gemini" →
  execute_body v model prompt s = request v provider prompt s.
Proof.
  intros Hmap Hin Hng.
  destruct (model_map_inv _ _ Hmap) as [[-> ->]|[[-> ->]|[[-> ->]|[-> ->]]]];
    try done;
    unfold execute_body; cbn [String.eqb Ascii.eqb Bool.eqb];
    rewrite ?(bool_decide_eq_true_2 ("gpt4" ∈ ["gpt4"; "openai"]))
      by (apply list_elem_of_here);
    rewrite ?(bool_decide_eq_true_2 ("openai" ∈ ["gpt4"; "openai"]))
      by (apply list_elem_of_further, list_elem_of_here);
    unfold _execute_claude, _execute_openai, bind, get;
    by rewrite bool_decide_eq_true_2.
Qed.

(** A router as its constructor leaves it holds a client for exactly those
    of OpenAI and Claude, in this order, whose key is set, not empty and
    accepted by the client's constructor. Whatever model is asked for and
    whatever the preference table holds, the model it selects has a client
    and is not Gemini, and the first attempt of [execute] for it is a
    request to that client. *)
Theorem selected_model_is_served v api_keys preferences requested_model prompt model :
  (select_model requested_model prompt (init v api_keys preferences)).1 = Ok model →
  clients (init v api_keys preferences)
  = filter (fun provider => has_working_key v api_keys provider = true)
           ["openai"; "claude"]
  ∧ ∃ provider,
      model_map !! model = Some provider
      ∧ provider ∈ clients (init v api_keys preferences)
      ∧ provider ≠ "gemini"
      ∧ ∀ s text,
          clients (router s) = clients (init v api_keys preferences) →
          execute_body v model text s = request v provider text s.
Proof.
  intros Hsel.
  destruct (init_clients v api_keys preferences) as [Hc _].
  split; [exact Hc|].
  assert (Hknown : ∀ provider, provider ∈ clients (init v api_keys preferences) →
                               provider = "openai" ∨ provider = "claude").
  { intros provider. rewrite Hc, list_elem_of_filter.
    intros [_ Hin]. apply elem_of_cons in Hin as [->|Hin]; [by left|].
    apply list_elem_of_singleton in Hin as ->. by right. }
  destruct (selection_is_available _ _ _ _ Hknown Hsel) as (provider & Hmap & Hin).
  exists provider.
  assert (Hng : provider ≠ "gemini") by (by destruct (Hknown _ Hin) as [-> | ->]).
  repeat split; try done.
  intros s text Hs. apply execute_body_served; [done| |done]. by rewrite Hs.
Qed.


Lemma selected_model_is_served_witness :
  (select_model "gemini" "write a poem"
     (init ExampleVendors.answering ExampleVendors.openai_only
           ExampleVendors.default_preferences)).1 = Ok "openai"
  ∧ clients (init ExampleVendors.answering ExampleVendors.openai_only
                  ExampleVendors.default_preferences)
    = filter (fun provider =>
                has_working_key ExampleVendors.answering ExampleVendors.openai_only
                                provider = true)
             ["openai"; "claude"]
  ∧ ∃ provider,
      model_map !! "openai" = Some provider
      ∧ provider ∈ clients (init ExampleVendors.answering ExampleVendors.openai_only
                                 ExampleVendors.default_preferences)
      ∧ provider ≠ "gemini"
      ∧ ∀ s text,
          clients (router s)
          = clients (init ExampleVendors.answering ExampleVendors.openai_only
                          ExampleVendors.default_preferences) →
          execute_body ExampleVendors.answering "openai" text s
          = request ExampleVendors.answering provider text s.
Proof.
  assert (H : (select_model "gemini" "write a poem"
                 (init ExampleVendors.answering ExampleVendors.openai_only
                       ExampleVendors.default_preferences)).1 = Ok "openai")
    by (vm_compute; reflexivity).
  split; [exact H|].
  exact (selected_model_is_served ExampleVendors.answering ExampleVendors.openai_only
           ExampleVendors.default_preferences "gemini" "write a poem" "openai" H).
Defined.

(** *** The fallback of [execute] *)

Lemma execute_body_effect v model prompt s :
  router (execute_body v model prompt s).2 = router s
  ∧ ((∃ e, (execute_body v model prompt s).1 = Raise e
           ∧ requests (execute_body v model prompt s).2 = requests s)
     ∨ ∃ provider,
         provider ∈ clients (router s)
         ∧ (execute_body v model prompt s).1
           = complete v provider prompt (length (requests s))
         ∧ requests (execute_body v model prompt s).2
           = requests s ++ [(provider, prompt)]).
Proof.
  unfold execute_body, _execute_claude, _execute_openai, _execute_gemini, bind, get,
    raise, request.
  destruct (model =? "claude")%string.
  { destruct (bool_decide ("claude" ∈ clients (router s))) eqn:Hin.
    - apply bool_decide_eq_true in Hin. split; [done|]. right. by exists "claude".
    - split; [done|]. left. by eexists. }
  destruct (bool_decide (model ∈ ["gpt4"; "openai"])).
  { destruct (bool_decide ("openai" ∈ clients (router s))) eqn:Hin.
    - apply bool_decide_eq_true in Hin. split; [done|]. right. by exists "openai".
    - split; [done|]. left. by eexists. }
  destruct (model =? "gemini")%string; (split; [done|]); left; by eexists.
Qed.

(** What the [try] of [execute] raises is an [Exception]: a missing
    client, a model that is not served, or the error of a request. *)
Lemma execute_body_Exception v model prompt s e s1 :
  execute_body v model prompt s = (Raise e, s1) → is_Exception e = true.
Proof.
  unfold execute_body, _execute_claude, _execute_openai, _execute_gemini, bind, get,
    raise, request.
  destruct (model =? "claude")%string.
  { destruct (bool_decide ("claude" ∈ clients (router s))); [|by intros [= <- _]].
    intros [= H _]. by eapply complete_raises_Exception. }
  destruct (bool_decide (model ∈ ["gpt4"; "openai"])).
  { destruct (bool_decide ("openai" ∈ clients (router s))); [|by intros [= <- _]].
    intros [= H _]. by eapply complete_raises_Exception. }
  destruct (model =? "gemini")%string; by intros [= <- _].
Qed.

Lemma execute_step v fuel model prompt s :
  execute v (S fuel) model prompt s
  = match execute_body v model prompt s with
    | (Ok response, s1) => Some (Ok response, s1)
    | (Raise e, s1) =>
        let s2 :=
          (zoom router set_router
             (logger ERROR ("Model execution failed for " +:+ model +:+ ": "
                            +:+ exn_str e)) s1).2 in
        match filter (fun m => m ≠ model) (clients (router s2)) with
        | fallback_model :: _ =>
            execute v fuel fallback_model prompt
              (zoom router set_router
                 (logger INFO ("Trying fallback model: " +:+ fallback_model)) s2).2
        | [] => Some (Raise e, s2)
        end
    end.
Proof.
  cbn [execute].
  destruct (execute_body v model prompt s) as [[response|e] s1] eqn:Hbody;
    [reflexivity|].
  by rewrite (execute_body_Exception _ _ _ _ _ _ Hbody).
Qed.

Lemma session_logger_effect lvl msg s :
  clients (router (zoom router set_router (logger lvl msg) s).2) = clients (router s)
  ∧ requests (zoom router set_router (logger lvl msg) s).2 = requests s.
Proof. done. Qed.


Lemma attempt_effect v model prompt s :
  clients (router (attempt v model prompt s).2) = clients (router s)
  ∧ ((∃ e, (attempt v model prompt s).1 = Raise e
           ∧ requests (attempt v model prompt s).2 = requests s)
     ∨ ∃ provider,
         provider ∈ clients (router s)
         ∧ (attempt v model prompt s).1
           = complete v provider prompt (length (requests s))
         ∧ requests (attempt v model prompt s).2
           = requests s ++ [(provider, prompt)]).
Proof.
  unfold attempt.
  destruct (execute_body_effect v model prompt s) as [Hr Hcase].
  destruct (execute_body v model prompt s) as [[response|e] s1]; cbn [fst snd] in *.
  - split; [by rewrite Hr|]. destruct Hcase as [(e & He & Hq)|(p & Hin & Hres & Hq)];
      [done|]. right. by exists p.
  - split; [cbn; by rewrite Hr|].
    destruct Hcase as [(e' & He & Hq)|(p & Hin & Hres & Hq)].
    + left. by exists e'.
    + right. by exists p.
Qed.

Lemma execute_returned v fuel model prompt s response :
  (attempt v model prompt s).1 = Ok response →
  execute v (S fuel) model prompt s = Some (attempt v model prompt s).
Proof.
  rewrite execute_step. unfold attempt.
  by destruct (execute_body v model prompt s) as [[r|e] s1].
Qed.

Lemma execute_no_fallback v fuel model prompt s :
  filter (fun m => m ≠ model) (clients (router s)) = [] →
  execute v (S fuel) model prompt s = Some (attempt v model prompt s).
Proof.
  intros Hnone. rewrite execute_step. unfold attempt.
  destruct (execute_body_effect v model prompt s) as [Hr _].
  destruct (execute_body v model prompt s) as [[r|e] s1]; [done|].
  cbn [fst snd] in *. cbv zeta.
  change (clients (router (zoom router set_router (logger ERROR ?msg) s1).2))
    with (clients (router s1)).
  by rewrite Hr, Hnone.
Qed.

Lemma execute_fallback v fuel model prompt s e fallback_model rest :
  (attempt v model prompt s).1 = Raise e →
  filter (fun m => m ≠ model) (clients (router s)) = fallback_model :: rest →
  execute v (S fuel) model prompt s
  = execute v fuel fallback_model prompt
            (trying fallback_model (attempt v model prompt s).2).
Proof.
  intros Hraise Hsome. rewrite execute_step. unfold attempt in *.
  destruct (execute_body_effect v model prompt s) as [Hr _].
  destruct (execute_body v model prompt s) as [[r|e'] s1]; [done|].
  cbn [fst snd] in *. cbv zeta.
  change (clients (router (zoom router set_router (logger ERROR ?msg) s1).2))
    with (clients (router s1)).
  by rewrite Hr, Hsome.
Qed.

Lemma trying_effect fallback_model s :
  clients (router (trying fallback_model s)) = clients (router s)
  ∧ requests (trying fallback_model s) = requests s.
Proof. done. Qed.

Lemma attempt_sent v model prompt s :
  ∃ sent, requests (attempt v model prompt s).2 = requests s ++ sent
          ∧ (length sent ≤ 1)%nat.
Proof.
  destruct (attempt_effect v model prompt s) as [_ [(e & _ & Hq)|(p & _ & _ & Hq)]].
  - exists []. rewrite Hq, app_nil_r. split; [done|]. simpl. lia.
  - exists [(p, prompt)]. split; [done|]. simpl. lia.
Qed.

(** With at most one client, [execute] ends within two levels of its
    recursion, whatever the model and whatever the vendor does: it returns
    or raises after at most two requests, and leaves the clients as they
    were. *)
Theorem execute_with_one_client_ends v model prompt s :
  (length (clients (router s)) ≤ 1)%nat →
  ∃ r s',
    (∀ fuel, (2 ≤ fuel)%nat → execute v fuel model prompt s = Some (r, s'))
    ∧ clients (router s') = clients (router s)
    ∧ ∃ sent, requests s' = requests s ++ sent ∧ (length sent ≤ 2)%nat.
Proof.
  intros Hone.
  destruct (attempt_effect v model prompt s) as [Hc1 _].
  destruct (attempt_sent v model prompt s) as (sent1 & Hq1 & Hl1).
  assert (Hdirect :
    (∀ fuel, execute v (S fuel) model prompt s = Some (attempt v model prompt s)) →
    ∃ r s',
      (∀ fuel, (2 ≤ fuel)%nat → execute v fuel model prompt s = Some (r, s'))
      ∧ clients (router s') = clients (router s)
      ∧ ∃ sent, requests s' = requests s ++ sent ∧ (length sent ≤ 2)%nat).
  { intros Hex. exists (attempt v model prompt s).1, (attempt v model prompt s).2.
    split; [|split; [done|]].
    - intros [|fuel] Hf; [lia|]. rewrite Hex. by destruct (attempt v model prompt s).
    - exists sent1. split; [done|lia]. }
  destruct (attempt v model prompt s).1 as [response|e] eqn:Hr1.
  { apply Hdirect. intros fuel. by eapply execute_returned. }
  destruct (filter (fun m => m ≠ model) (clients (router s)))
    as [|fallback_model rest] eqn:Hfil.
  { apply Hdirect. intros fuel. by apply execute_no_fallback. }
  (* the one client is the fallback *)
  assert (Hcl : clients (router s) = [fallback_model]).
  { destruct (clients (router s)) as [|c [|c' cs]]; [done| |simpl in Hone; lia].
    assert (Hin : fallback_model ∈ filter (fun m => m ≠ model) [c])
      by (rewrite Hfil; apply list_elem_of_here).
    apply list_elem_of_filter in Hin as [_ Hin].
    by apply list_elem_of_singleton in Hin as ->. }
  set (s2 := trying fallback_model (attempt v model prompt s).2).
  destruct (trying_effect fallback_model (attempt v model prompt s).2) as [Hc2 Hq2].
  fold s2 in Hc2, Hq2.
  assert (Hcl2 : clients (router s2) = [fallback_model]) by (by rewrite Hc2, Hc1).
  destruct (attempt_effect v fallback_model prompt s2) as [Hc3 _].
  destruct (attempt_sent v fallback_model prompt s2) as (sent2 & Hq3 & Hl3).
  exists (attempt v fallback_model prompt s2).1, (attempt v fallback_model prompt s2).2.
  split; [|split].
  - intros [|[|fuel]] Hf; [lia..|].
    rewrite (execute_fallback v (S fuel) model prompt s e fallback_model rest Hr1 Hfil).
    fold s2. rewrite execute_no_fallback.
    + by destruct (attempt v fallback_model prompt s2).
    + rewrite Hcl2, filter_cons_False; [done|]. by intros H.
  - by rewrite Hc3, Hcl2.
  - exists (sent1 ++ sent2). split.
    + by rewrite Hq3, Hq2, Hq1, app_assoc.
    + rewrite length_app. lia.
Qed.


Lemma execute_with_one_client_ends_witness :
  (length (clients (router (ExampleVendors.session_of ExampleVendors.flaky
                              ExampleVendors.openai_only))) ≤ 1)%nat
  ∧ ∃ r s',
      (∀ fuel, (2 ≤ fuel)%nat →
               execute ExampleVendors.flaky fuel "gpt4" "hello"
                       (ExampleVendors.session_of ExampleVendors.flaky
                          ExampleVendors.openai_only) = Some (r, s'))
      ∧ clients (router s')
        = clients (router (ExampleVendors.session_of ExampleVendors.flaky
                             ExampleVendors.openai_only))
      ∧ ∃ sent,
          requests s'
          = requests (ExampleVendors.session_of ExampleVendors.flaky
                        ExampleVendors.openai_only) ++ sent
          ∧ (length sent ≤ 2)%nat.
Proof.
  assert (H : (length (clients (router (ExampleVendors.session_of ExampleVendors.flaky
                                          ExampleVendors.openai_only))) ≤ 1)%nat)
    by (vm_compute; lia).
  split; [exact H|].
  exact (execute_with_one_client_ends ExampleVendors.flaky "gpt4" "hello" _ H).
Defined.

(** When OpenAI is the only client and the request for [gpt4] fails, the
    model the handler falls back on is [openai]: the same client is asked a
    second time, with the same prompt, and [execute] returns or raises what
    this second request does. *)
Theorem gpt4_falls_back_on_openai v prompt s e fuel :
  clients (router s) = ["openai"] →
  complete v "openai" prompt (length (requests s)) = Raise e →
  (2 ≤ fuel)%nat →
  ∃ s',
    execute v fuel "gpt4" prompt s
    = Some (complete v "openai" prompt (S (length (requests s))), s')
    ∧ requests s' = requests s ++ [("openai", prompt); ("openai", prompt)].
Proof.
  intros Hcl Hfail Hfuel.
  destruct fuel as [|[|fuel]]; [lia..|].
  assert (Hbody : ∀ model s0,
            model ∈ ["gpt4"; "openai"] →
            clients (router s0) = ["openai"] →
            execute_body v model prompt s0 = request v "openai" prompt s0).
  { intros model s0 Hm Hc. apply execute_body_served.
    - apply elem_of_cons in Hm as [->|Hm]; [done|].
      by apply list_elem_of_singleton in Hm as ->.
    - rewrite Hc. apply list_elem_of_here.
    - done. }
  assert (H1 : attempt v "gpt4" prompt s
               = (Raise e,
                  (zoom router set_router
                     (logger ERROR ("Model execution failed for gpt4: " +:+ exn_str e))
                     (Build_session (router s) (requests s ++ [("openai", prompt)]))).2)).
  { unfold attempt. rewrite Hbody by (done || apply list_elem_of_here).
    unfold request. by rewrite Hfail. }
  rewrite (execute_fallback v (S fuel) "gpt4" prompt s e "openai" []);
    [|by rewrite H1|by rewrite Hcl].
  rewrite H1. cbn [snd].
  set (s2 := trying "openai" _).
  assert (Hc2 : clients (router s2) = ["openai"]) by exact Hcl.
  assert (Hq2 : requests s2 = requests s ++ [("openai", prompt)]) by reflexivity.
  rewrite execute_no_fallback by (by rewrite Hc2).
  unfold attempt.
  rewrite Hbody by (done || apply list_elem_of_further, list_elem_of_here).
  unfold request. rewrite Hq2, length_app. cbn [length].
  replace (length (requests s) + 1)%nat with (S (length (requests s))) by lia.
  destruct (complete v "openai" prompt (S (length (requests s)))) as [response|e2];
    eexists; (split; [reflexivity|]); cbn; by rewrite <- app_assoc.
Qed.

Lemma gpt4_falls_back_on_openai_witness :
  clients (router (ExampleVendors.session_of ExampleVendors.flaky
                     ExampleVendors.openai_only)) = ["openai"]
  ∧ ∃ s',
      execute ExampleVendors.flaky 2 "gpt4" "hello"
              (ExampleVendors.session_of ExampleVendors.flaky ExampleVendors.openai_only)
      = Some (Ok "openai on hello", s')
      ∧ requests s' = [("openai", "hello"); ("openai", "hello")].
Proof.
  split; [vm_compute; reflexivity|].
  exact (gpt4_falls_back_on_openai ExampleVendors.flaky "hello"
           (ExampleVendors.session_of ExampleVendors.flaky ExampleVendors.openai_only)
           (Exn "APIConnectionError" "Connection error.") 2
           eq_refl eq_refl (le_n 2)).
Defined.

(** With two providers whose requests always fail, the fallback of
    [execute] passes from one to the other without end: at no depth of its
    calls to itself does [execute] return, or raise the provider's error. *)
Theorem failing_providers_never_end v s provider other :
  always_failing v →
  provider ∈ clients (router s) →
  other ∈ clients (router s) →
  provider ≠ other →
  ∀ fuel model prompt, execute v fuel model prompt s = None.
Proof.
  intros Hfail Hp Ho Hne fuel. revert s Hp Ho.
  induction fuel as [|fuel IH]; intros s Hp Ho model prompt; [done|].
  destruct (attempt_effect v model prompt s) as [Hc Hcase].
  assert (Hraise : ∃ e, (attempt v model prompt s).1 = Raise e).
  { destruct Hcase as [(e & He & _)|(p & _ & Hres & _)]; [by exists e|].
    destruct (Hfail p prompt (length (requests s))) as [e He].
    exists e. by rewrite Hres. }
  destruct Hraise as [e He].
  destruct (filter (fun m => m ≠ model) (clients (router s)))
    as [|fallback_model rest] eqn:Hfil.
  { exfalso.
    assert (Hnone : ∀ m, m ∈ clients (router s) → m = model).
    { intros m Hm. destruct (decide (m = model)) as [|Hd]; [done|].
      assert (Hin : m ∈ filter (fun m => m ≠ model) (clients (router s)))
        by (by apply list_elem_of_filter).
      rewrite Hfil in Hin. by apply elem_of_nil in Hin. }
    apply Hne. by rewrite (Hnone _ Hp), (Hnone _ Ho). }
  rewrite (execute_fallback v fuel model prompt s e fallback_model rest He Hfil).
  apply IH.
  - destruct (trying_effect fallback_model (attempt v model prompt s).2) as [-> _].
    by rewrite Hc.
  - destruct (trying_effect fallback_model (attempt v model prompt s).2) as [-> _].
    by rewrite Hc.
Qed.

Lemma failing_providers_never_end_witness :
  always_failing ExampleVendors.failing
  ∧ "openai" ∈ clients (router (ExampleVendors.session_of ExampleVendors.failing
                                  ExampleVendors.both_keys))
  ∧ "claude" ∈ clients (router (ExampleVendors.session_of ExampleVendors.failing
                                  ExampleVendors.both_keys))
  ∧ ∀ fuel model prompt,
      execute ExampleVendors.failing fuel model prompt
              (ExampleVendors.session_of ExampleVendors.failing ExampleVendors.both_keys)
      = None.
Proof.
  assert (H0 : always_failing ExampleVendors.failing)
    by (intros provider prompt n; eexists; reflexivity).
  assert (H1 : "openai" ∈ clients (router (ExampleVendors.session_of
                 ExampleVendors.failing ExampleVendors.both_keys)))
    by (vm_compute; apply list_elem_of_here).
  assert (H2 : "claude" ∈ clients (router (ExampleVendors.session_of
                 ExampleVendors.failing ExampleVendors.both_keys)))
    by (vm_compute; apply list_elem_of_further, list_elem_of_here).
  split; [exact H0|]. split; [exact H1|]. split; [exact H2|].
  exact (failing_providers_never_end ExampleVendors.failing _ "openai" "claude"
           H0 H1 H2 ltac:(discriminate)).
Defined.

End Clients.

(** ** The configuration *)

Lemma config_value_induction (P : ConfigManager.config_value → Prop) :
  P ConfigManager.VNone →
  (∀ b, P (ConfigManager.VBool b)) →
  (∀ n, P (ConfigManager.VInt n)) →
  (∀ literal, P (ConfigManager.VFloat literal)) →
  (∀ s, P (ConfigManager.VStr s)) →
  (∀ l, P (ConfigManager.VList l)) →
  (∀ d, Forall (fun item => P item.2) d → P (ConfigManager.VDict d)) →
  ∀ v, P v.
Proof.
  intros HNone HBool HInt HFloat HStr HList HDict.
  fix IH 1.
  intros [|b|n|literal|s|l|d];
    [exact HNone | apply HBool | apply HInt | apply HFloat | apply HStr | apply HList |].
  apply HDict. induction d as [|[k v] d IHd]; constructor; [apply IH | exact IHd].
Qed.

Lemma dict_set_elem {V} (d : list (string * V)) k v item :
  item ∈ Py.dict_set d k v → item ∈ d ∨ item = (k, v).
Proof.
  induction d as [|[k' v'] d IH]; simpl.
  - intros ->%list_elem_of_singleton. by right.
  - destruct (String.eqb_spec k' k) as [->|Hne].
    + intros [->|Hin]%elem_of_cons; [by right|]. left. by apply list_elem_of_further.
    + intros [->|Hin]%elem_of_cons; [left; apply list_elem_of_here|].
      destruct (IH Hin) as [H|H]; [left; by apply list_elem_of_further | by right].
Qed.

Lemma dict_elem items item : item ∈ ConfigManager.dict items → item ∈ items.
Proof.
  unfold ConfigManager.dict.
  assert (H : ∀ acc, item ∈ foldl (fun d it => Py.dict_set d it.1 it.2) acc items →
                     item ∈ acc ∨ item ∈ items).
  { induction items as [|[k v] items IH]; intros acc; simpl; [by left|].
    intros Hin. destruct (IH _ Hin) as [Hacc|Hit].
    - destruct (dict_set_elem _ _ _ _ Hacc) as [H| ->]; [by left|].
      right. apply list_elem_of_here.
    - right. by apply list_elem_of_further. }
  intros Hin. destruct (H [] Hin) as [Hnil|Hit]; [by apply elem_of_nil in Hnil | done].
Qed.

Lemma flatten_elem d parent_key sep key val :
  (key, val) ∈ ConfigManager._flatten_dict d parent_key sep →
  ∃ k v, (k, v) ∈ d
         ∧ match v with
           | ConfigManager.VDict d' =>
               (key, val) ∈ ConfigManager._flatten_dict
                              d' (ConfigManager.new_key parent_key sep k) sep
           | _ => key = ConfigManager.new_key parent_key sep k ∧ val = v
           end.
Proof.
  unfold ConfigManager._flatten_dict at 1. cbn [ConfigManager.flatten].
  intros Hin%dict_elem. revert Hin.
  induction d as [|[k v] d IH]; [by intros ?%elem_of_nil|].
  intros [Hin|Hin]%elem_of_app.
  - exists k, v. split; [apply list_elem_of_here|].
    destruct v; try (by apply list_elem_of_singleton in Hin as [= -> ->]).
    exact Hin.
  - destruct (IH Hin) as (k' & v' & Hd & Hcase).
    exists k', v'. split; [by apply list_elem_of_further | done].
Qed.

Lemma plain_keys_elem d k v :
  ConfigSpec.plain_keys (ConfigManager.VDict d) →
  (k, v) ∈ d →
  Py.dict_get d k = Some v
  ∧ k ≠ "" ∧ Spec.has_char "." k = false ∧ ConfigSpec.plain_keys v.
Proof.
  cbn [ConfigSpec.plain_keys]. intros [Hnd Hall] Hin.
  split; [by apply elem_of_dict_get|].
  clear Hnd. induction d as [|[k' v'] d IH]; [by apply elem_of_nil in Hin|].
  destruct Hall as [Hhere Hall].
  apply elem_of_cons in Hin as [[= -> ->]|Hin]; [exact Hhere | by apply IH].
Qed.

Lemma join_snoc sep (path : list string) k :
  path ≠ [] → Py.join sep (path ++ [k]) = Py.join sep path +:+ sep +:+ k.
Proof.
  induction path as [|p path IH]; [done|]. intros _.
  destruct path as [|q path]; [reflexivity|].
  change (Py.join sep ((p :: q :: path) ++ [k]))
    with (p +:+ sep +:+ Py.join sep ((q :: path) ++ [k])).
  rewrite IH by done.
  change (Py.join sep (p :: q :: path)) with (p +:+ sep +:+ Py.join sep (q :: path)).
  by rewrite !app_assoc_str.
Qed.

Lemma join_nonempty sep (path : list string) :
  path ≠ [] → Forall (fun k => k ≠ "") path → Py.join sep path ≠ "".
Proof.
  intros Hne Hall. destruct Hall as [|p path Hp Hall]; [done|].
  destruct path; [exact Hp|].
  change (Py.join sep (p :: s :: path)) with (p +:+ sep +:+ Py.join sep (s :: path)).
  destruct p; [done|]. discriminate.
Qed.

Lemma new_key_join (path : list string) k :
  Forall (fun k => k ≠ "") path →
  ConfigManager.new_key (Py.join "." path) "." k = Py.join "." (path ++ [k]).
Proof.
  intros Hall. unfold ConfigManager.new_key.
  destruct path as [|p path]; [reflexivity|].
  rewrite join_snoc by done.
  destruct (String.eqb_spec (Py.join "." (p :: path)) "") as [Hempty|_]; [|reflexivity].
  by apply join_nonempty in Hempty.
Qed.

Lemma flatten_path default v :
  ∀ d, v = ConfigManager.VDict d →
  ConfigSpec.plain_keys v →
  ∀ path key val,
    Forall (fun k => k ≠ "") path →
    (key, val) ∈ ConfigManager._flatten_dict d (Py.join "." path) "." →
    ∃ rest,
      rest ≠ []
      ∧ Forall (fun k => Spec.has_char "." k = false) rest
      ∧ key = Py.join "." (path ++ rest)
      ∧ ConfigManager.get_loop rest (ConfigManager.VDict d) default = val
      ∧ ConfigSpec.is_dict val = false.
Proof.
  induction v as [| | | | | |d0 IH] using config_value_induction; try done.
  intros d [= <-] Hplain path key val Hpath Hin.
  destruct (flatten_elem _ _ _ _ _ Hin) as (k & v & Hd & Hcase).
  destruct (plain_keys_elem _ _ _ Hplain Hd) as (Hget & Hk & Hdot & Hsub).
  rewrite new_key_join in Hcase by done.
  assert (Hleaf : key = Py.join "." (path ++ [k]) ∧ val = v → ConfigSpec.is_dict v = false →
            ∃ rest, rest ≠ []
              ∧ Forall (fun k => Spec.has_char "." k = false) rest
              ∧ key = Py.join "." (path ++ rest)
              ∧ ConfigManager.get_loop rest (ConfigManager.VDict d0) default = val
              ∧ ConfigSpec.is_dict val = false).
  { intros [-> ->] Hnd. exists [k]. repeat split; try done.
    - by constructor.
    - cbn [ConfigManager.get_loop]. by rewrite Hget. }
  destruct v as [| | | | | |d']; try (by apply Hleaf).
  rewrite Forall_forall in IH.
  destruct (IH (k, ConfigManager.VDict d') Hd d' eq_refl Hsub
               (path ++ [k]) key val) as (rest & Hne & Hdots & Hkey & Hloop & Hnd);
    [by apply Forall_app; split; [|constructor] | done |].
  exists (k :: rest). repeat split; try done.
  - by constructor.
  - by rewrite Hkey, <- app_assoc.
  - cbn [ConfigManager.get_loop]. by rewrite Hget.
Qed.

(** When every key of the configuration, at every depth, is not empty and
    holds no dot, each item of the flattened view can be read back:
    [get] on the item's key returns the item's value, whatever the default.
    No value of the flattened view is a dict. *)
Theorem flattened_items_read_back s key val default :
  ConfigSpec.plain_keys (ConfigManager.VDict (ConfigManager._config s)) →
  (key, val) ∈ ConfigManager.items s →
  ConfigManager.get s key default = val ∧ ConfigSpec.is_dict val = false.
Proof.
  intros Hplain Hin.
  destruct (flatten_path default _ _ eq_refl Hplain [] key val) as
    (rest & Hne & Hdots & -> & Hloop & Hnd); [constructor | exact Hin |].
  split; [|exact Hnd].
  unfold ConfigManager.get. cbv zeta. cbn [app].
  by rewrite (split_join "." rest).
Qed.

Lemma flattened_items_read_back_witness :
  ConfigSpec.plain_keys (ConfigManager.VDict (ConfigManager._config ExampleConfig.defaults))
  ∧ ("llm.model_preferences.coding", ConfigManager.VStr "gpt4")
    ∈ ConfigManager.items ExampleConfig.defaults
  ∧ ConfigManager.get ExampleConfig.defaults "llm.model_preferences.coding"
                      ConfigManager.VNone
    = ConfigManager.VStr "gpt4"
  ∧ ConfigSpec.is_dict (ConfigManager.VStr "gpt4") = false.
Proof.
  assert (Hplain : ConfigSpec.plain_keys
                     (ConfigManager.VDict (ConfigManager._config ExampleConfig.defaults))).
  { cbn. repeat split; try done; refine (bool_decide_unpack _ _); vm_compute; exact I. }
  assert (Hin : ("llm.model_preferences.coding", ConfigManager.VStr "gpt4")
                ∈ ConfigManager.items ExampleConfig.defaults).
  { vm_compute. do 2 apply list_elem_of_further. apply list_elem_of_here. }
  split; [exact Hplain|]. split; [exact Hin|].
  exact (flattened_items_read_back ExampleConfig.defaults "llm.model_preferences.coding"
           (ConfigManager.VStr "gpt4") ConfigManager.VNone Hplain Hin).
Defined.

(** The condition on the keys is needed: an item whose key holds a dot is
    listed in the flattened view and is not read back. *)
Example dotted_key_is_not_read_back :
  ("api.host", ConfigManager.VStr "localhost") ∈ ConfigManager.items ExampleConfig.dotted
  ∧ ConfigManager.get ExampleConfig.dotted "api.host" ConfigManager.VNone
    = ConfigManager.VNone.
Proof. split; [vm_compute; apply list_elem_of_here | reflexivity]. Qed.

Section Assignment.
Variable type_error_text : ConfigManager.config_value → string → string.
Variable _save_config : list (string * ConfigManager.config_value) → result unit.

Lemma dict_set_same {V} (d : list (string * V)) k v :
  Py.dict_get d k = Some v → Py.dict_set d k v = d.
Proof.
  induction d as [|[k' v'] d IH]; [done|]. simpl.
  destruct (String.eqb_spec k' k) as [->|Hne].
  - by intros [= ->].
  - intros H. by rewrite IH.
Qed.

Lemma assign_obstacle path last value config other k :
  ConfigSpec.obstacle path last config = Some (other, k) →
  ConfigManager.assign type_error_text path last value config
  = (Raise (TypeError (type_error_text other k)), config).
Proof.
  revert config. induction path as [|k0 path IH]; intros config; [done|].
  cbn [ConfigSpec.obstacle ConfigManager.assign].
  destruct (Py.dict_get config k0) as [v0|] eqn:Hget; [|done].
  destruct v0 as [| | | | | |sub]; try (by intros [= <- <-]).
  intros Hob. rewrite (IH _ Hob). by rewrite dict_set_same.
Qed.

Lemma assign_clear path last value default config :
  ConfigSpec.obstacle path last config = None →
  (ConfigManager.assign type_error_text path last value config).1 = Ok tt
  ∧ ConfigManager.get_loop
      (path ++ [last])
      (ConfigManager.VDict (ConfigManager.assign type_error_text path last value config).2)
      default
    = value.
Proof.
  revert config. induction path as [|k0 path IH]; intros config.
  - intros _. split; [done|].
    cbn [app ConfigManager.assign snd ConfigManager.get_loop].
    by rewrite dict_get_set_eq.
  - cbn [ConfigSpec.obstacle ConfigManager.assign].
    destruct (Py.dict_get config k0) as [v0|] eqn:Hget.
    + destruct v0 as [| | | | | |sub]; try done.
      intros Hob. destruct (IH sub Hob) as [Hr Hloop].
      destruct (ConfigManager.assign type_error_text path last value sub) as [r sub'].
      cbn [fst snd] in *. split; [done|].
      cbn [app ConfigManager.get_loop]. by rewrite dict_get_set_eq.
    + intros _. destruct (IH [] ltac:(by destruct path)) as [Hr Hloop].
      destruct (ConfigManager.assign type_error_text path last value []) as [r sub'].
      cbn [fst snd] in *. split; [done|].
      cbn [app ConfigManager.get_loop]. by rewrite dict_get_set_eq.
Qed.

(** [set] on a key whose path meets a value that is not a dict raises a
    [TypeError] and leaves the configuration as it was. On any other key it
    updates the configuration so that [get] on the same key returns the
    value just set, whatever the default, and it returns or raises what
    saving the configuration does: an error while saving does not undo the
    update in memory. *)
Theorem set_then_get s key value default :
  let keys := Py.split "." key in
  let after := ConfigManager.set type_error_text _save_config key value s in
  match ConfigSpec.obstacle (removelast keys) (List.last keys "")
                            (ConfigManager._config s) with
  | Some (other, k) => after = (Raise (TypeError (type_error_text other k)), s)
  | None =>
      after.1 = _save_config (ConfigManager._config after.2)
      ∧ ConfigManager.get after.2 key default = value
  end.
Proof.
  intros keys after. subst after. unfold ConfigManager.set. cbv zeta. fold keys.
  destruct (ConfigSpec.obstacle _ _ _) as [[other k]|] eqn:Hob.
  - unfold bind. rewrite (assign_obstacle _ _ value _ _ _ Hob). by destruct s.
  - destruct (assign_clear _ _ value default _ Hob) as [Hr Hloop].
    unfold bind.
    destruct (ConfigManager.assign _ _ _ _ _) as [r config]. cbn [fst snd] in *.
    subst r. cbn [fst snd ConfigManager._config]. split; [done|].
    unfold ConfigManager.get. cbn [ConfigManager._config]. fold keys.
    rewrite <- Hloop. f_equal.
    destruct (split_nonempty "." key) as (h & t & Hk). unfold keys. rewrite Hk.
    apply app_removelast_last. done.
Qed.

End Assignment.

(** The two cases on an example: a new nested key is created and read back;
    a path through a string raises and changes nothing. *)
Example set_examples (text : ConfigManager.config_value → string → string) :
  ConfigManager.get
    (ConfigManager.set text (fun _ => Raise (PermissionError "config")) "api.rate.limit"
                       (ConfigManager.VInt 100) ExampleConfig.defaults).2
    "api.rate.limit" ConfigManager.VNone
  = ConfigManager.VInt 100
  ∧ ConfigManager.set text (fun _ => Ok tt) "llm.default_model.name"
                      (ConfigManager.VStr "claude") ExampleConfig.defaults
    = (Raise (TypeError (text (ConfigManager.VStr "auto") "name")),
       ExampleConfig.defaults).
Proof. split; reflexivity. Qed.
